(** * SmartOCR: document model and batch conversion pipeline

    A shallow embedding of [core types/document_class.py] (the
    [DocumentClass] registry) and of the conversion pipeline of
    [smartocr.py] ([ocr_page], [run_ocr], [_ocr_worker_thread]), followed
    by the properties the specification states about them.

    Conventions of the embedding.
    - Python [int] is [Z]; Python [str] is [string].  The model is that
      of ASCII text ([is_ascii], Python's [str.isascii]): on it [strip],
      [lower], [upper] and [int] below are Python's.  Outside it Python
      follows Unicode (more white space, more cased letters, more digits),
      which [string] cannot hold; a statement that depends on how a text
      is stripped, cased or read as a number therefore assumes that the
      text is ASCII.
    - Calls into other libraries (pdf2image, the LM Studio model, the page
      counters used by [detect_type]) and the cancellation event set by
      the control thread are parameters of the definitions.
    - The worker thread keeps a chronological [trace] of what it did: each
      read of the cancellation flag, each render call, each recognition
      call and each text it schedules for the results widget. *)

From Stdlib Require Import ZArith List String Ascii Bool Lia DecimalString Sorted.
From Stdlib Require DecimalPos.
Import ListNotations.

Open Scope list_scope.
Open Scope string_scope.
Open Scope Z_scope.

(* ================================================================== *)
(** * Part I: definitions *)
(* ================================================================== *)

(** ** Python string operations used by the sources *)

Module PyStr.

(** [s.isascii()]: every character is below 128. *)
Definition is_ascii_char (c : ascii) : bool := (nat_of_ascii c <? 128)%nat.

Fixpoint is_ascii (s : string) : bool :=
  match s with
  | EmptyString => true
  | String c r => is_ascii_char c && is_ascii r
  end.

(** [str.isspace] on the characters below 128: TAB, LF, VT, FF, CR, the
    four separators FS, GS, RS, US, and the space. *)
Definition is_space (c : ascii) : bool :=
  let n := nat_of_ascii c in
  ((9 <=? n) && (n <=? 13) || (28 <=? n) && (n <=? 32))%nat.

Definition ascii_lower (c : ascii) : ascii :=
  let n := nat_of_ascii c in
  if ((65 <=? n) && (n <=? 90))%nat then ascii_of_nat (n + 32) else c.

Definition ascii_upper (c : ascii) : ascii :=
  let n := nat_of_ascii c in
  if ((97 <=? n) && (n <=? 122))%nat then ascii_of_nat (n - 32) else c.

Fixpoint map_string (f : ascii -> ascii) (s : string) : string :=
  match s with
  | EmptyString => EmptyString
  | String c r => String (f c) (map_string f r)
  end.

(** [s.lower()] and [s.upper()] on ASCII text *)
Definition lower : string -> string := map_string ascii_lower.
Definition upper : string -> string := map_string ascii_upper.

(** [s.startswith(p)] *)
Fixpoint startswith (s p : string) {struct p} : bool :=
  match p with
  | EmptyString => true
  | String a p' =>
      match s with
      | EmptyString => false
      | String b s' => Ascii.eqb a b && startswith s' p'
      end
  end.

(** [s.endswith(p)]: [p] is [s] or one of its proper tails. *)
Fixpoint endswith (s p : string) : bool :=
  String.eqb s p ||
  match s with
  | EmptyString => false
  | String _ r => endswith r p
  end.

(** [s[n:]] for [n >= 0] *)
Fixpoint drop (n : nat) (s : string) : string :=
  match n, s with
  | O, _ => s
  | S _, EmptyString => EmptyString
  | S m, String _ r => drop m r
  end.

(** [s[:-n]] for [n > 0]; empty when [s] has at most [n] characters. *)
Definition drop_last (n : nat) (s : string) : string :=
  substring 0 (String.length s - n) s.

(** [s.lstrip()], [s.rstrip()], [s.strip()] *)
Fixpoint lstrip (s : string) : string :=
  match s with
  | EmptyString => EmptyString
  | String c r => if is_space c then lstrip r else s
  end.

Fixpoint rstrip (s : string) : string :=
  match s with
  | EmptyString => EmptyString
  | String c r =>
      match rstrip r with
      | EmptyString => if is_space c then EmptyString else String c EmptyString
      | r' => String c r'
      end
  end.

Definition strip (s : string) : string := rstrip (lstrip s).

(** [s.lstrip('.')] *)
Fixpoint lstrip_dots (s : string) : string :=
  match s with
  | EmptyString => EmptyString
  | String c r => if Ascii.eqb c "."%char then lstrip_dots r else s
  end.

(** [str(n)] for an integer *)
Definition str_of_int (n : Z) : string := NilZero.string_of_int (Z.to_int n).

(** [sep.join(parts)] *)
Definition join (sep : string) (parts : list string) : string :=
  String.concat sep parts.

(** Truth value of a string: non-empty. *)
Definition nonempty (s : string) : bool :=
  match s with EmptyString => false | _ => true end.

Definition is_digit (c : ascii) : bool :=
  let n := nat_of_ascii c in ((48 <=? n) && (n <=? 57))%nat.

Definition digit_value (c : ascii) : Z := Z.of_nat (nat_of_ascii c) - 48.

(** Digits of a decimal literal after the optional sign, as [int()] reads
    them: a digit first, then digits, each optionally preceded by one
    underscore.  [acc] is the value read so far; [after_digit] tells
    whether the previous character was a digit. *)
Fixpoint int_digits (acc : Z) (after_digit : bool) (s : string) : option Z :=
  match s with
  | EmptyString => if after_digit then Some acc else None
  | String c r =>
      if is_digit c then int_digits (10 * acc + digit_value c) true r
      else if Ascii.eqb c "_"%char then
             if after_digit then int_digits acc false r else None
           else None
  end.

(** [int(s)] in base ten on ASCII text: [None] stands for [ValueError].
    Recent versions of Python also raise [ValueError] on a numeral of more
    than 4300 digits; the model has no such limit, so a statement about
    what is read in a field assumes that the field holds at most that
    many characters. *)
Definition py_int (s : string) : option Z :=
  match strip s with
  | String "-" r => option_map Z.opp (int_digits 0 false r)
  | String "+" r => int_digits 0 false r
  | r => int_digits 0 false r
  end.

Definition nl : string := String (ascii_of_nat 10) EmptyString.

End PyStr.

(** ** The document registry ([core types/document_class.py]) *)

Module Document.
Import PyStr.

(** Modelled from the spec: the [ObjectType] class that [add_object]
    instantiates is not among the sources; its four fields are those of
    the specification's [ExtractedObject], in the order in which
    [add_object] passes them.  Two objects are equal when their fields are,
    which is what [list.remove] compares. *)
Record ObjectType := mkObject {
  index : Z;
  page : option Z;
  content : string;
  coordinates : option (list Z)
}.

Record DocumentClass := mkDocument {
  file_type : option string;
  objects : list ObjectType;
  obj_index : Z;
  pages : Z
}.

(** [__init__] *)
Definition new_document : DocumentClass :=
  mkDocument None [] 0 0.

Definition add_page (d : DocumentClass) : DocumentClass :=
  mkDocument (file_type d) (objects d) (obj_index d) (pages d + 1).

Definition add_object (d : DocumentClass) (pg : option Z) (text : string)
    (coords : option (list Z)) : DocumentClass :=
  let new_object := mkObject (obj_index d) pg text coords in
  mkDocument (file_type d) (objects d ++ [new_object])%list (obj_index d + 1)
             (pages d).

Definition option_eqb {A} (eqb : A -> A -> bool) (x y : option A) : bool :=
  match x, y with
  | None, None => true
  | Some a, Some b => eqb a b
  | _, _ => false
  end.

Fixpoint list_eqb {A} (eqb : A -> A -> bool) (x y : list A) : bool :=
  match x, y with
  | [], [] => true
  | a :: x', b :: y' => eqb a b && list_eqb eqb x' y'
  | _, _ => false
  end.

Definition object_eqb (a b : ObjectType) : bool :=
  (index a =? index b) && option_eqb Z.eqb (page a) (page b)
  && String.eqb (content a) (content b)
  && option_eqb (list_eqb Z.eqb) (coordinates a) (coordinates b).

(** [get_object]: the first object carrying the index, if any. *)
Fixpoint find_object (i : Z) (objs : list ObjectType) : option ObjectType :=
  match objs with
  | [] => None
  | obj :: rest => if index obj =? i then Some obj else find_object i rest
  end.

Definition get_object (d : DocumentClass) (i : Z) : option ObjectType :=
  find_object i (objects d).

(** [list.remove(x)]: drops the first element equal to [x]. *)
Fixpoint list_remove (x : ObjectType) (objs : list ObjectType)
  : list ObjectType :=
  match objs with
  | [] => []
  | y :: rest => if object_eqb y x then rest else y :: list_remove x rest
  end.

(** The loop of [delete_object].  It removes from the very list it
    iterates over: the iterator is a position [pos] into the current list,
    it stops as soon as [pos] is past the end, and it advances by one after
    every element, also after a removal.  [fuel] bounds the number of
    iterations; the length of the list is always enough. *)
Fixpoint delete_loop (fuel : nat) (i : Z) (pos : nat)
    (objs : list ObjectType) : list ObjectType :=
  match fuel with
  | O => objs
  | S fuel' =>
      match nth_error objs pos with
      | None => objs
      | Some obj =>
          if index obj =? i
          then delete_loop fuel' i (S pos) (list_remove obj objs)
          else delete_loop fuel' i (S pos) objs
      end
  end.

(** [delete_object] returns the number of objects removed. *)
Definition delete_object (d : DocumentClass) (i : Z) : Z * DocumentClass :=
  let before := Z.of_nat (List.length (objects d)) in
  let objs := delete_loop (List.length (objects d)) i 0 (objects d) in
  (before - Z.of_nat (List.length objs),
   mkDocument (file_type d) objs (obj_index d) (pages d)).

Definition has_pages (d : DocumentClass) : bool := 0 <? pages d.

Definition page_differs (doc_page : Z) (obj : ObjectType) : bool :=
  match page obj with
  | Some p => negb (p =? doc_page)
  | None => true
  end.

(** [delete_page_objects] returns [0] on a document without pages and
    [None] otherwise. *)
Definition delete_page_objects (d : DocumentClass) (doc_page : Z)
  : option Z * DocumentClass :=
  if negb (has_pages d) then (Some 0, d)
  else (None,
        mkDocument (file_type d) (filter (page_differs doc_page) (objects d))
                   (obj_index d) (pages d)).

(** *** Format detection *)

(** [name.rfind('.')]: position of the last dot. *)
Fixpoint rfind_dot (s : string) : option nat :=
  match s with
  | EmptyString => None
  | String c r =>
      match rfind_dot r with
      | Some k => Some (S k)
      | None => if Ascii.eqb c "."%char then Some O else None
      end
  end.

(** Path components between slashes; [cur] is the component being read. *)
Fixpoint split_slash (cur : string) (s : string) : list string :=
  match s with
  | EmptyString => [cur]
  | String c r =>
      if Ascii.eqb c "/"%char then cur :: split_slash EmptyString r
      else split_slash (cur ++ String c EmptyString) r
  end.

(** [Path(p).name]: the last component that is neither empty nor a single
    dot (POSIX flavour of pathlib). *)
Definition path_name (p : string) : string :=
  last (filter (fun c => negb (String.eqb c "" || String.eqb c "."))
               (split_slash EmptyString p)) EmptyString.

(** [Path(p).suffix]: the name from its last dot on, when that dot is
    neither the first nor the last character of the name. *)
Definition path_suffix (p : string) : string :=
  let name := path_name p in
  match rfind_dot name with
  | Some k =>
      if ((0 <? k) && (k <? String.length name - 1))%nat
      then drop k name else EmptyString
  | None => EmptyString
  end.

(** What a page-counting collaborator does when [detect_type] calls it. *)
Inductive tool_result :=
| ImportError                 (* the library is not installed *)
| ToolRaises (msg : string)   (* installed, but the call raises *)
| ToolCount (n : Z).          (* the page count it reports *)

(** The four collaborators, each given the file path. *)
Record tooling := mkTooling {
  pdfinfo_pages : string -> tool_result;       (* pdf2image.pdfinfo_from_path *)
  pptx_slides : string -> tool_result;         (* len(Presentation(p).slides) *)
  tiff_frames : string -> tool_result;         (* Image.open(p).n_frames *)
  converted_pdf_pages : string -> tool_result  (* docx2pdf + fitz page_count *)
}.

Inductive exn :=
| RuntimeError (msg : string)
| OtherError (msg : string).

(** Outcome of [detect_type]: the exception it raises, if any, and the
    document as the call leaves it. *)
Definition detect_type (tools : tooling) (d : DocumentClass)
    (file_path : string) : option exn * DocumentClass :=
  let ext := lower (path_suffix file_path) in
  let set ftype := mkDocument (Some ftype) (objects d) (obj_index d) (pages d) in
  let set_pages ftype n := mkDocument (Some ftype) (objects d) (obj_index d) n in
  if String.eqb ext ".pdf" then
    match pdfinfo_pages tools file_path with
    | ToolCount n => (None, set_pages "PDF" n)
    | ImportError =>
        (Some (RuntimeError "Install pdf2image and Poppler to handle PDFs."),
         set "PDF")
    | ToolRaises msg => (Some (OtherError msg), set "PDF")
    end
  else if String.eqb ext ".pptx" then
    match pptx_slides tools file_path with
    | ToolCount n => (None, set_pages "PPTX" n)
    | ImportError =>
        (Some (RuntimeError "Install python-pptx to handle PPTX."), set "PPTX")
    | ToolRaises msg => (Some (OtherError msg), set "PPTX")
    end
  else if String.eqb ext ".tif" || String.eqb ext ".tiff" then
    match tiff_frames tools file_path with
    | ToolCount n => (None, set_pages "TIFF" n)
    | ImportError =>
        (Some (RuntimeError "Install Pillow to handle TIFF."), set "TIFF")
    | ToolRaises msg => (Some (OtherError msg), set "TIFF")
    end
  else if String.eqb ext ".docx" || String.eqb ext ".odt"
          || String.eqb ext ".rtf" then
    let ftype := upper (lstrip_dots ext) in
    match converted_pdf_pages tools file_path with
    | ToolCount n => (None, set_pages ftype n)
    | ImportError | ToolRaises _ => (None, set_pages ftype 0)
    end
  else
    let stem := upper (lstrip_dots ext) in
    (None, set_pages (if nonempty stem then stem else "UNKNOWN") 0).

End Document.

(** ** Backend responses and their reduction to page text ([smartocr.py]) *)

Module Response.
Import PyStr.

(** A Python value found in an attribute: a string, [None], or some other
    object that is not a text.  Of such an object the code uses the truth
    value and calls [startswith("Error:")] on it, which raises;
    [startswith_error] is the message of that exception (an
    [AttributeError] for most types, a [TypeError] for [bytes]). *)
Inductive pyval :=
| VStr (s : string)
| VNone
| VOther (truthy : bool) (startswith_error : string).

Definition is_true (v : pyval) : bool :=
  match v with
  | VStr s => nonempty s
  | VNone => false
  | VOther t _ => t
  end.

(** Attributes are optional: [None] in a field below means that [hasattr]
    is false.  The [_str] fields hold what [str()] returns on the object. *)
Record message_obj := mkMessage { m_content : option pyval }.

Record choice := mkChoice {
  c_message : option message_obj;
  c_text : option pyval;
  c_str : string
}.

(** The [choices] attribute: a list, or some other value on which
    [choices[0]] raises an exception with the given message. *)
Inductive choices_value :=
| ChoiceList (l : list choice)
| ChoiceOther (truthy : bool) (subscript_error : string).

Record response_obj := mkResponse {
  r_content : option pyval;
  r_text : option pyval;
  r_choices : option choices_value;
  r_str : string
}.

(** What [ocr_page] hands to the worker. *)
Inductive prediction :=
| PStr (s : string)
| PObj (o : response_obj).

(** What the model call does inside [ocr_page]. *)
Inductive backend_result :=
| Responds (p : prediction)
| Raises (msg : string).

(** [ocr_page]: staging the image and asking the model; any exception
    becomes the string [Error: <message>]. *)
Definition ocr_page {image : Type} (respond : image -> backend_result)
    (pil_image : image) : prediction :=
  match respond pil_image with
  | Responds p => p
  | Raises e => PStr ("Error: " ++ e)
  end.

(** The [choices] branch (lines 579-584): content of the first choice's
    message, else the choice's [text], else the choice stringified. *)
Definition text_of_first_choice (first_choice : choice) : pyval :=
  let content :=
    match c_message first_choice with
    | Some message =>
        match m_content message with Some v => v | None => VNone end
    | None => VNone
    end in
  if is_true content then content
  else match c_text first_choice with
       | Some v => v
       | None => VStr (c_str first_choice)
       end.

(** "Extract text" (lines 574-585): the value bound to [page_text] and
    whether [batch_had_processing_errors] is raised. *)
Definition extract_text (prediction_result : prediction) : pyval * bool :=
  match prediction_result with
  | PStr s => if startswith s "Error:" then (VStr s, true) else (VStr s, false)
  | PObj o =>
      match r_content o with
      | Some (VStr s) => (VStr s, false)
      | _ =>
        match r_text o with
        | Some (VStr s) => (VStr s, false)
        | _ =>
          match r_choices o with
          | Some (ChoiceList (first_choice :: _)) =>
              (text_of_first_choice first_choice, false)
          | Some (ChoiceOther true e) =>
              (VStr ("Err parse choices: " ++ e), true)
          | _ => (VStr (r_str o), false)
          end
        end
      end
  end.

(** "Cleanup" (lines 588-592) on a string. *)
Definition cleanup (page_text : string) : string :=
  if startswith page_text "Error:" then page_text
  else
    let t := strip page_text in
    let t := if startswith t "```text" then strip (drop 7 t) else t in
    let t := if startswith t "```" then strip (drop 3 t) else t in
    if endswith t "```" then strip (drop_last 3 t) else t.

(** "Cleanup" on whatever [page_text] holds: on a value that is not a
    string the call [page_text.startswith] raises; [inr] carries the
    message of that exception. *)
Definition cleanup_value (page_text : pyval) : string + string :=
  match page_text with
  | VStr s => inl (cleanup s)
  | VNone => inr "'NoneType' object has no attribute 'startswith'"
  | VOther _ e => inr e
  end.

(** The labelled block appended to [batch_results_list] (line 600). *)
Definition page_block (page_num : Z) (page_text : string) : string :=
  "--- Page " ++ str_of_int page_num ++ " ---" ++ nl ++ page_text ++ nl.

(** Lines 574-600 without the cancellation checks: the block of a page and
    whether it marks the batch as having errors, or [inr] with the message
    of the exception that "Cleanup" raises. *)
Definition read_prediction (prediction_result : prediction)
  : (string * bool) + string :=
  let '(page_text, err) := extract_text prediction_result in
  match cleanup_value page_text with
  | inl t => inl (t, err)
  | inr ex => inr ex
  end.

Definition processing_error (page_num : Z) (ex : string) : string :=
  "Error processing page " ++ str_of_int page_num ++ ": " ++ ex.

End Response.

(** ** The conversion run ([run_ocr] and [_ocr_worker_thread]) *)

Module Worker.
Import PyStr Response.

(** [range(start, stop, step)] for a step different from zero. *)
Definition py_range (start stop step : Z) : list Z :=
  let len :=
    if 0 <? step then
      if start <? stop then (stop - start - 1) / step + 1 else 0
    else if stop <? start then (start - stop - 1) / (- step) + 1 else 0 in
  map (fun k => start + Z.of_nat k * step) (seq 0 (Z.to_nat len)).

(** What the worker does, in the order in which it does it.  Status-line
    updates and message boxes are not recorded. *)
Inductive event :=
| CancelRead (seen : bool)          (* cancel_event.is_set() and its answer *)
| Render (first_page last_page : Z) (* convert_from_path call *)
| Recognise (page_num : Z)          (* ocr_page call *)
| AppendBatch (text : string)       (* line 608: a batch's joined blocks *)
| AppendLoadError (text : string).  (* line 554: placeholder of a batch *)

(** The results widget after a scheduled append has run: a batch is
    preceded by a newline when the widget already shows some text. *)
Definition apply_append (widget : string) (e : event) : string :=
  match e with
  | AppendBatch t =>
      widget ++ (if nonempty (strip widget) then nl else "") ++ t
  | AppendLoadError t => widget ++ t
  | _ => widget
  end.

Definition results_text (initial : string) (tr : list event) : string :=
  fold_left apply_append tr initial.

(** The texts handed over to the results widget, oldest first. *)
Definition is_append (e : event) : bool :=
  match e with
  | AppendBatch _ | AppendLoadError _ => true
  | _ => false
  end.

Definition committed (tr : list event) : list event := filter is_append tr.

(** The local variables of [_ocr_worker_thread] that outlive a batch, and
    the trace. *)
Record wstate := mkState {
  processed_page_count_in_run : Z;
  any_batch_processed_successfully : bool;
  was_cancelled : bool;
  final_status : string;
  trace : list event
}.

Definition initial_state : wstate :=
  mkState 0 false false "OCR process initiated." [].

(** State-passing computations of the worker. *)
Definition W (A : Type) : Type := wstate -> A * wstate.

Definition ret {A} (a : A) : W A := fun s => (a, s).

Definition bind {A B} (m : W A) (k : A -> W B) : W B :=
  fun s => let (a, s') := m s in k a s'.

Notation "x <- m ;; k" := (bind m (fun x => k))
  (at level 61, m at next level, right associativity).
Notation "m ;; k" := (bind m (fun _ => k))
  (at level 61, right associativity).

Definition emit (e : event) : W unit := fun s =>
  (tt, mkState (processed_page_count_in_run s)
               (any_batch_processed_successfully s)
               (was_cancelled s) (final_status s) (trace s ++ [e])%list).

Definition add_processed (n : Z) : W unit := fun s =>
  (tt, mkState (processed_page_count_in_run s + n)
               (any_batch_processed_successfully s)
               (was_cancelled s) (final_status s) (trace s)).

Definition mark_success : W unit := fun s =>
  (tt, mkState (processed_page_count_in_run s) true
               (was_cancelled s) (final_status s) (trace s)).

(** [was_cancelled = True; final_status = status] *)
Definition cancelled (status : string) : W unit := fun s =>
  (tt, mkState (processed_page_count_in_run s)
               (any_batch_processed_successfully s) true status (trace s)).

Definition set_status (status : string) (s : wstate) : wstate :=
  mkState (processed_page_count_in_run s)
          (any_batch_processed_successfully s)
          (was_cancelled s) status (trace s).

Definition get_cancelled : W bool := fun s => (was_cancelled s, s).

(** What [convert_from_path] does for a range of pages. *)
Inductive render_result (image : Type) :=
| RenderRaises (msg : string)
| Rendered (images : list image).
Arguments RenderRaises {image} msg.
Arguments Rendered {image} images.

Section Run.

(** The collaborators of one run: the page images, the renderer for the
    loaded file, the model behind [ocr_page], and the cancellation event.
    What [is_set] answers may depend on everything the worker has done so
    far, which covers every moment at which the control thread can set the
    event. *)
Variable image : Type.
Variable convert_from_path : Z -> Z -> render_result image.
Variable respond : image -> backend_result.
Variable is_set : list event -> bool.

(** [cancel_event.is_set()] *)
Definition check_cancel : W bool := fun s =>
  let b := is_set (trace s) in
  (b, mkState (processed_page_count_in_run s)
              (any_batch_processed_successfully s)
              (was_cancelled s) (final_status s)
              (trace s ++ [CancelRead b])%list).

(** "Load Batch" (lines 542-545): the images, or the message of the
    exception. *)
Definition load_batch (batch_start_page batch_end_page : Z)
  : string + list image :=
  match convert_from_path batch_start_page batch_end_page with
  | RenderRaises e => inl e
  | Rendered [] => inl "pdf2image returned no images."
  | Rendered imgs => inr imgs
  end.

Definition load_error_text (batch_start_page batch_end_page : Z)
    (e : string) : string :=
  nl ++ "--- ERROR LOADING BATCH: Pages " ++ str_of_int batch_start_page
     ++ "-" ++ str_of_int batch_end_page ++ " ---" ++ nl
     ++ "Error: " ++ e ++ nl.

(** One turn of the page loop (lines 561-600).  The accumulator is
    [batch_results_list] with [batch_had_processing_errors]; the boolean
    of the result tells whether the loop is left by [break]. *)
Definition process_page (page_num : Z) (pil_image : image)
    (acc : list string * bool) : W (bool * (list string * bool)) :=
  c <- check_cancel ;;
  if c then cancelled "OCR cancelled." ;; ret (true, acc) else
  add_processed 1 ;;
  c <- check_cancel ;;
  if c then cancelled "OCR cancelled." ;; ret (true, acc) else
  emit (Recognise page_num) ;;
  let prediction_result := ocr_page respond pil_image in
  c <- check_cancel ;;
  if c then cancelled "OCR cancelled." ;; ret (true, acc) else
  match read_prediction prediction_result with
  | inl (page_text, err) =>
      ret (false,
           (fst acc ++ [page_block page_num page_text], snd acc || err)%list)
  | inr ex =>
      c <- check_cancel ;;
      if c then cancelled "OCR cancelled." ;; ret (true, acc) else
      ret (false,
           (fst acc ++ [page_block page_num (processing_error page_num ex)],
            true)%list)
  end.

(** [for i, pil_image in enumerate(current_batch_images)] *)
Fixpoint process_pages (batch_start_page : Z) (i : Z) (images : list image)
    (acc : list string * bool) : W (list string * bool) :=
  match images with
  | [] => ret acc
  | pil_image :: rest =>
      r <- process_page (batch_start_page + i) pil_image acc ;;
      if fst r then ret (snd r)
      else process_pages batch_start_page (i + 1) rest (snd r)
  end.

(** One turn of the batch loop (lines 534-614); [true] when the loop is
    left by [break]. *)
Definition process_batch (batch_start_page end_page batch_size : Z)
  : W bool :=
  c <- check_cancel ;;
  if c then cancelled "OCR process cancelled by user." ;; ret true else
  let batch_end_page := Z.min (batch_start_page + batch_size - 1) end_page in
  emit (Render batch_start_page batch_end_page) ;;
  match load_batch batch_start_page batch_end_page with
  | inl e =>
      c <- check_cancel ;;
      if c then cancelled "OCR cancelled." ;; ret true else
      add_processed (batch_end_page - batch_start_page + 1) ;;
      wc <- get_cancelled ;;
      (if negb wc
       then emit (AppendLoadError
                    (load_error_text batch_start_page batch_end_page e))
       else ret tt) ;;
      ret false
  | inr current_batch_images =>
      acc <- process_pages batch_start_page 0 current_batch_images
                           ([], false) ;;
      wc <- get_cancelled ;;
      (if negb wc && negb (Nat.eqb (List.length (fst acc)) 0)
       then emit (AppendBatch (join nl (fst acc))) ;;
            (if negb (snd acc) then mark_success else ret tt)
       else ret tt) ;;
      wc <- get_cancelled ;;
      ret wc
  end.

(** [for batch_start_page in range(start_page, end_page + 1, batch_size)] *)
Fixpoint process_batches (starts : list Z) (end_page batch_size : Z)
  : W unit :=
  match starts with
  | [] => ret tt
  | batch_start_page :: rest =>
      brk <- process_batch batch_start_page end_page batch_size ;;
      if brk then ret tt else process_batches rest end_page batch_size
  end.

(** [_ocr_worker_thread]: the state in which the worker reaches its
    [finally] clause.  A zero [batch_size] makes [range] raise, which the
    outer handler turns into the failure status. *)
Definition ocr_worker_thread (start_page end_page batch_size : Z) : wstate :=
  if batch_size =? 0 then
    set_status
      "OCR process failed unexpectedly: range() arg 3 must not be zero"
      initial_state
  else
    let s := snd (process_batches (py_range start_page (end_page + 1) batch_size)
                                  end_page batch_size initial_state) in
    if negb (was_cancelled s) then
      if negb (any_batch_processed_successfully s)
      then set_status
             "OCR finished, but encountered errors or no text was processed." s
      else set_status "OCR process completed." s
    else s.

End Run.

(** *** Starting a run *)

(** The fields of the application that [run_ocr] reads. *)
Record app_state := mkApp {
  ocr_thread_alive : bool;        (* self.ocr_thread and its is_alive() *)
  pdf_file : option string;
  total_pages : Z
}.

Inductive run_ocr_result :=
| MessageBox (kind title message : string)  (* refused, nothing started *)
| StartWorker (start_page_num end_page_num batch_size : Z).

Definition page_bound_message (which : string) (total : Z) : string :=
  "'" ++ which ++ "' page must be 1-" ++ str_of_int total ++ ".".

(** [run_ocr], with the contents of the two entry fields. *)
Definition run_ocr (app : app_state) (batch_size : Z)
    (from_entry to_entry : string) : run_ocr_result :=
  if ocr_thread_alive app then
    MessageBox "warning" "Busy" "An OCR conversion is already in progress."
  else if negb (match pdf_file app with Some p => nonempty p | None => false end)
  then MessageBox "error" "Error" "No PDF file loaded."
  else if total_pages app <=? 0 then
    MessageBox "error" "Error"
      "Cannot determine total pages or PDF has 0 pages. Please reload."
  else
    let batch_size := if batch_size <? 1 then 10 else batch_size in
    let from_str := strip from_entry in
    let to_str := strip to_entry in
    if nonempty from_str || nonempty to_str then
      if negb (nonempty from_str) || negb (nonempty to_str) then
        MessageBox "error" "Input Error"
          "Both 'from' and 'to' must be filled or both empty."
      else
        match py_int from_str, py_int to_str with
        | Some start_page_num, Some end_page_num =>
            if negb ((1 <=? start_page_num)
                     && (start_page_num <=? total_pages app)) then
              MessageBox "error" "Input Error"
                (page_bound_message "From" (total_pages app))
            else if negb ((1 <=? end_page_num)
                          && (end_page_num <=? total_pages app)) then
              MessageBox "error" "Input Error"
                (page_bound_message "To" (total_pages app))
            else if end_page_num <? start_page_num then
              MessageBox "error" "Input Error" "'From' page > 'to' page."
            else StartWorker start_page_num end_page_num batch_size
        | _, _ =>
            MessageBox "error" "Input Error" "Page numbers must be integers."
        end
    else StartWorker 1 (total_pages app) batch_size.

End Worker.

(** ** Notions the properties are stated with *)

Module Notions.
Import PyStr Document Response Worker.

(** The extensions [detect_type] has a branch for. *)
Definition recognized_extension (ext : string) : bool :=
  existsb (String.eqb ext)
          [".pdf"; ".pptx"; ".tif"; ".tiff"; ".docx"; ".odt"; ".rtf"].

(** None of the page-counting libraries can be imported. *)
Definition unavailable : tooling :=
  mkTooling (fun _ => ImportError) (fun _ => ImportError)
            (fun _ => ImportError) (fun _ => ImportError).

(** [hasattr(o, a) and isinstance(o.a, str)] *)
Definition is_str (a : option pyval) : bool :=
  match a with
  | Some (VStr _) => true
  | _ => false
  end.

(** [hasattr(o, 'choices') and o.choices] *)
Definition truthy_choices (ch : option choices_value) : bool :=
  match ch with
  | Some (ChoiceList (_ :: _)) => true
  | Some (ChoiceOther t _) => t
  | _ => false
  end.

(** A call on the document registry, and the indices of the objects that a
    call has appended to [objects]. *)
Inductive call :=
| AddObject (pg : option Z) (text : string) (coords : option (list Z))
| DeleteObject (i : Z).

Definition apply_call (d : DocumentClass) (c : call) : DocumentClass :=
  match c with
  | AddObject pg text coords => add_object d pg text coords
  | DeleteObject i => snd (delete_object d i)
  end.

Definition new_indices (before after : DocumentClass) : list Z :=
  map index (skipn (List.length (objects before)) (objects after)).

(** The document after a sequence of calls, with the indices the calls
    assigned, in call order. *)
Fixpoint run_calls (d : DocumentClass) (calls : list call)
  : DocumentClass * list Z :=
  match calls with
  | [] => (d, [])
  | c :: rest =>
      let d1 := apply_call d c in
      let (d2, later) := run_calls d1 rest in
      (d2, (new_indices d d1 ++ later)%list)
  end.

(** The pages [first .. last], in order. *)
Definition page_range (first last : Z) : list Z :=
  map (fun k => first + Z.of_nat k) (seq 0 (Z.to_nat (last - first + 1))).

(** The batches of a run as the loop header and line 536 cut them:
    first and last page of each. *)
Definition batches (start_page end_page batch_size : Z) : list (Z * Z) :=
  map (fun b => (b, Z.min (b + batch_size - 1) end_page))
      (py_range start_page (end_page + 1) batch_size).

(** What a page contributes when no cancellation interferes: its text and
    whether it marks the batch as having errors (lines 574-598). *)
Definition page_outcome (page_num : Z) (p : prediction) : string * bool :=
  match read_prediction p with
  | inl r => r
  | inr ex => (processing_error page_num ex, true)
  end.

Section Outcomes.

Variable image : Type.
Variable convert_from_path : Z -> Z -> render_result image.
Variable respond : image -> backend_result.

(** The blocks of the images of a batch, numbered as the page loop
    numbers them, and whether one of the pages marks the batch as having
    errors. *)
Fixpoint page_blocks (batch_start_page i : Z) (images : list image)
  : list string :=
  match images with
  | [] => []
  | pil_image :: rest =>
      page_block (batch_start_page + i)
        (fst (page_outcome (batch_start_page + i) (ocr_page respond pil_image)))
      :: page_blocks batch_start_page (i + 1) rest
  end.

Fixpoint page_errors (batch_start_page i : Z) (images : list image) : bool :=
  match images with
  | [] => false
  | pil_image :: rest =>
      snd (page_outcome (batch_start_page + i) (ocr_page respond pil_image))
      || page_errors batch_start_page (i + 1) rest
  end.

(** What a batch that is not interrupted hands over to the results
    widget: its joined blocks, or the placeholder when it fails to load. *)
Definition batch_emission (b : Z * Z) : event :=
  match load_batch image convert_from_path (fst b) (snd b) with
  | inl e => AppendLoadError (load_error_text (fst b) (snd b) e)
  | inr images => AppendBatch (join nl (page_blocks (fst b) 0 images))
  end.

(** The batch loaded and none of its pages had an error. *)
Definition batch_clean (b : Z * Z) : bool :=
  match load_batch image convert_from_path (fst b) (snd b) with
  | inl _ => false
  | inr images => negb (page_errors (fst b) 0 images)
  end.

(** The pages a batch that is not interrupted sends to the model. *)
Definition batch_pages (b : Z * Z) : list Z :=
  match load_batch image convert_from_path (fst b) (snd b) with
  | inl _ => []
  | inr images =>
      map (fun k => fst b + Z.of_nat k) (seq 0 (List.length images))
  end.

End Outcomes.

(** The cancellation event is never seen set. *)
Definition never_set : list event -> bool := fun _ => false.

(** The cancellation flag was read as set at some point of a trace. *)
Definition seen_set (e : event) : bool :=
  match e with
  | CancelRead b => b
  | _ => false
  end.

Definition recognised_pages (tr : list event) : list Z :=
  flat_map (fun e => match e with Recognise n => [n] | _ => [] end) tr.

Definition is_cancelled_status (status : string) : bool :=
  String.eqb status "OCR cancelled."
  || String.eqb status "OCR process cancelled by user.".

(** A stretch of the run in which the flag was never read as set. *)
Definition quiet (evs : list event) : Prop := existsb seen_set evs = false.

(** From [s] the worker went on to [s'] without seeing the flag set. *)
Definition went_on (s s' : wstate) (evs : list event) : Prop :=
  trace s' = (trace s ++ evs)%list /\ quiet evs
  /\ was_cancelled s' = was_cancelled s
  /\ final_status s' = final_status s.

(** From [s] the worker did [pre], then read the flag as set and stopped
    in [s'] with the given status. *)
Definition stopped (is_set : list event -> bool) (status : string)
    (s s' : wstate) (pre : list event) : Prop :=
  trace s' = (trace s ++ pre ++ [CancelRead true])%list /\ quiet pre
  /\ is_set (trace s ++ pre)%list = true
  /\ was_cancelled s' = true /\ final_status s' = status.

(** What holds of a document between calls: the counter is above every
    stored index, and the stored indices increase along the list. *)
Definition doc_inv (d : DocumentClass) : Prop :=
  Forall (fun o => index o < obj_index d) (objects d)
  /\ StronglySorted Z.lt (map index (objects d)).

End Notions.

(** ** Sample collaborators for the worked examples *)

Module Samples.
Import PyStr Document Response Worker Notions.

(** An OpenAI-style response: [choices[0].message.content] is [Hello]. *)
Definition openai_hello : prediction :=
  PObj (mkResponse None None
          (Some (ChoiceList
                   [mkChoice (Some (mkMessage (Some (VStr "Hello"))))
                             None "<choice>"]))
          "<response>").

(** A completion-style response: the first choice has [text] only. *)
Definition completion_response : response_obj :=
  mkResponse None None
    (Some (ChoiceList [mkChoice None (Some (VStr "abc")) "<choice>"]))
    "<response>".

Definition completion_abc : prediction := PObj completion_response.

(** Page images are represented by their page numbers; the renderer
    returns one image for each page it is asked for. *)
Definition render_all (first last : Z) : render_result Z :=
  Rendered (page_range first last).

(** A model that answers every page with its number. *)
Definition respond_ok (p : Z) : backend_result :=
  Responds (PStr ("text of page " ++ str_of_int p)).

(** A model that fails on page 7 only. *)
Definition respond_fail_7 (p : Z) : backend_result :=
  if p =? 7 then Raises "model unreachable" else respond_ok p.

(** A response whose first choice has a [text] that is [None]: there is
    no text in it, and "Cleanup" raises on it. *)
Definition none_text_response : prediction :=
  PObj (mkResponse None None
          (Some (ChoiceList [mkChoice None (Some VNone) "<choice>"]))
          "<response>").

(** A model whose answer for page 7 only cannot be processed. *)
Definition respond_odd_7 (p : Z) : backend_result :=
  if p =? 7 then Responds none_text_response else respond_ok p.

(** A model that fails on page 2 only. *)
Definition respond_fail_2 (p : Z) : backend_result :=
  if p =? 2 then Raises "model unreachable" else respond_ok p.

(** The event is set once the first batch has been handed over. *)
Definition set_after_first_commit (tr : list event) : bool :=
  existsb is_append tr.

(** The event is set while page 3 is being recognised. *)
Definition set_during_page_3 (tr : list event) : bool :=
  existsb (fun e => match e with Recognise 3 => true | _ => false end) tr.

End Samples.

(** ** The whole interface of the document registry *)

Module Registry.
Import PyStr Document Notions.

(** Any call a user of [DocumentClass] can make. *)
Inductive api_call :=
| CallAddPage
| CallAddObject (pg : option Z) (text : string) (coords : option (list Z))
| CallDeleteObject (i : Z)
| CallDeletePageObjects (doc_page : Z)
| CallDetectType (tools : tooling) (file_path : string).

Definition apply_api (d : DocumentClass) (c : api_call) : DocumentClass :=
  match c with
  | CallAddPage => add_page d
  | CallAddObject pg text coords => add_object d pg text coords
  | CallDeleteObject i => snd (delete_object d i)
  | CallDeletePageObjects doc_page => snd (delete_page_objects d doc_page)
  | CallDetectType tools file_path => snd (detect_type tools d file_path)
  end.

(** The document after a sequence of calls; a call that raises leaves the
    document as it was at the raise, and the caller goes on. *)
Definition run_api (d : DocumentClass) (calls : list api_call)
  : DocumentClass :=
  fold_left apply_api calls d.

(** The objects that do not carry the index. *)
Definition other_index (i : Z) (obj : ObjectType) : bool :=
  negb (index obj =? i).

End Registry.

(** ** Further notions about a run *)

Module RunNotions.
Import PyStr Document Response Worker Notions.

(** The two calls the worker blocks in. *)
Definition is_blocking (e : event) : bool :=
  match e with
  | Render _ _ | Recognise _ => true
  | _ => false
  end.

(** Every blocking call of a trace comes right after a read of the flag
    that answered "not set" and is followed at once by another read.
    [prev_unset] tells whether the event before the trace was such a
    read. *)
Fixpoint guarded (prev_unset : bool) (tr : list event) : bool :=
  match tr with
  | [] => true
  | e :: rest =>
      if is_blocking e then
        prev_unset
        && match rest with CancelRead _ :: _ => true | _ => false end
        && guarded false rest
      else
        guarded (match e with CancelRead false => true | _ => false end) rest
  end.

(** The trace does not end with a blocking call. *)
Fixpoint ends_quiet (tr : list event) : bool :=
  match tr with
  | [] => true
  | [e] => negb (is_blocking e)
  | _ :: rest => ends_quiet rest
  end.

Section Counts.

Variable image : Type.
Variable convert_from_path : Z -> Z -> render_result image.
Variable respond : image -> backend_result.

(** By how much a batch that is not interrupted advances
    [processed_page_count_in_run]: by its number of pages when it fails to
    load (line 551), by one for each image otherwise (line 564). *)
Definition batch_count (b : Z * Z) : Z :=
  match load_batch image convert_from_path (fst b) (snd b) with
  | inl _ => snd b - fst b + 1
  | inr images => Z.of_nat (List.length images)
  end.

(** The blocks of the batches that loaded, in order. *)
Definition all_blocks (bl : list (Z * Z)) : list string :=
  flat_map (fun b =>
              match load_batch image convert_from_path (fst b) (snd b) with
              | inl _ => []
              | inr images => page_blocks image respond (fst b) 0 images
              end) bl.

End Counts.

Definition sum_Z (l : list Z) : Z := fold_right Z.add 0 l.

(** A stretch of the trace that keeps [guarded] wherever it is put. *)
Definition well_polled (evs : list event) : Prop :=
  guarded false evs = true /\ ends_quiet evs = true.

(** Every string of the list begins with a dash, as the label of a page
    block does. *)
Definition labelled (l : list string) : Prop :=
  Forall (fun x => exists r, x = String "-" r) l.

End RunNotions.

(** ** More sample collaborators *)

Module MoreSamples.
Import PyStr Document Response Worker Notions Samples.

(** A renderer that cannot render the batch that starts at page 3. *)
Definition render_fail_at_3 (first last : Z) : render_result Z :=
  if first =? 3 then RenderRaises "Unable to get page count."
  else render_all first last.

End MoreSamples.

(** ** Staging a page image for the model ([smartocr.py], lines 29-110) *)

Module Staging.
Import PyStr Response.

(** Temporary files are known by their paths; the state of the file
    system, as far as these functions touch it, is the list of temporary
    files that exist. *)
Definition files := list string.

Definition exists_file (p : string) (fs : files) : bool :=
  existsb (String.eqb p) fs.

Section Stage.

Variable image : Type.
Variable handle : Type.

(** What the library calls made for one page do.  [inl] and [Some] carry
    the message of the exception a call raises. *)
Record library := mkLibrary {
  save_png : image -> string + string;         (* pil_image.save: the bytes *)
  named_temporary_file : files -> string + string;  (* the new file's path *)
  write_bytes : string -> string -> option string;  (* tmpfile.write *)
  close_file : string -> option string;        (* leaving the with block *)
  prepare_image : string -> string + handle;   (* lms.prepare_image *)
  ask_model : handle -> backend_result;        (* lms.llm ... model.respond *)
  unlink_error : string -> option string       (* os.unlink raising OSError *)
}.

Variable lib : library.

(** [os.unlink(p)] inside [try ... except OSError]: the file is gone
    unless the call raises, and the exception goes no further. *)
Definition unlink_quietly (p : string) (fs : files) : files :=
  match unlink_error lib p with
  | Some _ => fs
  | None => remove string_dec p fs
  end.

(** [if tmpfile_path and os.path.exists(tmpfile_path): ... os.unlink] *)
Definition remove_temp (tmpfile_path : option string) (fs : files) : files :=
  match tmpfile_path with
  | Some p =>
      if nonempty p && exists_file p fs then unlink_quietly p fs else fs
  | None => fs
  end.

(** [prepare_image_for_lmstudio_base64_tempfile]: the handle and the path
    of the temporary file, or the message of the exception it raises, and
    the files that exist afterwards.  [tmpfile_path] is assigned only
    after the bytes are written. *)
Definition prepare_image_for_lmstudio_base64_tempfile (pil_image : image)
    (fs : files) : (string + handle * string) * files :=
  match save_png lib pil_image with
  | inl e => (inl e, fs)
  | inr img_bytes =>
      match named_temporary_file lib fs with
      | inl e => (inl e, remove_temp None fs)
      | inr name =>
          let fs1 := name :: fs in
          match write_bytes lib name img_bytes with
          | Some e => (inl e, remove_temp None fs1)
          | None =>
              match close_file lib name with
              | Some e => (inl e, remove_temp (Some name) fs1)
              | None =>
                  match prepare_image lib name with
                  | inl e => (inl e, remove_temp (Some name) fs1)
                  | inr image_handle => (inr (image_handle, name), fs1)
                  end
              end
          end
      end
  end.

(** [ocr_page] with its staging: what it returns and the files that exist
    afterwards. *)
Definition ocr_page (pil_image : image) (fs : files) : prediction * files :=
  match prepare_image_for_lmstudio_base64_tempfile pil_image fs with
  | (inl e, fs1) => (PStr ("Error: " ++ e), remove_temp None fs1)
  | (inr (image_handle, tmpfile_path), fs1) =>
      (Response.ocr_page (ask_model lib) image_handle,
       remove_temp (Some tmpfile_path) fs1)
  end.


End Stage.

Arguments save_png {image handle} l _.
Arguments named_temporary_file {image handle} l _.
Arguments write_bytes {image handle} l _ _.
Arguments close_file {image handle} l _.
Arguments prepare_image {image handle} l _.
Arguments ask_model {image handle} l _.
Arguments unlink_error {image handle} l _.

End Staging.

(** ** Page navigation and saving ([smartocr.py], lines 337-405, 646-666) *)

Module Viewer.
Import PyStr.

(** The fields of the application that navigation reads and writes. *)
Record viewer := mkViewer {
  v_pdf_file : option string;
  v_total_pages : Z;
  current_page_index : Z
}.

Definition file_loaded (v : viewer) : bool :=
  match v_pdf_file v with Some p => nonempty p | None => false end.

(** [show_page]: the index whose preview it starts to load, if any. *)
Definition show_page (v : viewer) (index : Z) : option Z :=
  if negb (file_loaded v)
     || negb ((0 <=? index) && (index <? v_total_pages v))
  then None else Some index.

Definition next_page (v : viewer) : option Z :=
  if current_page_index v <? v_total_pages v - 1
  then show_page v (current_page_index v + 1) else None.

Definition prev_page (v : viewer) : option Z :=
  if 0 <? current_page_index v
  then show_page v (current_page_index v - 1) else None.

(** What [goto_page] does: the preview it starts to load, the error box it
    shows, and the content of the entry field afterwards. *)
Record goto_result := mkGoto {
  started : option Z;
  error_box : option string;
  entry_after : string
}.

Definition goto_page (v : viewer) (entry : string) : goto_result :=
  let page_num_str := strip entry in
  if negb (nonempty page_num_str) then mkGoto None None ""
  else
    match py_int page_num_str with
    | None => mkGoto None (Some "Please enter a valid page number.") ""
    | Some n =>
        let page_num := n - 1 in
        mkGoto (show_page v page_num)
               (if negb ((0 <=? page_num) && (page_num <? v_total_pages v))
                then Some ("Page number must be between 1 and "
                           ++ str_of_int (v_total_pages v) ++ ".")
                else None)
               ""
    end.

(** [on_page_loaded], as far as navigation goes. *)
Definition on_page_loaded (v : viewer) (page_index : Z) : viewer :=
  mkViewer (v_pdf_file v) (v_total_pages v) page_index.

(** [_load_specific_page_worker]: the page becomes the current one when
    the renderer returns its image, nothing changes otherwise.  The page
    asked of the renderer is [index + 1]. *)
Definition load_specific_page_worker (rendered : bool) (v : viewer)
    (index : Z) : viewer :=
  if rendered then on_page_loaded v index else v.

(** What the user does, and whether the renderer returns the image. *)
Inductive action :=
| Next (rendered : bool)
| Prev (rendered : bool)
| GoTo (entry : string) (rendered : bool).

Definition started_by (v : viewer) (a : action) : option Z :=
  match a with
  | Next _ => next_page v
  | Prev _ => prev_page v
  | GoTo entry _ => started (goto_page v entry)
  end.

Definition rendered_of (a : action) : bool :=
  match a with Next r | Prev r | GoTo _ r => r end.

(** One action with the page load it starts run to its end: [show_page]
    disables the navigation buttons until the load has answered. *)
Definition act (v : viewer) (a : action) : viewer :=
  match started_by v a with
  | Some index => load_specific_page_worker (rendered_of a) v index
  | None => v
  end.

(** The previews started along a sequence of actions, and the viewer
    after it. *)
Fixpoint browse (v : viewer) (actions : list action) : list Z * viewer :=
  match actions with
  | [] => ([], v)
  | a :: rest =>
      let (later, v') := browse (act v a) rest in
      (match started_by v a with
       | Some index => index :: later
       | None => later
       end, v')
  end.

(** [_prompt_save] on an existing results widget: what the widget's
    content and the answer of the file dialog lead to.  [get("1.0", END)]
    gives the content followed by a line feed. *)
Inductive save_result :=
| NothingToSave          (* the info box "There is no text content to save." *)
| SaveCancelled          (* the dialog was dismissed *)
| Written (output_file text : string).   (* open(output_file, "w"), f.write(text) *)

Definition prompt_save (widget : string) (output_file : option string)
  : save_result :=
  let full_output_text_to_save := strip (widget ++ nl) in
  if negb (nonempty full_output_text_to_save) then NothingToSave
  else
    match output_file with
    | Some p =>
        if nonempty p then Written p full_output_text_to_save
        else SaveCancelled
    | None => SaveCancelled
    end.

End Viewer.

(** ** Sample libraries and viewers *)

Module StagingSamples.
Import PyStr Response Staging Viewer.

(** Every call succeeds; images and handles are numbers. *)
Definition working_library : library Z Z :=
  mkLibrary Z Z (fun _ => inr "PNG bytes") (fun _ => inr "/tmp/tmpa1b2.png")
            (fun _ _ => None) (fun _ => None) (fun _ => inr 1)
            (fun _ => Responds (PStr "some text")) (fun _ => None).

(** The temporary file is created but its bytes cannot be written. *)
Definition disk_full_library : library Z Z :=
  mkLibrary Z Z (fun _ => inr "PNG bytes") (fun _ => inr "/tmp/tmpa1b2.png")
            (fun _ _ => Some "No space left on device") (fun _ => None)
            (fun _ => inr 1) (fun _ => Responds (PStr "some text"))
            (fun _ => None).

(** A document of twelve pages showing its fifth. *)
Definition viewer_at_5 : viewer := mkViewer (Some "book.pdf") 12 4.

End StagingSamples.

(* ================================================================== *)
(** * Part II: properties *)
(* ================================================================== *)

Import PyStr Document Response Worker.

(** ** Strings *)

Lemma app_assoc_s (a b c : string) : (a ++ b) ++ c = a ++ (b ++ c).
Proof. induction a as [|x a IH]; simpl; [reflexivity | now rewrite IH]. Qed.

Lemma app_empty_r (a : string) : a ++ "" = a.
Proof. induction a as [|x a IH]; simpl; [reflexivity | now rewrite IH]. Qed.

Lemma length_app_s (a b : string) :
  String.length (a ++ b) = (String.length a + String.length b)%nat.
Proof. induction a as [|x a IH]; simpl; [reflexivity | now rewrite IH]. Qed.

Lemma substring_whole_prefix (a b : string) :
  substring 0 (String.length a) (a ++ b) = a.
Proof.
  induction a as [|x a IH]; simpl.
  - destruct b; reflexivity.
  - now rewrite IH.
Qed.

Lemma drop_last_app (a p : string) : drop_last (String.length p) (a ++ p) = a.
Proof.
  unfold drop_last. rewrite length_app_s.
  replace (String.length a + String.length p - String.length p)%nat
    with (String.length a) by lia.
  apply substring_whole_prefix.
Qed.

Lemma endswith_app (a p : string) : endswith (a ++ p) p = true.
Proof.
  induction a as [|x a IH]; simpl.
  - destruct p; cbn [append endswith]; now rewrite String.eqb_refl.
  - rewrite IH. apply orb_true_r.
Qed.

Lemma lstrip_length (s : string) :
  (String.length (lstrip s) <= String.length s)%nat.
Proof.
  induction s as [|c s IH]; simpl; [lia|].
  destruct (is_space c); simpl; lia.
Qed.

Lemma rstrip_length (s : string) :
  (String.length (rstrip s) <= String.length s)%nat.
Proof.
  induction s as [|c s IH]; simpl; [lia|].
  destruct (rstrip s); [destruct (is_space c)|]; simpl in *; lia.
Qed.

(** A string that [strip] leaves alone is left alone by both halves. *)
Lemma strip_fixpoint (s : string) :
  strip s = s -> lstrip s = s /\ rstrip s = s.
Proof.
  unfold strip. intros H.
  assert (L : lstrip s = s).
  { destruct s as [|c s]; [reflexivity|]. simpl in *.
    destruct (is_space c); [|reflexivity].
    pose proof (rstrip_length (lstrip s)) as H1.
    pose proof (lstrip_length s) as H2.
    rewrite H in H1. simpl in H1. lia. }
  split; [exact L | now rewrite L in H].
Qed.

Lemma lstrip_fixpoint_head (c : ascii) (s : string) :
  lstrip (String c s) = String c s -> is_space c = false.
Proof.
  simpl. destruct (is_space c); [|reflexivity].
  intros H. pose proof (lstrip_length s) as H1. rewrite H in H1.
  simpl in H1. lia.
Qed.

Lemma rstrip_app_blank (a b : string) :
  rstrip b = "" -> rstrip (a ++ b) = rstrip a.
Proof.
  intros Hb. induction a as [|c a IH]; simpl; [exact Hb | now rewrite IH].
Qed.

Lemma rstrip_app_solid (a b : string) :
  rstrip b <> "" -> rstrip (a ++ b) = a ++ rstrip b.
Proof.
  intros Hb. induction a as [|c a IH]; simpl; [reflexivity|].
  rewrite IH. destruct (a ++ rstrip b) eqn:E; [|reflexivity].
  destruct a; simpl in E; [contradiction | discriminate].
Qed.

Lemma lstrip_app_solid (c : ascii) (a b : string) :
  is_space c = false -> lstrip (String c a ++ b) = String c a ++ b.
Proof. intros H. simpl. now rewrite H. Qed.

(** [strip] leaves [body ++ tail] alone when [body] starts and [tail] ends
    with a character that is not white space. *)
Lemma strip_app_solid (c : ascii) (a b : string) :
  is_space c = false -> rstrip b = b -> b <> "" ->
  strip (String c a ++ b) = String c a ++ b.
Proof.
  intros Hc Hb Hne. unfold strip. rewrite lstrip_app_solid by exact Hc.
  rewrite rstrip_app_solid; rewrite Hb; [reflexivity | exact Hne].
Qed.

(** A body that does not open with a fence still does not when a line
    break and a fence follow it. *)
Lemma no_fence_before_newline (body : string) :
  body <> "" -> startswith body "```" = false ->
  startswith (body ++ nl ++ "```") "```" = false.
Proof.
  intros Hne.
  destruct body as [|c1 b1]; [contradiction|].
  cbn [startswith append].
  destruct (Ascii.eqb "`" c1); [|reflexivity].
  destruct b1 as [|c2 b2]; cbn [startswith append andb]; [reflexivity|].
  destruct (Ascii.eqb "`" c2); [|reflexivity].
  destruct b2 as [|c3 b3]; cbn [startswith append andb]; [reflexivity|].
  destruct (Ascii.eqb "`" c3); [cbn; discriminate | reflexivity].
Qed.

(** The text between a [```text] line and a closing fence is what
    "Cleanup" keeps. *)
Lemma cleanup_text_fence (body : string) :
  strip body = body -> startswith body "```" = false ->
  cleanup ("```text" ++ nl ++ body ++ nl ++ "```") = body.
Proof.
  intros Hs Hf. destruct (strip_fixpoint _ Hs) as [HL HR].
  destruct body as [|c b]; [reflexivity|].
  pose proof (lstrip_fixpoint_head _ _ HL) as Hc.
  unfold cleanup.
  change (startswith ("```text" ++ nl ++ String c b ++ nl ++ "```") "Error:")
    with false. cbv iota.
  assert (E0 : "```text" ++ nl ++ String c b ++ nl ++ "```"
               = String "`" ("``text" ++ nl ++ String c b ++ nl) ++ "```").
  { simpl. now rewrite !app_assoc_s. }
  assert (E1 : strip ("```text" ++ nl ++ String c b ++ nl ++ "```")
               = "```text" ++ nl ++ String c b ++ nl ++ "```").
  { rewrite E0. apply strip_app_solid; [reflexivity | reflexivity | discriminate]. }
  rewrite E1.
  change (startswith ("```text" ++ nl ++ String c b ++ nl ++ "```") "```text")
    with true. cbv iota.
  change (drop 7 ("```text" ++ nl ++ String c b ++ nl ++ "```"))
    with (nl ++ String c b ++ nl ++ "```").
  assert (E2 : strip (nl ++ String c b ++ nl ++ "```")
               = String c b ++ nl ++ "```").
  { change (strip (nl ++ String c b ++ nl ++ "```"))
      with (strip (String c b ++ nl ++ "```")).
    apply strip_app_solid; [exact Hc | reflexivity | discriminate]. }
  rewrite E2.
  rewrite no_fence_before_newline by (discriminate || exact Hf).
  assert (E3 : String c b ++ nl ++ "```" = (String c b ++ nl) ++ "```")
    by now rewrite app_assoc_s.
  rewrite E3, endswith_app.
  change 3%nat with (String.length "```"). rewrite drop_last_app.
  unfold strip. rewrite lstrip_app_solid by exact Hc.
  rewrite rstrip_app_blank by reflexivity. exact HR.
Qed.

(** The same for a bare pair of fences. *)
Lemma cleanup_bare_fence (body : string) :
  strip body = body ->
  cleanup ("```" ++ nl ++ body ++ nl ++ "```") = body.
Proof.
  intros Hs. destruct (strip_fixpoint _ Hs) as [HL HR].
  destruct body as [|c b]; [reflexivity|].
  pose proof (lstrip_fixpoint_head _ _ HL) as Hc.
  unfold cleanup.
  change (startswith ("```" ++ nl ++ String c b ++ nl ++ "```") "Error:")
    with false. cbv iota.
  assert (E0 : "```" ++ nl ++ String c b ++ nl ++ "```"
               = String "`" ("``" ++ nl ++ String c b ++ nl) ++ "```").
  { simpl. now rewrite !app_assoc_s. }
  assert (E1 : strip ("```" ++ nl ++ String c b ++ nl ++ "```")
               = "```" ++ nl ++ String c b ++ nl ++ "```").
  { rewrite E0. apply strip_app_solid; [reflexivity | reflexivity | discriminate]. }
  rewrite E1.
  change (startswith ("```" ++ nl ++ String c b ++ nl ++ "```") "```text")
    with false. cbv iota.
  change (startswith ("```" ++ nl ++ String c b ++ nl ++ "```") "```")
    with true. cbv iota.
  change (drop 3 ("```" ++ nl ++ String c b ++ nl ++ "```"))
    with (nl ++ String c b ++ nl ++ "```").
  assert (E2 : strip (nl ++ String c b ++ nl ++ "```")
               = String c b ++ nl ++ "```").
  { change (strip (nl ++ String c b ++ nl ++ "```"))
      with (strip (String c b ++ nl ++ "```")).
    apply strip_app_solid; [exact Hc | reflexivity | discriminate]. }
  rewrite E2.
  assert (E3 : String c b ++ nl ++ "```" = (String c b ++ nl) ++ "```")
    by now rewrite app_assoc_s.
  rewrite E3, endswith_app.
  change 3%nat with (String.length "```"). rewrite drop_last_app.
  unfold strip. rewrite lstrip_app_solid by exact Hc.
  rewrite rstrip_app_blank by reflexivity. exact HR.
Qed.

Import Notions Samples.

(** ** Reduction of a backend response to page text *)

Lemma text_of_first_choice_content (c : choice) (m : message_obj) (s : string) :
  c_message c = Some m -> m_content m = Some (VStr s) -> s <> "" ->
  text_of_first_choice c = VStr s.
Proof.
  intros Hm Hc Hs. unfold text_of_first_choice. rewrite Hm, Hc.
  destruct s; [contradiction | reflexivity].
Qed.

Lemma extract_text_choices (o : response_obj) (c : choice) (rest : list choice) :
  is_str (r_content o) = false -> is_str (r_text o) = false ->
  r_choices o = Some (ChoiceList (c :: rest)) ->
  extract_text (PObj o) = (text_of_first_choice c, false).
Proof.
  intros H1 H2 H3. unfold extract_text. rewrite H3.
  destruct (r_content o) as [[]|]; try discriminate;
    destruct (r_text o) as [[]|]; try discriminate; reflexivity.
Qed.

Lemma extract_text_unknown (o : response_obj) :
  is_str (r_content o) = false -> is_str (r_text o) = false ->
  truthy_choices (r_choices o) = false ->
  extract_text (PObj o) = (VStr (r_str o), false).
Proof.
  intros H1 H2 H3. unfold extract_text.
  destruct (r_content o) as [[]|]; try discriminate;
    destruct (r_text o) as [[]|]; try discriminate;
    destruct (r_choices o) as [[[|]|[]]|]; try discriminate; reflexivity.
Qed.

(** C4, as stated, fails: a response that has none of the four shapes
    (no string [content], no string [text], no [choices[0].message]) is not
    stringified when its first choice has a [text]: the page text is that
    [text], not [str(response)]. *)
Lemma completion_shape_not_stringified :
  is_str (r_content completion_response) = false
  /\ is_str (r_text completion_response) = false
  /\ r_choices completion_response
     = Some (ChoiceList [mkChoice None (Some (VStr "abc")) "<choice>"])
  /\ r_str completion_response = "<response>"
  /\ read_prediction completion_abc = inl ("abc", false)
  /\ read_prediction completion_abc <> inl ("<response>", false).
Proof. repeat split; try reflexivity. discriminate. Qed.

(** C4 (amended): the shape of a response is decided in the order plain
    string, string [content], string [text], non-empty [choices]; within
    [choices] the first choice gives its non-empty [message.content], else
    its [text] when it has one, else itself stringified; a response with
    none of these is stringified as a whole.  A string so obtained never
    fails the page, and "Cleanup" removes a wrapping pair of fences with
    or without the [text] tag from around an ASCII text that has no white
    space at either end; the two responses of the specification both
    reduce to [Hello]. *)
Theorem normalisation_decision_table :
  (forall s, fst (extract_text (PStr s)) = VStr s)
  /\ (forall o s, r_content o = Some (VStr s) ->
        extract_text (PObj o) = (VStr s, false))
  /\ (forall o s, is_str (r_content o) = false -> r_text o = Some (VStr s) ->
        extract_text (PObj o) = (VStr s, false))
  /\ (forall o c rest m s,
        is_str (r_content o) = false -> is_str (r_text o) = false ->
        r_choices o = Some (ChoiceList (c :: rest)) ->
        c_message c = Some m -> m_content m = Some (VStr s) -> s <> "" ->
        extract_text (PObj o) = (VStr s, false))
  /\ (forall o c rest,
        is_str (r_content o) = false -> is_str (r_text o) = false ->
        r_choices o = Some (ChoiceList (c :: rest)) ->
        (forall m, c_message c = Some m ->
                   match m_content m with
                   | Some v => is_true v = false
                   | None => True
                   end) ->
        extract_text (PObj o)
        = (match c_text c with Some v => v | None => VStr (c_str c) end,
           false))
  /\ (forall o,
        is_str (r_content o) = false -> is_str (r_text o) = false ->
        truthy_choices (r_choices o) = false ->
        extract_text (PObj o) = (VStr (r_str o), false))
  /\ (forall r s e, extract_text r = (VStr s, e) ->
        read_prediction r = inl (cleanup s, e))
  /\ (forall body, is_ascii body = true -> strip body = body ->
        startswith body "```" = false ->
        cleanup ("```text" ++ nl ++ body ++ nl ++ "```") = body)
  /\ (forall body, is_ascii body = true -> strip body = body ->
        cleanup ("```" ++ nl ++ body ++ nl ++ "```") = body)
  /\ read_prediction openai_hello = inl ("Hello", false)
  /\ read_prediction (PStr ("```text" ++ nl ++ "Hello" ++ nl ++ "```"))
     = inl ("Hello", false).
Proof.
  repeat apply conj.
  - intros s. unfold extract_text.
    destruct (startswith s "Error:"); reflexivity.
  - intros o s H. unfold extract_text. now rewrite H.
  - intros o s H1 H2. unfold extract_text. rewrite H2.
    destruct (r_content o) as [[]|]; try discriminate; reflexivity.
  - intros o c rest m s H1 H2 H3 H4 H5 H6.
    rewrite (extract_text_choices o c rest H1 H2 H3).
    now rewrite (text_of_first_choice_content c m s H4 H5 H6).
  - intros o c rest H1 H2 H3 H4.
    rewrite (extract_text_choices o c rest H1 H2 H3).
    unfold text_of_first_choice.
    destruct (c_message c) as [m|]; [|reflexivity].
    specialize (H4 m eq_refl).
    destruct (m_content m) as [v|]; [|reflexivity]. now rewrite H4.
  - exact extract_text_unknown.
  - intros r s e H. unfold read_prediction. now rewrite H.
  - intros body _. apply cleanup_text_fence.
  - intros body _. apply cleanup_bare_fence.
  - reflexivity.
  - reflexivity.
Qed.

Lemma normalisation_decision_table_witness :
  extract_text openai_hello = (VStr "Hello", false)
  /\ cleanup ("```text" ++ nl ++ "Hello" ++ nl ++ "```") = "Hello".
Proof.
  destruct normalisation_decision_table
    as (_ & _ & _ & Hchoices & _ & _ & _ & Hfence & _).
  split.
  - apply (Hchoices _ (mkChoice (Some (mkMessage (Some (VStr "Hello"))))
                                None "<choice>")
                    [] (mkMessage (Some (VStr "Hello"))) "Hello");
      (reflexivity || discriminate).
  - apply Hfence; reflexivity.
Defined.

(** ** The document registry *)



Lemma list_remove_incl (x : ObjectType) (l : list ObjectType) :
  incl (list_remove x l) l.
Proof.
  induction l as [|y t IH]; simpl; [apply incl_refl|].
  destruct (object_eqb y x).
  - apply incl_tl, incl_refl.
  - apply incl_cons; [now left | now apply incl_tl].
Qed.

Lemma list_remove_length (x : ObjectType) (l : list ObjectType) :
  (List.length (list_remove x l) <= List.length l)%nat.
Proof.
  induction l as [|y t IH]; simpl; [lia|].
  destruct (object_eqb y x); simpl; lia.
Qed.

Lemma list_remove_sorted (x : ObjectType) (l : list ObjectType) :
  StronglySorted Z.lt (map index l) ->
  StronglySorted Z.lt (map index (list_remove x l)).
Proof.
  induction l as [|y t IH]; simpl; intros H; [exact H|].
  inversion H as [|a l' Hs Hall]; subst.
  destruct (object_eqb y x); [exact Hs|].
  simpl. constructor; [now apply IH|].
  rewrite Forall_forall in *. intros j Hj.
  apply in_map_iff in Hj as (o & <- & Ho).
  apply Hall, in_map, (list_remove_incl x t), Ho.
Qed.

Lemma delete_loop_incl (fuel : nat) (i : Z) :
  forall pos l, incl (delete_loop fuel i pos l) l.
Proof.
  induction fuel as [|fuel IH]; intros pos l; simpl; [apply incl_refl|].
  destruct (nth_error l pos) as [obj|]; [|apply incl_refl].
  destruct (index obj =? i); [|apply IH].
  eapply incl_tran; [apply IH | apply list_remove_incl].
Qed.

Lemma delete_loop_length (fuel : nat) (i : Z) :
  forall pos l,
    (List.length (delete_loop fuel i pos l) <= List.length l)%nat.
Proof.
  induction fuel as [|fuel IH]; intros pos l; simpl; [lia|].
  destruct (nth_error l pos) as [obj|]; [|lia].
  destruct (index obj =? i); [|apply IH].
  specialize (IH (S pos) (list_remove obj l)).
  pose proof (list_remove_length obj l). lia.
Qed.

Lemma delete_loop_sorted (fuel : nat) (i : Z) :
  forall pos l,
    StronglySorted Z.lt (map index l) ->
    StronglySorted Z.lt (map index (delete_loop fuel i pos l)).
Proof.
  induction fuel as [|fuel IH]; intros pos l H; simpl; [exact H|].
  destruct (nth_error l pos) as [obj|]; [|exact H].
  destruct (index obj =? i); [|now apply IH].
  now apply IH, list_remove_sorted.
Qed.

(** The loop of [delete_object] ends by itself: once the fuel covers the
    elements from [pos] on, more fuel changes nothing.  [delete_object]
    starts it with the length of the list, so it never runs out. *)
Lemma delete_loop_fuel (i : Z) :
  forall f1 f2 pos l,
    (List.length l - pos <= f1)%nat -> (List.length l - pos <= f2)%nat ->
    delete_loop f1 i pos l = delete_loop f2 i pos l.
Proof.
  induction f1 as [|f1 IH]; intros f2 pos l H1 H2.
  - assert (E : nth_error l pos = None) by (apply nth_error_None; lia).
    destruct f2; simpl; [reflexivity | now rewrite E].
  - destruct f2 as [|f2].
    + assert (E : nth_error l pos = None) by (apply nth_error_None; lia).
      simpl. now rewrite E.
    + simpl. destruct (nth_error l pos) as [obj|] eqn:E; [|reflexivity].
      assert (pos < List.length l)%nat
        by (apply nth_error_Some; congruence).
      pose proof (list_remove_length obj l).
      destruct (index obj =? i); apply IH; lia.
Qed.

Lemma sorted_snoc (l : list Z) (x : Z) :
  StronglySorted Z.lt l -> Forall (fun y => y < x) l ->
  StronglySorted Z.lt (l ++ [x]).
Proof.
  induction l as [|a l IH]; simpl; intros Hs Hall.
  - constructor; constructor.
  - inversion Hs; subst. inversion Hall; subst.
    constructor; [now apply IH|].
    apply Forall_app. split; [assumption | now constructor].
Qed.

Lemma sorted_app (l1 l2 : list Z) (m : Z) :
  StronglySorted Z.lt l1 -> StronglySorted Z.lt l2 ->
  Forall (fun y => y < m) l1 -> Forall (fun y => m <= y) l2 ->
  StronglySorted Z.lt (l1 ++ l2).
Proof.
  induction l1 as [|a l IH]; simpl; intros H1 H2 Hlt Hge; [exact H2|].
  inversion H1; subst. inversion Hlt; subst.
  constructor; [now apply IH|].
  apply Forall_app. split; [assumption|].
  eapply Forall_impl; [|exact Hge]. simpl. intros; lia.
Qed.

Lemma sorted_NoDup (l : list Z) : StronglySorted Z.lt l -> NoDup l.
Proof.
  induction 1 as [|a l Hs IH Hall]; constructor; [|exact IH].
  intros Hin. rewrite Forall_forall in Hall. specialize (Hall a Hin). lia.
Qed.

Lemma add_object_inv (d : DocumentClass) pg text coords :
  doc_inv d -> doc_inv (add_object d pg text coords).
Proof.
  intros [Hlt Hs]. split; simpl.
  - apply Forall_app. split.
    + eapply Forall_impl; [|exact Hlt]. simpl. intros; lia.
    + constructor; [simpl; lia | constructor].
  - rewrite map_app. simpl. apply sorted_snoc; [exact Hs|].
    rewrite Forall_map. exact Hlt.
Qed.

Lemma add_object_new_indices (d : DocumentClass) pg text coords :
  new_indices d (add_object d pg text coords) = [obj_index d].
Proof.
  unfold new_indices. simpl.
  rewrite skipn_app, skipn_all, Nat.sub_diag. reflexivity.
Qed.

Lemma delete_object_inv (d : DocumentClass) (i : Z) :
  doc_inv d -> doc_inv (snd (delete_object d i)).
Proof.
  intros [Hlt Hs]. split; simpl.
  - rewrite Forall_forall in *. intros o Ho.
    apply Hlt. eapply delete_loop_incl, Ho.
  - now apply delete_loop_sorted.
Qed.

Lemma delete_object_new_indices (d : DocumentClass) (i : Z) :
  new_indices d (snd (delete_object d i)) = [].
Proof.
  unfold new_indices. simpl. rewrite skipn_all2; [reflexivity|].
  apply delete_loop_length.
Qed.

Lemma run_calls_inv (calls : list call) :
  forall d, doc_inv d ->
    doc_inv (fst (run_calls d calls))
    /\ obj_index d <= obj_index (fst (run_calls d calls))
    /\ StronglySorted Z.lt (snd (run_calls d calls))
    /\ Forall (fun j => obj_index d <= j) (snd (run_calls d calls)).
Proof.
  induction calls as [|c rest IH]; intros d Hd; simpl.
  - repeat split; try apply Hd; try constructor. lia.
  - assert (H1 : doc_inv (apply_call d c)
                 /\ obj_index d <= obj_index (apply_call d c)
                 /\ (new_indices d (apply_call d c) = []
                     \/ new_indices d (apply_call d c) = [obj_index d]
                        /\ obj_index (apply_call d c) = obj_index d + 1)).
    { destruct c as [pg text coords|i]; simpl apply_call.
      - split; [now apply add_object_inv|]. split; [simpl; lia|].
        right. split; [apply add_object_new_indices | reflexivity].
      - split; [now apply delete_object_inv|]. split; [simpl; lia|].
        left. apply delete_object_new_indices. }
    destruct H1 as (Hinv & Hle & Hnew).
    specialize (IH (apply_call d c) Hinv).
    destruct (run_calls (apply_call d c) rest) as [d2 later]. simpl in *.
    destruct IH as (I1 & I2 & I3 & I4).
    split; [exact I1|]. split; [lia|].
    destruct Hnew as [-> | [-> Hnext]]; simpl.
    + split; [exact I3|]. eapply Forall_impl; [|exact I4]. simpl; intros; lia.
    + split.
      * constructor; [exact I3|].
        eapply Forall_impl; [|exact I4]. simpl; intros; lia.
      * constructor; [lia|].
        eapply Forall_impl; [|exact I4]. simpl; intros; lia.
Qed.

Lemma new_document_inv : doc_inv new_document.
Proof. split; constructor. Qed.

(** C5: whatever calls of [add_object] and [delete_object] are made on a
    fresh document, the indices that [add_object] assigns are strictly
    increasing, hence unique; every stored object has an index below the
    counter and no two stored objects share one; [delete_object] leaves the
    counter alone, and no index that an object carried at the time of a
    deletion is assigned by a later [add_object]. *)
Theorem object_indices_never_reused (calls : list call) :
  StronglySorted Z.lt (snd (run_calls new_document calls))
  /\ NoDup (snd (run_calls new_document calls))
  /\ Forall (fun o => index o < obj_index (fst (run_calls new_document calls)))
            (objects (fst (run_calls new_document calls)))
  /\ NoDup (map index (objects (fst (run_calls new_document calls))))
  /\ (forall before i after,
        calls = (before ++ DeleteObject i :: after)%list ->
        let d1 := fst (run_calls new_document before) in
        let d2 := apply_call d1 (DeleteObject i) in
        obj_index d2 = obj_index d1
        /\ forall o, In o (objects d1) ->
                     ~ In (index o) (snd (run_calls d2 after))).
Proof.
  destruct (run_calls_inv calls new_document new_document_inv)
    as ([Hlt Hs] & _ & Hsorted & _).
  split; [exact Hsorted|]. split; [now apply sorted_NoDup|].
  split; [exact Hlt|]. split; [now apply sorted_NoDup|].
  intros before i after _ d1 d2.
  destruct (run_calls_inv before new_document new_document_inv)
    as ([Hlt1 _] & _ & _ & _).
  fold d1 in Hlt1.
  assert (Hd1 : doc_inv d1)
    by apply (run_calls_inv before new_document new_document_inv).
  assert (Hd2 : doc_inv d2) by now apply delete_object_inv.
  split; [reflexivity|].
  intros o Ho Hin.
  destruct (run_calls_inv after d2 Hd2) as (_ & _ & _ & Hge).
  rewrite Forall_forall in Hge, Hlt1.
  specialize (Hge _ Hin). specialize (Hlt1 _ Ho).
  change (obj_index d2) with (obj_index d1) in Hge. lia.
Qed.

Lemma object_indices_never_reused_witness :
  obj_index (apply_call
               (fst (run_calls new_document
                       [AddObject (Some 0) "a" None;
                        AddObject (Some 0) "b" None]))
               (DeleteObject 1)) = 2
  /\ ~ In 1 (snd (run_calls
                    (apply_call
                       (fst (run_calls new_document
                               [AddObject (Some 0) "a" None;
                                AddObject (Some 0) "b" None]))
                       (DeleteObject 1))
                    [AddObject (Some 1) "c" None])).
Proof.
  destruct (object_indices_never_reused
              [AddObject (Some 0) "a" None; AddObject (Some 0) "b" None;
               DeleteObject 1; AddObject (Some 1) "c" None])
    as (_ & _ & _ & _ & H).
  destruct (H [AddObject (Some 0) "a" None; AddObject (Some 0) "b" None]
              1 [AddObject (Some 1) "c" None] eq_refl) as [H1 H2].
  split; [exact H1|].
  apply (H2 (mkObject 1 (Some 0) "b" None)). simpl. auto.
Defined.

(** A run on a small document: the index freed by the deletion is not
    handed out again. *)
Example delete_then_add :
  run_calls new_document
    [AddObject (Some 0) "a" None; AddObject (Some 0) "b" None;
     DeleteObject 1; AddObject (Some 1) "c" None]
  = (mkDocument None [mkObject 0 (Some 0) "a" None;
                      mkObject 2 (Some 1) "c" None] 3 0,
     [0; 1; 2]).
Proof. reflexivity. Qed.

(** ** Format detection *)

(** C7, as stated, fails for the flow-document formats: with no
    page-counting library installed, [detect_type] on a [.docx] file
    raises nothing and reports zero pages. *)
Lemma docx_without_tooling_succeeds :
  recognized_extension (lower (path_suffix "report.docx")) = true
  /\ detect_type unavailable new_document "report.docx"
     = (None, mkDocument (Some "DOCX") [] 0 0).
Proof. split; reflexivity. Qed.

(** C7 (amended): when the library for the file's format cannot be
    imported, [detect_type] raises a [RuntimeError] naming what to install
    for PDF, PPTX and TIFF files; for DOCX, ODT and RTF files it raises
    nothing and sets the page count to zero. *)
Theorem detect_type_missing_tooling (tools : tooling) (d : DocumentClass)
    (p : string) :
  (lower (path_suffix p) = ".pdf" -> pdfinfo_pages tools p = ImportError ->
     fst (detect_type tools d p)
     = Some (RuntimeError "Install pdf2image and Poppler to handle PDFs."))
  /\ (lower (path_suffix p) = ".pptx" -> pptx_slides tools p = ImportError ->
        fst (detect_type tools d p)
        = Some (RuntimeError "Install python-pptx to handle PPTX."))
  /\ (lower (path_suffix p) = ".tif" \/ lower (path_suffix p) = ".tiff" ->
        tiff_frames tools p = ImportError ->
        fst (detect_type tools d p)
        = Some (RuntimeError "Install Pillow to handle TIFF."))
  /\ (lower (path_suffix p) = ".docx" \/ lower (path_suffix p) = ".odt"
      \/ lower (path_suffix p) = ".rtf" ->
        converted_pdf_pages tools p = ImportError ->
        detect_type tools d p
        = (None,
           mkDocument (Some (upper (lstrip_dots (lower (path_suffix p)))))
                      (objects d) (obj_index d) 0)).
Proof.
  unfold detect_type. repeat apply conj.
  - intros -> ->. reflexivity.
  - intros -> ->. reflexivity.
  - intros [-> | ->] ->; reflexivity.
  - intros [-> | [-> | ->]] ->; reflexivity.
Qed.

Lemma detect_type_missing_tooling_witness :
  fst (detect_type unavailable new_document "scan.PDF")
  = Some (RuntimeError "Install pdf2image and Poppler to handle PDFs.")
  /\ detect_type unavailable new_document "letter.odt"
     = (None, mkDocument (Some "ODT") [] 0 0).
Proof.
  split.
  - apply (detect_type_missing_tooling unavailable new_document "scan.PDF");
      reflexivity.
  - apply (detect_type_missing_tooling unavailable new_document "letter.odt");
      [right; left; reflexivity | reflexivity].
Defined.

Lemma rfind_dot_drop (s : string) :
  forall k, rfind_dot s = Some k ->
    exists r, drop k s = String "." r /\ rfind_dot r = None
              /\ String.length s = (k + 1 + String.length r)%nat.
Proof.
  induction s as [|c s IH]; simpl; intros k H; [discriminate|].
  destruct (rfind_dot s) as [k'|] eqn:E.
  - inversion H; subst. destruct (IH k' eq_refl) as (r & H1 & H2 & H3).
    exists r. simpl. split; [assumption|]. split; [assumption | lia].
  - destruct (Ascii.eqb c ".") eqn:Ec; [|discriminate].
    inversion H; subst. apply Ascii.eqb_eq in Ec. subst c.
    exists s. split; [reflexivity|]. split; [exact E | simpl; lia].
Qed.

Lemma ascii_lower_dot (c : ascii) :
  Ascii.eqb (ascii_lower c) "." = Ascii.eqb c ".".
Proof.
  destruct c as [[] [] [] [] [] [] [] []]; vm_compute; reflexivity.
Qed.

(** A non-empty suffix has something after its dot, so its upper-cased
    stem is not empty. *)
Lemma suffix_stem_nonempty (p : string) :
  path_suffix p <> "" ->
  nonempty (upper (lstrip_dots (lower (path_suffix p)))) = true.
Proof.
  unfold path_suffix.
  destruct (rfind_dot (path_name p)) as [k|] eqn:E; [|contradiction].
  destruct ((0 <? k)%nat && (k <? String.length (path_name p) - 1)%nat)
    eqn:B; [|contradiction].
  intros _. destruct (rfind_dot_drop _ _ E) as (r & H1 & H2 & H3).
  rewrite H1. apply andb_prop in B as [_ B]. apply Nat.ltb_lt in B.
  destruct r as [|c r]; [simpl in H3; lia|].
  simpl in H2. destruct (rfind_dot r); [discriminate|].
  destruct (Ascii.eqb c ".") eqn:Ec; [discriminate|].
  cbn [lower map_string]. change (ascii_lower ".") with "."%char.
  cbn [lstrip_dots]. change (Ascii.eqb "." ".") with true. cbv iota.
  rewrite ascii_lower_dot, Ec. reflexivity.
Qed.

(** C8, as stated, fails: a file with an extension that has no branch of
    its own does not get the type [UNKNOWN] but its extension in upper
    case. *)
Lemma txt_file_is_not_unknown :
  recognized_extension (lower (path_suffix "notes.txt")) = false
  /\ detect_type unavailable new_document "notes.txt"
     = (None, mkDocument (Some "TXT") [] 0 0)
  /\ file_type (snd (detect_type unavailable new_document "notes.txt"))
     <> Some "UNKNOWN".
Proof. repeat split; try reflexivity. discriminate. Qed.

(** C8 (amended): for a path whose extension has no branch of its own,
    [detect_type] raises nothing and sets the page count to zero; the file
    type becomes [UNKNOWN] when the name has no extension, and an ASCII
    extension without its dot in upper case otherwise. *)
Theorem detect_type_unrecognized (tools : tooling) (d : DocumentClass)
    (p : string) :
  recognized_extension (lower (path_suffix p)) = false ->
  fst (detect_type tools d p) = None
  /\ pages (snd (detect_type tools d p)) = 0
  /\ objects (snd (detect_type tools d p)) = objects d
  /\ obj_index (snd (detect_type tools d p)) = obj_index d
  /\ (path_suffix p = "" ->
      file_type (snd (detect_type tools d p)) = Some "UNKNOWN")
  /\ (path_suffix p <> "" -> is_ascii (path_suffix p) = true ->
      file_type (snd (detect_type tools d p))
      = Some (upper (lstrip_dots (lower (path_suffix p))))).
Proof.
  intros H. unfold recognized_extension in H. cbn [existsb] in H.
  repeat (apply orb_false_elim in H as [? H]).
  unfold detect_type.
  repeat match goal with
         | E : String.eqb ?a ?b = false |- _ => rewrite E; clear E
         end.
  cbn [orb fst snd pages objects obj_index file_type].
  repeat split.
  - intros ->. reflexivity.
  - intros Hne _. now rewrite (suffix_stem_nonempty p Hne).
Qed.

Lemma detect_type_unrecognized_witness :
  file_type (snd (detect_type unavailable new_document "Makefile"))
  = Some "UNKNOWN"
  /\ file_type (snd (detect_type unavailable new_document "data/table.Csv"))
     = Some "CSV".
Proof.
  split.
  - apply (detect_type_unrecognized unavailable new_document "Makefile");
      reflexivity.
  - apply (detect_type_unrecognized unavailable new_document "data/table.Csv");
      [reflexivity | discriminate | reflexivity].
Defined.

(** ** Starting a run *)

(** C9: with a loaded document of at least one page and no run in
    progress, blank "from" and "to" fields start the worker on pages 1 to
    [total_pages]; no message box is shown. *)
Theorem run_ocr_blank_range (app : app_state) (batch_size : Z)
    (from_entry to_entry path : string) :
  ocr_thread_alive app = false ->
  pdf_file app = Some path -> path <> "" ->
  1 <= total_pages app ->
  strip from_entry = "" -> strip to_entry = "" ->
  run_ocr app batch_size from_entry to_entry
  = StartWorker 1 (total_pages app)
                (if batch_size <? 1 then 10 else batch_size).
Proof.
  intros Halive Hfile Hpath Hpages Hfrom Hto. unfold run_ocr.
  rewrite Halive, Hfile, Hfrom, Hto.
  destruct path; [contradiction|]. cbn [nonempty negb orb].
  destruct (total_pages app <=? 0) eqn:E; [lia | reflexivity].
Qed.

Lemma run_ocr_blank_range_witness :
  run_ocr (mkApp false (Some "book.pdf") 12) 10 "" "" = StartWorker 1 12 10.
Proof.
  apply (run_ocr_blank_range (mkApp false (Some "book.pdf") 12) 10 "" ""
                             "book.pdf");
    (reflexivity || discriminate || (simpl; lia)).
Defined.

(** ** The conversion run *)

Section RunFacts.

Variable image : Type.
Variable convert_from_path : Z -> Z -> render_result image.
Variable respond : image -> backend_result.
Variable is_set : list event -> bool.

Local Open Scope list_scope.

Local Abbreviation process_page := (process_page image respond is_set).
Local Abbreviation process_pages := (process_pages image respond is_set).
Local Abbreviation process_batch :=
  (process_batch image convert_from_path respond is_set).
Local Abbreviation process_batches :=
  (process_batches image convert_from_path respond is_set).
Local Abbreviation ocr_worker_thread :=
  (ocr_worker_thread image convert_from_path respond is_set).
Local Abbreviation page_blocks := (page_blocks image respond).
Local Abbreviation page_errors := (page_errors image respond).
Local Abbreviation batch_emission :=
  (batch_emission image convert_from_path respond).
Local Abbreviation batch_clean := (batch_clean image convert_from_path respond).
Local Abbreviation batch_pages := (batch_pages image convert_from_path).
Local Abbreviation load_batch := (load_batch image convert_from_path).

Local Abbreviation stopped := (stopped is_set).

Lemma quiet_app (a b : list event) : quiet a -> quiet b -> quiet (a ++ b).
Proof.
  unfold quiet. intros Ha Hb. now rewrite existsb_app, Ha, Hb.
Qed.

Lemma committed_app (a b : list event) :
  committed (a ++ b) = (committed a ++ committed b).
Proof. apply filter_app. Qed.

Lemma recognised_pages_app (a b : list event) :
  recognised_pages (a ++ b)
  = (recognised_pages a ++ recognised_pages b).
Proof. apply flat_map_app. Qed.

Ltac run_step :=
  unfold Worker.process_page, Worker.process_batch, bind, check_cancel,
    cancelled, add_processed, emit, mark_success, get_cancelled, ret;
  cbn [fst snd trace was_cancelled final_status processed_page_count_in_run
       any_batch_processed_successfully].

Ltac trace_eq := cbn [app]; rewrite <- ?app_assoc; reflexivity.

(** One turn of the page loop either stops on a flag read and leaves the
    accumulator alone, or appends the block of the page. *)
Lemma process_page_cases (n : Z) (img : image) (acc : list string * bool)
    (s : wstate) :
  let r := process_page n img acc s in
  (fst (fst r) = true /\ snd (fst r) = acc
   /\ exists pre, stopped "OCR cancelled." s (snd r) pre
                  /\ committed pre = [])
  \/ (fst (fst r) = false
      /\ snd (fst r)
         = (fst acc ++ [page_block n
                          (fst (page_outcome n (ocr_page respond img)))],
            snd acc || snd (page_outcome n (ocr_page respond img)))
      /\ any_batch_processed_successfully (snd r)
         = any_batch_processed_successfully s
      /\ processed_page_count_in_run (snd r)
         = processed_page_count_in_run s + 1
      /\ exists evs, went_on s (snd r) evs /\ committed evs = []
                     /\ recognised_pages evs = [n]).
Proof.
  run_step. unfold stopped, went_on, quiet, page_outcome.
  destruct (is_set (trace s)) eqn:C1.
  { left. cbn. repeat split. exists []. cbn. rewrite app_nil_r.
    repeat split; assumption. }
  run_step.
  destruct (is_set (trace s ++ [CancelRead false])) eqn:C2.
  { left. cbn. repeat split. exists [CancelRead false].
    repeat split; try reflexivity; try assumption. trace_eq. }
  run_step.
  match goal with |- context [is_set ?t] => destruct (is_set t) eqn:C3 end.
  { left. cbn. repeat split.
    exists [CancelRead false; CancelRead false; Recognise n].
    repeat split; try reflexivity.
    - trace_eq.
    - rewrite <- C3. f_equal. trace_eq. }
  destruct (read_prediction (ocr_page respond img)) as [[text err]|ex].
  { right. cbn. repeat split.
    exists [CancelRead false; CancelRead false; Recognise n; CancelRead false].
    repeat split; try reflexivity. trace_eq. }
  run_step.
  match goal with |- context [is_set ?t] => destruct (is_set t) eqn:C4 end.
  { left. cbn. repeat split.
    exists [CancelRead false; CancelRead false; Recognise n; CancelRead false].
    repeat split; try reflexivity.
    - trace_eq.
    - rewrite <- C4. f_equal. trace_eq. }
  right. cbn. repeat split.
  - f_equal. symmetry. apply orb_true_r.
  - exists [CancelRead false; CancelRead false; Recognise n; CancelRead false;
            CancelRead false].
    repeat split; try reflexivity. trace_eq.
Qed.


Lemma went_on_trans (s s1 s2 : wstate) (e1 e2 : list event) :
  went_on s s1 e1 -> went_on s1 s2 e2 -> went_on s s2 (e1 ++ e2).
Proof.
  intros (T1 & Q1 & W1 & F1) (T2 & Q2 & W2 & F2).
  repeat split.
  - rewrite T2, T1. now rewrite app_assoc.
  - now apply quiet_app.
  - congruence.
  - congruence.
Qed.

Lemma went_on_stopped (status : string) (s s1 s2 : wstate)
    (e1 pre : list event) :
  went_on s s1 e1 -> stopped status s1 s2 pre ->
  stopped status s s2 (e1 ++ pre).
Proof.
  intros (T1 & Q1 & W1 & F1) (T2 & Q2 & I2 & W2 & F2).
  repeat split.
  - rewrite T2, T1. now rewrite <- !app_assoc.
  - now apply quiet_app.
  - rewrite app_assoc, <- T1. exact I2.
  - exact W2.
  - exact F2.
Qed.

Lemma seq_shift_map (f : Z) (n : nat) :
  map (fun k => f + 1 + Z.of_nat k) (seq 0 n)
  = map (fun k => f + Z.of_nat k) (seq 1 n).
Proof.
  rewrite <- seq_shift, map_map. apply map_ext. intros k. lia.
Qed.

(** The page loop either stops on a flag read, or produces the blocks of
    all the images in order. *)
Lemma process_pages_cases (b : Z) (images : list image) :
  forall (i : Z) (acc : list string * bool) (s : wstate),
    let r := process_pages b i images acc s in
    (exists pre, stopped "OCR cancelled." s (snd r) pre /\ committed pre = [])
    \/ (fst r = (fst acc ++ page_blocks b i images,
                 snd acc || page_errors b i images)
        /\ any_batch_processed_successfully (snd r)
           = any_batch_processed_successfully s
        /\ processed_page_count_in_run (snd r)
           = processed_page_count_in_run s + Z.of_nat (List.length images)
        /\ exists evs, went_on s (snd r) evs /\ committed evs = []
                       /\ recognised_pages evs
                          = map (fun k => b + i + Z.of_nat k)
                                (seq 0 (List.length images))).
Proof.
  induction images as [|img rest IH]; intros i acc s.
  - right. cbn. rewrite app_nil_r, orb_false_r.
    split; [now destruct acc|]. split; [reflexivity|]. split; [lia|].
    exists []. unfold went_on, quiet. cbn. rewrite app_nil_r. auto.
  - cbn [Worker.process_pages]. unfold bind.
    pose proof (process_page_cases (b + i) img acc s) as Hp.
    destruct (process_page (b + i) img acc s) as [[brk acc1] s1].
    cbn [fst snd] in Hp.
    destruct Hp as [(-> & _ & pre & Hstop & Hc)
                   | (-> & -> & Hany & Hcount & evs & Hgo & Hc & Hr)].
    + left. cbn. exists pre. auto.
    + cbn [fst snd].
      specialize (IH (i + 1)
        (fst acc ++ [page_block (b + i)
                       (fst (page_outcome (b + i) (ocr_page respond img)))],
         snd acc || snd (page_outcome (b + i) (ocr_page respond img))) s1).
      cbv zeta in IH.
      destruct IH as [(pre & Hstop & Hc2)
                     | (Hacc & Hany2 & Hcount2 & evs2 & Hgo2 & Hc2 & Hr2)].
      * left. exists (evs ++ pre). split.
        -- eapply went_on_stopped; eassumption.
        -- now rewrite committed_app, Hc, Hc2.
      * right. split.
        { rewrite Hacc. cbn [fst snd page_blocks page_errors].
          rewrite <- app_assoc, orb_assoc. reflexivity. }
        split; [congruence|].
        split; [rewrite Hcount2, Hcount; cbn [List.length]; lia|].
        exists (evs ++ evs2). split; [eapply went_on_trans; eassumption|].
        split; [now rewrite committed_app, Hc, Hc2|].
        rewrite recognised_pages_app, Hr, Hr2. cbn [List.length seq map app].
        f_equal; [lia|].
        rewrite <- seq_shift, map_map. apply map_ext. intros k. lia.
Qed.

Lemma page_blocks_length (b : Z) (images : list image) :
  forall i, List.length (page_blocks b i images) = List.length images.
Proof. induction images; intros i; simpl; [reflexivity | now rewrite IHimages]. Qed.

Lemma load_batch_nonempty (f l : Z) (images : list image) :
  load_batch f l = inr images -> images <> [].
Proof.
  unfold Worker.load_batch.
  destruct (convert_from_path f l) as [msg|[|img imgs]]; try discriminate.
  intros H; inversion H; discriminate.
Qed.

(** A read of the flag as set at the head of a batch ends the run. *)
Lemma process_batch_stops_at_head (b e bs : Z) (s : wstate) :
  is_set (trace s) = true ->
  process_batch b e bs s
  = (true, mkState (processed_page_count_in_run s)
                   (any_batch_processed_successfully s) true
                   "OCR process cancelled by user."
                   (trace s ++ [CancelRead true])).
Proof. intros H. run_step. rewrite H. reflexivity. Qed.

(** One turn of the batch loop either stops on a flag read and hands
    nothing over, or hands over exactly what the batch amounts to. *)
Lemma process_batch_cases (b e bs : Z) (s : wstate) :
  was_cancelled s = false ->
  let r := process_batch b e bs s in
  let bb := (b, Z.min (b + bs - 1) e) in
  (fst r = true
   /\ exists pre status, stopped status s (snd r) pre /\ committed pre = []
                         /\ is_cancelled_status status = true)
  \/ (fst r = false
      /\ any_batch_processed_successfully (snd r)
         = any_batch_processed_successfully s || batch_clean bb
      /\ exists evs, went_on s (snd r) evs
                     /\ committed evs = [batch_emission bb]
                     /\ recognised_pages evs = batch_pages bb).
Proof.
  intros Hwc. cbv zeta. run_step.
  unfold Notions.batch_emission, Notions.batch_clean, Notions.batch_pages.
  cbn [fst snd].
  destruct (is_set (trace s)) eqn:C1.
  { left. cbn. split; [reflexivity|].
    exists [], "OCR process cancelled by user.".
    unfold Notions.stopped, quiet. cbn. rewrite app_nil_r. auto 10. }
  run_step.
  destruct (load_batch b (Z.min (b + bs - 1) e)) as [msg|images] eqn:L.
  - run_step.
    match goal with |- context [is_set ?t] => destruct (is_set t) eqn:C2 end.
    { left. cbn. split; [reflexivity|].
      exists [CancelRead false; Render b (Z.min (b + bs - 1) e)],
             "OCR cancelled.".
      unfold Notions.stopped, quiet. cbn.
      repeat split; try reflexivity.
      - trace_eq.
      - rewrite <- C2. f_equal. trace_eq. }
    run_step. rewrite Hwc. cbn [negb]. run_step.
    right. split; [reflexivity|]. split; [now rewrite orb_false_r|].
    exists [CancelRead false; Render b (Z.min (b + bs - 1) e);
            CancelRead false;
            AppendLoadError (load_error_text b (Z.min (b + bs - 1) e) msg)].
    unfold went_on, quiet. cbn.
    repeat split; try reflexivity; try (symmetry; exact Hwc). trace_eq.
  - pose proof (load_batch_nonempty _ _ _ L) as Hne.
    set (s1 := mkState (processed_page_count_in_run s)
                 (any_batch_processed_successfully s) (was_cancelled s)
                 (final_status s)
                 ((trace s ++ [CancelRead false])
                    ++ [Render b (Z.min (b + bs - 1) e)])).
    assert (Hgo1 : went_on s s1
                     [CancelRead false; Render b (Z.min (b + bs - 1) e)]).
    { unfold went_on, quiet, s1. cbn.
      repeat split; try reflexivity. trace_eq. }
    pose proof (process_pages_cases b images 0 ([], false) s1) as Hp.
    cbv zeta in Hp.
    destruct (process_pages b 0 images ([], false) s1) as [acc s2].
    cbn [fst snd] in Hp.
    destruct Hp as [(pre & Hstop & Hc)
                   | (-> & Hany & _ & evs & Hgo & Hc & Hr)].
    + destruct Hstop as (T & Q & I & W & F) .
      rewrite W. cbn [negb andb]. run_step. rewrite W.
      left. split; [reflexivity|].
      exists ([CancelRead false; Render b (Z.min (b + bs - 1) e)] ++ pre),
             "OCR cancelled.".
      split; [|split; [now rewrite committed_app, Hc | reflexivity]].
      eapply went_on_stopped; [exact Hgo1|].
      repeat split; assumption.
    + destruct Hgo as (T & Q & W & F).
      assert (W2 : was_cancelled s2 = false) by (rewrite W; exact Hwc).
      rewrite W2. cbn [fst snd app negb andb orb].
      rewrite page_blocks_length.
      destruct images as [|img imgs]; [contradiction|].
      cbn [List.length Nat.eqb negb].
      run_step.
      replace (b + 0) with b in Hr by lia.
      destruct (page_errors b 0 (img :: imgs)) eqn:E; cbn [negb]; run_step;
        rewrite W2; right; (split; [reflexivity|]).
      * split; [rewrite orb_false_r; exact Hany|].
        exists ([CancelRead false; Render b (Z.min (b + bs - 1) e)]
                  ++ evs ++ [AppendBatch (join nl (page_blocks b 0 (img :: imgs)))]).
        unfold went_on. cbn [trace was_cancelled final_status].
        repeat split.
        -- rewrite T. unfold s1. cbn [trace]. trace_eq.
        -- apply quiet_app; [reflexivity|]. apply quiet_app; [exact Q | reflexivity].
        -- congruence.
        -- exact F.
        -- rewrite !committed_app, Hc. reflexivity.
        -- rewrite !recognised_pages_app, Hr. cbn. now rewrite app_nil_r.
      * split; [now rewrite orb_true_r|].
        exists ([CancelRead false; Render b (Z.min (b + bs - 1) e)]
                  ++ evs ++ [AppendBatch (join nl (page_blocks b 0 (img :: imgs)))]).
        unfold went_on. cbn [trace was_cancelled final_status].
        repeat split.
        -- rewrite T. unfold s1. cbn [trace]. trace_eq.
        -- apply quiet_app; [reflexivity|]. apply quiet_app; [exact Q | reflexivity].
        -- congruence.
        -- exact F.
        -- rewrite !committed_app, Hc. reflexivity.
        -- rewrite !recognised_pages_app, Hr. cbn. now rewrite app_nil_r.
Qed.

(** The batch loop either stops on a flag read, having handed over the
    batches before the one it stopped in, or hands over every batch. *)
Lemma process_batches_cases (e bs : Z) (starts : list Z) :
  forall s : wstate,
    was_cancelled s = false ->
    let s' := snd (process_batches starts e bs s) in
    let bl := map (fun b => (b, Z.min (b + bs - 1) e)) starts in
    (exists k pre status,
        (k < List.length starts)%nat /\ stopped status s s' pre
        /\ committed pre = map batch_emission (firstn k bl)
        /\ is_cancelled_status status = true)
    \/ (any_batch_processed_successfully s'
        = any_batch_processed_successfully s || existsb batch_clean bl
        /\ exists evs, went_on s s' evs
                       /\ committed evs = map batch_emission bl
                       /\ recognised_pages evs = flat_map batch_pages bl).
Proof.
  induction starts as [|b rest IH]; intros s Hwc; cbv zeta.
  - right. cbn. split; [now rewrite orb_false_r|].
    exists []. unfold went_on, quiet. cbn. rewrite app_nil_r. auto.
  - cbn [Worker.process_batches map]. unfold bind.
    pose proof (process_batch_cases b e bs s Hwc) as Hb. cbv zeta in Hb.
    destruct (process_batch b e bs s) as [brk s1]. cbn [fst snd] in Hb.
    destruct Hb as [(-> & pre & status & Hstop & Hc & Hst)
                   | (-> & Hany & evs & Hgo & Hc & Hr)].
    + left. exists 0%nat, pre, status.
      split; [cbn; lia|]. split; [exact Hstop|].
      split; [exact Hc | exact Hst].
    + assert (Hwc1 : was_cancelled s1 = false).
      { destruct Hgo as (_ & _ & W & _). congruence. }
      specialize (IH s1 Hwc1). cbv zeta in IH.
      destruct IH as [(k & pre & status & Hk & Hstop & Hc2 & Hst)
                     | (Hany2 & evs2 & Hgo2 & Hc2 & Hr2)].
      * left. exists (S k), (evs ++ pre), status.
        split; [cbn; lia|].
        split; [eapply went_on_stopped; eassumption|].
        split; [|exact Hst].
        rewrite committed_app, Hc, Hc2. reflexivity.
      * right. split.
        { rewrite Hany2, Hany. cbn [existsb]. now rewrite orb_assoc. }
        exists (evs ++ evs2).
        split; [eapply went_on_trans; eassumption|].
        split; [rewrite committed_app, Hc, Hc2; reflexivity|].
        rewrite recognised_pages_app, Hr, Hr2. reflexivity.
Qed.

Lemma committed_snoc_read (pre : list event) (b : bool) :
  committed (pre ++ [CancelRead b]) = committed pre.
Proof. rewrite committed_app. cbn. apply app_nil_r. Qed.

(** The worker either ends cancelled on the first flag read that answers
    "set", with whole batches handed over, or ends with every batch handed
    over and a status chosen by [any_batch_processed_successfully]. *)
Lemma worker_cases (start_page end_page batch_size : Z) :
  batch_size <> 0 ->
  let s' := ocr_worker_thread start_page end_page batch_size in
  let bl := batches start_page end_page batch_size in
  (was_cancelled s' = true
   /\ is_cancelled_status (final_status s') = true
   /\ exists k pre,
        (k < List.length bl)%nat
        /\ trace s' = pre ++ [CancelRead true] /\ quiet pre
        /\ is_set pre = true
        /\ committed (trace s') = map batch_emission (firstn k bl))
  \/ (was_cancelled s' = false
      /\ quiet (trace s')
      /\ committed (trace s') = map batch_emission bl
      /\ recognised_pages (trace s') = flat_map batch_pages bl
      /\ final_status s'
         = if existsb batch_clean bl then "OCR process completed."
           else "OCR finished, but encountered errors or no text was processed.").
Proof.
  intros Hbs. cbv zeta. unfold Worker.ocr_worker_thread, batches.
  apply Z.eqb_neq in Hbs. rewrite Hbs.
  pose proof (process_batches_cases end_page batch_size
                (py_range start_page (end_page + 1) batch_size)
                initial_state eq_refl) as H.
  cbv zeta in H.
  destruct H as [(k & pre & status & Hk & (T & Q & I & W & F) & Hc & Hst)
                | (Hany & evs & (T & Q & W & F) & Hc & Hr)].
  - rewrite W. cbn [negb]. left.
    split; [exact W|]. split; [now rewrite F|].
    exists k, pre. rewrite length_map.
    split; [exact Hk|]. split; [exact T|]. split; [exact Q|].
    split; [exact I|]. rewrite T. cbn [app trace initial_state].
    now rewrite committed_snoc_read.
  - rewrite W. cbn [negb was_cancelled initial_state]. right.
    rewrite Hany. cbn [any_batch_processed_successfully initial_state orb].
    destruct (existsb batch_clean _); cbn [negb set_status was_cancelled trace final_status];
      rewrite T; cbn [app trace initial_state];
      repeat split; try assumption; exact W.
Qed.

(** ** The partition into batches *)

Lemma map_seq_from (A : Type) (f : nat -> A) (n : nat) :
  forall a, map f (seq a n) = map (fun k => f (a + k)%nat) (seq 0 n).
Proof.
  induction n as [|n IH]; intros a; [reflexivity|].
  cbn [seq map]. rewrite Nat.add_0_r. f_equal.
  rewrite IH, <- seq_shift, map_map. apply map_ext. intros k.
  f_equal. lia.
Qed.

Lemma page_range_app (s m e : Z) :
  s <= m + 1 -> m <= e ->
  page_range s m ++ page_range (m + 1) e = page_range s e.
Proof.
  intros H1 H2. unfold page_range.
  replace (Z.to_nat (e - s + 1))
    with (Z.to_nat (m - s + 1) + Z.to_nat (e - (m + 1) + 1))%nat by lia.
  rewrite seq_app, map_app. apply f_equal. cbn [Nat.add].
  rewrite (map_seq_from _ _ _ (Z.to_nat (m - s + 1))).
  apply map_ext. intros k. lia.
Qed.

Lemma page_range_empty (s e : Z) : e < s -> page_range s e = [].
Proof.
  intros H. unfold page_range.
  replace (Z.to_nat (e - s + 1)) with 0%nat by lia. reflexivity.
Qed.

(** [range] with a positive step, one element at a time. *)
Lemma py_range_unfold (s stop step : Z) :
  0 < step ->
  py_range s stop step
  = if s <? stop then s :: py_range (s + step) stop step else [].
Proof.
  intros Hstep. unfold py_range.
  assert (E : (0 <? step) = true) by (apply Z.ltb_lt; lia). rewrite E.
  destruct (s <? stop) eqn:Hs; [|reflexivity].
  apply Z.ltb_lt in Hs.
  assert (Hq : 0 <= (stop - s - 1) / step) by (apply Z.div_pos; lia).
  replace (Z.to_nat ((stop - s - 1) / step + 1))
    with (S (Z.to_nat ((stop - s - 1) / step))) by lia.
  cbn [seq map]. f_equal; [lia|].
  destruct (s + step <? stop) eqn:Hs2.
  - apply Z.ltb_lt in Hs2.
    replace (stop - (s + step) - 1) with (stop - s - 1 + (-1) * step) by lia.
    rewrite Z.div_add by lia.
    replace (Z.to_nat ((stop - s - 1) / step + -1 + 1))
      with (Z.to_nat ((stop - s - 1) / step)) by lia.
    rewrite <- seq_shift, map_map. apply map_ext. intros k. lia.
  - apply Z.ltb_ge in Hs2.
    rewrite Z.div_small by lia. reflexivity.
Qed.

Lemma batches_unfold (s e bs : Z) :
  0 < bs ->
  batches s e bs
  = if s <=? e then (s, Z.min (s + bs - 1) e) :: batches (s + bs) e bs
    else [].
Proof.
  intros H. unfold batches. rewrite py_range_unfold by exact H.
  destruct (s <=? e) eqn:E1, (s <? e + 1) eqn:E2; try reflexivity; lia.
Qed.

(** The batches cut the range into consecutive stretches of at most
    [batch_size] pages each. *)
Lemma batches_partition (bs e : Z) (n : nat) :
  0 < bs ->
  forall s, s <= e + 1 -> e + 1 - s <= Z.of_nat n ->
    List.concat (map (fun b => page_range (fst b) (snd b)) (batches s e bs))
    = page_range s e
    /\ Forall (fun b => s <= fst b /\ fst b <= snd b /\ snd b <= e
                        /\ snd b - fst b + 1 <= bs)
              (batches s e bs).
Proof.
  intros Hbs. induction n as [|n IH]; intros s H1 H2.
  - rewrite batches_unfold by exact Hbs.
    assert (E : (s <=? e) = false) by lia. rewrite E.
    split; [cbn; now rewrite page_range_empty by lia | constructor].
  - rewrite batches_unfold by exact Hbs.
    destruct (s <=? e) eqn:E.
    2:{ split; [cbn; now rewrite page_range_empty by lia | constructor]. }
    apply Z.leb_le in E. cbn [map List.concat fst snd].
    destruct (Z.le_gt_cases (s + bs) (e + 1)) as [Hfit | Hlast].
    + destruct (IH (s + bs)) as [IH1 IH2]; [lia | lia |].
      rewrite IH1. replace (Z.min (s + bs - 1) e) with (s + bs - 1) by lia.
      split.
      * replace (page_range (s + bs) e)
          with (page_range (s + bs - 1 + 1) e) by (f_equal; lia).
        apply page_range_app; lia.
      * constructor; [cbn; lia|].
        eapply Forall_impl; [|exact IH2]. cbn. intros b Hb. lia.
    + replace (Z.min (s + bs - 1) e) with e by lia.
      rewrite (batches_unfold (s + bs)) by exact Hbs.
      assert (E2 : (s + bs <=? e) = false) by lia. rewrite E2.
      split; [cbn; apply app_nil_r|].
      constructor; [cbn; lia | constructor].
Qed.


(** ** Cancellation *)

Lemma quiet_no_set (evs pre post : list event) :
  quiet evs -> evs <> pre ++ CancelRead true :: post.
Proof.
  unfold quiet. intros Q ->. rewrite existsb_app in Q. cbn in Q.
  now rewrite orb_true_r in Q.
Qed.

(** In a trace that ends with the first "set" answer, nothing follows
    that answer. *)
Lemma first_set_is_last (p pre post : list event) :
  quiet p -> p ++ [CancelRead true] = pre ++ CancelRead true :: post ->
  post = [].
Proof.
  revert pre. induction p as [|x p IH]; intros pre Q H.
  - destruct pre as [|y pre]; cbn in H.
    + now inversion H.
    + inversion H as [[Hy Hrest]]. now destruct pre.
  - unfold quiet in Q. cbn in Q. apply orb_false_elim in Q as [Qx Qp].
    destruct pre as [|y pre]; cbn in H; inversion H; subst.
    + discriminate.
    + eapply IH; eassumption.
Qed.

Lemma committed_none (tr : list event) :
  committed tr = [] -> existsb is_append tr = false.
Proof.
  induction tr as [|x tr IH]; cbn; [reflexivity|].
  destruct (is_append x); [discriminate | exact IH].
Qed.

Lemma committed_some (tr : list event) :
  committed tr <> [] -> existsb is_append tr = true.
Proof.
  induction tr as [|x tr IH]; cbn; [contradiction|].
  destruct (is_append x); [reflexivity | exact IH].
Qed.

(** When the flag is set as soon as something has been handed over, and
    not before, the first batch is handed over and the second is never
    started. *)
Lemma second_batch_never_starts (b1 b2 : Z) (rest : list Z) (e bs : Z) :
  (forall tr, is_set tr = existsb is_append tr) ->
  let s' := snd (process_batches (b1 :: b2 :: rest) e bs initial_state) in
  was_cancelled s' = true
  /\ final_status s' = "OCR process cancelled by user."
  /\ committed (trace s') = [batch_emission (b1, Z.min (b1 + bs - 1) e)].
Proof.
  intros Hset. cbv zeta.
  remember (snd (process_batches (b1 :: b2 :: rest) e bs initial_state))
    as s' eqn:Es.
  cbn [Worker.process_batches] in Es. unfold bind in Es.
  pose proof (process_batch_cases b1 e bs initial_state eq_refl) as Hb.
  cbv zeta in Hb.
  destruct (process_batch b1 e bs initial_state) as [brk s1].
  cbn [fst snd] in Hb.
  destruct Hb as [(_ & pre & status & (_ & _ & I & _) & Hc & _)
                 | (-> & _ & evs & (T & _ & _ & _) & Hc & _)].
  - exfalso. rewrite Hset in I. cbn [trace initial_state app] in I.
    rewrite (committed_none _ Hc) in I. discriminate.
  - cbn [trace initial_state app] in T.
    rewrite process_batch_stops_at_head in Es.
    2:{ rewrite Hset, T. apply committed_some. rewrite Hc. discriminate. }
    unfold ret in Es. cbn [fst snd] in Es. subst s'.
    cbn [was_cancelled trace final_status].
    rewrite T, committed_snoc_read, Hc. auto.
Qed.

(** C1: once a read of the cancellation flag answers "set", the worker
    does nothing more: that read is the last event of the run, the run is
    marked cancelled and ends with a cancellation status.  What a
    cancelled run has handed over are the emissions of whole batches, the
    first [k] of them, for a [k] below the number of batches: the batch the
    worker was in contributes nothing, whatever pages of it were done.
    When the flag is set as soon as the first batch has been handed over
    and not before, and the range has a second batch, the run hands over
    exactly the first batch and ends cancelled. *)
Theorem cancellation_ends_run (start_page end_page batch_size : Z) :
  let s' := ocr_worker_thread start_page end_page batch_size in
  let bl := batches start_page end_page batch_size in
  (forall pre post,
      trace s' = pre ++ CancelRead true :: post ->
      post = [] /\ was_cancelled s' = true
      /\ is_cancelled_status (final_status s') = true)
  /\ (was_cancelled s' = true ->
      exists k, (k < List.length bl)%nat
                /\ committed (trace s') = map batch_emission (firstn k bl))
  /\ ((forall tr, is_set tr = existsb is_append tr) ->
      0 < batch_size -> start_page + batch_size <= end_page ->
      committed (trace s')
      = [batch_emission (start_page, start_page + batch_size - 1)]
      /\ was_cancelled s' = true
      /\ final_status s' = "OCR process cancelled by user.").
Proof.
  cbv zeta. split; [|split].
  - intros pre post H.
    destruct (Z.eq_dec batch_size 0) as [-> | Hbs].
    { cbn in H. now destruct pre. }
    destruct (worker_cases start_page end_page batch_size Hbs)
      as [(W & St & k & p & _ & T & Q & _ & _) | (_ & Q & _)].
    + rewrite T in H. split; [|split; assumption].
      eapply first_set_is_last; eassumption.
    + exfalso. eapply quiet_no_set; eassumption.
  - intros W.
    destruct (Z.eq_dec batch_size 0) as [-> | Hbs]; [discriminate W|].
    destruct (worker_cases start_page end_page batch_size Hbs)
      as [(_ & _ & k & p & Hk & _ & _ & _ & Hc) | (W' & _)].
    + exists k. split; assumption.
    + congruence.
  - intros Hset Hbs Hsecond.
    unfold Worker.ocr_worker_thread.
    assert (E0 : (batch_size =? 0) = false) by lia. rewrite E0.
    rewrite py_range_unfold by exact Hbs.
    assert (E1 : (start_page <? end_page + 1) = true) by lia. rewrite E1.
    rewrite py_range_unfold by exact Hbs.
    assert (E2 : (start_page + batch_size <? end_page + 1) = true) by lia.
    rewrite E2.
    destruct (second_batch_never_starts start_page
                (start_page + batch_size)
                (py_range (start_page + batch_size + batch_size)
                          (end_page + 1) batch_size)
                end_page batch_size Hset) as (W & F & C).
    replace (Z.min (start_page + batch_size - 1) end_page)
      with (start_page + batch_size - 1) in C by lia.
    cbv zeta. rewrite W. cbn [negb]. auto.
Qed.

(** A run in which no read of the flag answers "set" is not cancelled. *)
Lemma never_set_not_cancelled (start_page end_page batch_size : Z) :
  (forall tr, is_set tr = false) ->
  was_cancelled (ocr_worker_thread start_page end_page batch_size) = false.
Proof.
  intros Hnever.
  destruct (Z.eq_dec batch_size 0) as [-> | Hbs]; [reflexivity|].
  destruct (worker_cases start_page end_page batch_size Hbs)
    as [(_ & _ & k & p & _ & _ & _ & I & _) | (W & _)]; [|exact W].
  rewrite Hnever in I. discriminate.
Qed.

(** ** Page order and page failures *)

Lemma page_blocks_nth (b : Z) (images : list image) :
  forall (i : Z) (k : nat) (img : image),
    nth_error images k = Some img ->
    nth_error (page_blocks b i images) k
    = Some (page_block (b + i + Z.of_nat k)
              (fst (page_outcome (b + i + Z.of_nat k)
                      (ocr_page respond img)))).
Proof.
  induction images as [|x rest IH]; intros i k img H.
  - destruct k; discriminate.
  - destruct k as [|k]; cbn [nth_error Notions.page_blocks] in H |- *.
    + inversion H; subst. now rewrite Z.add_0_r.
    + rewrite (IH (i + 1) k img H).
      replace (b + i + Z.of_nat (S k)) with (b + (i + 1) + Z.of_nat k) by lia.
      reflexivity.
Qed.

Lemma cleanup_error (t : string) :
  startswith t "Error:" = true -> cleanup t = t.
Proof. intros H. unfold cleanup. now rewrite H. Qed.

Lemma page_outcome_raises (n : Z) (img : image) (msg : string) :
  respond img = Raises msg ->
  page_outcome n (ocr_page respond img) = (("Error: " ++ msg)%string, true).
Proof.
  intros H. unfold page_outcome, ocr_page, read_prediction. rewrite H.
  reflexivity.
Qed.

Lemma batch_emission_loaded (b : Z * Z) (images : list image) :
  load_batch (fst b) (snd b) = inr images ->
  batch_emission b = AppendBatch (join nl (page_blocks (fst b) 0 images)).
Proof. intros H. unfold Notions.batch_emission. now rewrite H. Qed.

(** C2: on a valid range with a positive batch size the batches are
    consecutive stretches of at most [batch_size] pages that together are
    the pages [start_page .. end_page], each once and in ascending order.
    A run that is not cancelled goes through the batches in that order: it
    hands over one text for each batch, in batch order, and sends the
    pages of each batch to the model in page order.  When the renderer
    returns one image for each page asked for, each text is made of the
    blocks of the batch's pages and the pages sent to the model are
    exactly [start_page .. end_page] in ascending order.  The range 1 to 25
    with batches of 10 is cut into 1-10, 11-20 and 21-25. *)
Theorem batches_cover_range_in_order (start_page end_page batch_size : Z) :
  1 <= start_page -> start_page <= end_page -> 1 <= batch_size ->
  let s' := ocr_worker_thread start_page end_page batch_size in
  let bl := batches start_page end_page batch_size in
  List.concat (map (fun b => page_range (fst b) (snd b)) bl)
  = page_range start_page end_page
  /\ Forall (fun b => start_page <= fst b /\ fst b <= snd b
                      /\ snd b <= end_page
                      /\ snd b - fst b + 1 <= batch_size) bl
  /\ (was_cancelled s' = false ->
      committed (trace s') = map batch_emission bl
      /\ recognised_pages (trace s') = flat_map batch_pages bl)
  /\ ((forall f l, f <= l ->
         exists images, convert_from_path f l = Rendered images
                        /\ List.length images = Z.to_nat (l - f + 1)) ->
      flat_map batch_pages bl = page_range start_page end_page
      /\ forall b, In b bl ->
           exists images,
             List.length images = Z.to_nat (snd b - fst b + 1)
             /\ batch_pages b = page_range (fst b) (snd b)
             /\ batch_emission b
                = AppendBatch (join nl (page_blocks (fst b) 0 images)))
  /\ batches 1 25 10 = [(1, 10); (11, 20); (21, 25)].
Proof.
  intros H1 H2 H3. cbv zeta.
  destruct (batches_partition batch_size end_page
              (Z.to_nat (end_page + 1 - start_page)) ltac:(lia)
              start_page ltac:(lia) ltac:(lia)) as [Hcover Hsizes].
  split; [exact Hcover|]. split; [exact Hsizes|].
  split; [|split; [|reflexivity]].
  - intros Hwc.
    destruct (worker_cases start_page end_page batch_size ltac:(lia))
      as [(W & _) | (_ & _ & Hc & Hr & _)]; [congruence|].
    split; assumption.
  - intros Hrender.
    assert (Hload : forall b, In b (batches start_page end_page batch_size) ->
              exists images,
                load_batch (fst b) (snd b) = inr images
                /\ List.length images = Z.to_nat (snd b - fst b + 1)).
    { intros b Hb. rewrite Forall_forall in Hsizes.
      destruct (Hsizes b Hb) as (_ & Hle & _).
      destruct (Hrender (fst b) (snd b) Hle) as (images & Hr & Hlen).
      exists images. split; [|exact Hlen].
      unfold Worker.load_batch. rewrite Hr.
      destruct images; [cbn in Hlen; lia | reflexivity]. }
    assert (Hpages : forall b,
              In b (batches start_page end_page batch_size) ->
              batch_pages b = page_range (fst b) (snd b)).
    { intros b Hb. destruct (Hload b Hb) as (images & Hl & Hlen).
      unfold Notions.batch_pages, page_range. now rewrite Hl, Hlen. }
    split.
    + rewrite <- Hcover, flat_map_concat_map. f_equal.
      apply map_ext_in. exact Hpages.
    + intros b Hb. destruct (Hload b Hb) as (images & Hl & Hlen).
      exists images. split; [exact Hlen|].
      split; [now apply Hpages | now apply batch_emission_loaded].
Qed.

(** A page whose response cannot be processed gets the text of the
    handler of lines 594-598 and marks the batch. *)
Lemma page_outcome_unprocessed (n : Z) (img : image) (ex : string) :
  read_prediction (ocr_page respond img) = inr ex ->
  page_outcome n (ocr_page respond img)
  = (("Error processing page " ++ str_of_int n ++ ": " ++ ex)%string, true).
Proof. intros H. unfold page_outcome. now rewrite H. Qed.

Lemma page_errors_nth (b : Z) (images : list image) :
  forall (i : Z) (k : nat) (img : image),
    nth_error images k = Some img ->
    snd (page_outcome (b + i + Z.of_nat k) (ocr_page respond img)) = true ->
    page_errors b i images = true.
Proof.
  induction images as [|x rest IH]; intros i k img H Herr.
  - destruct k; discriminate.
  - destruct k as [|k]; cbn [nth_error Notions.page_errors] in H |- *.
    + inversion H; subst. rewrite Z.add_0_r in Herr. now rewrite Herr.
    + rewrite (IH (i + 1) k img H); [apply orb_true_r|].
      replace (b + (i + 1) + Z.of_nat k) with (b + i + Z.of_nat (S k)) by lia.
      exact Herr.
Qed.

(** C3: in a run that is not cancelled every batch is handed over,
    whatever happens to its pages.  A batch that loaded is handed over as
    one text, the blocks of its images joined by a line feed, one block
    for each image.  The block of a page on which the model call fails is
    the line [--- Page n ---] followed by [Error: <message>]; the block of
    a page whose response cannot be processed is that line followed by
    [Error processing page n: <message>]; both mark the batch as having
    errors, and every other page has its own block under its own label.
    In the batch of pages 1 to 10 with a model that fails on page 7 the
    text handed over has the ten blocks, that of page 7 with the error. *)
Theorem page_failure_does_not_abort (start_page end_page batch_size : Z) :
  batch_size <> 0 ->
  was_cancelled (ocr_worker_thread start_page end_page batch_size) = false ->
  let s' := ocr_worker_thread start_page end_page batch_size in
  let bl := batches start_page end_page batch_size in
  committed (trace s') = map batch_emission bl
  /\ (forall b images,
       In b bl -> load_batch (fst b) (snd b) = inr images ->
       batch_emission b
       = AppendBatch (String.concat nl (page_blocks (fst b) 0 images))
       /\ List.length (page_blocks (fst b) 0 images) = List.length images
       /\ (forall k img msg,
             nth_error images k = Some img -> respond img = Raises msg ->
             nth_error (page_blocks (fst b) 0 images) k
             = Some ("--- Page " ++ str_of_int (fst b + Z.of_nat k) ++ " ---"
                     ++ nl ++ "Error: " ++ msg ++ nl)%string
             /\ batch_clean b = false)
       /\ (forall k img ex,
             nth_error images k = Some img ->
             read_prediction (ocr_page respond img) = inr ex ->
             nth_error (page_blocks (fst b) 0 images) k
             = Some ("--- Page " ++ str_of_int (fst b + Z.of_nat k) ++ " ---"
                     ++ nl ++ "Error processing page "
                     ++ str_of_int (fst b + Z.of_nat k) ++ ": " ++ ex
                     ++ nl)%string
             /\ batch_clean b = false)
       /\ (forall k img,
             nth_error images k = Some img ->
             nth_error (page_blocks (fst b) 0 images) k
             = Some ("--- Page " ++ str_of_int (fst b + Z.of_nat k) ++ " ---"
                     ++ nl
                     ++ fst (page_outcome (fst b + Z.of_nat k)
                               (ocr_page respond img))
                     ++ nl)%string))
  /\ committed (trace (Worker.ocr_worker_thread Z render_all respond_fail_7
                         never_set 1 10 10))
     = [AppendBatch
          ("--- Page 1 ---" ++ nl ++ "text of page 1" ++ nl ++ nl
           ++ "--- Page 2 ---" ++ nl ++ "text of page 2" ++ nl ++ nl
           ++ "--- Page 3 ---" ++ nl ++ "text of page 3" ++ nl ++ nl
           ++ "--- Page 4 ---" ++ nl ++ "text of page 4" ++ nl ++ nl
           ++ "--- Page 5 ---" ++ nl ++ "text of page 5" ++ nl ++ nl
           ++ "--- Page 6 ---" ++ nl ++ "text of page 6" ++ nl ++ nl
           ++ "--- Page 7 ---" ++ nl ++ "Error: model unreachable" ++ nl
           ++ nl
           ++ "--- Page 8 ---" ++ nl ++ "text of page 8" ++ nl ++ nl
           ++ "--- Page 9 ---" ++ nl ++ "text of page 9" ++ nl ++ nl
           ++ "--- Page 10 ---" ++ nl ++ "text of page 10" ++ nl)%string].
Proof.
  intros Hbs Hwc. cbv zeta.
  destruct (worker_cases start_page end_page batch_size Hbs)
    as [(W & _) | (_ & _ & Hc & _)]; [congruence|].
  split; [exact Hc|]. split; [|vm_compute; reflexivity].
  intros b images _ Hl.
  assert (Hdirty : forall k img,
             nth_error images k = Some img ->
             snd (page_outcome (fst b + Z.of_nat k) (ocr_page respond img))
             = true ->
             batch_clean b = false).
  { intros k img Hk Herr. unfold Notions.batch_clean. rewrite Hl.
    rewrite (page_errors_nth (fst b) images 0 k img Hk); [reflexivity|].
    now rewrite Z.add_0_r. }
  split; [exact (batch_emission_loaded b images Hl)|].
  split; [apply page_blocks_length|].
  split; [|split].
  - intros k img msg Hk Hmsg. split.
    + rewrite (page_blocks_nth _ _ _ _ _ Hk), Z.add_0_r.
      now rewrite (page_outcome_raises _ _ _ Hmsg).
    + apply (Hdirty k img Hk). now rewrite (page_outcome_raises _ _ _ Hmsg).
  - intros k img ex Hk Hex. split.
    + rewrite (page_blocks_nth _ _ _ _ _ Hk), Z.add_0_r.
      rewrite (page_outcome_unprocessed _ _ _ Hex). cbn [fst].
      unfold page_block. now rewrite !app_assoc_s.
    + apply (Hdirty k img Hk).
      now rewrite (page_outcome_unprocessed _ _ _ Hex).
  - intros k img Hk.
    now rewrite (page_blocks_nth _ _ _ _ _ Hk), Z.add_0_r.
Qed.

(** ** Final status *)

(** C6 (amended): a run that is not cancelled ends with the status
    [OCR process completed.] exactly when at least one of its batches
    loaded and had no page error, and with [OCR finished, but encountered
    errors or no text was processed.] otherwise; in particular a run all
    of whose batches are free of errors ends with the first. *)
Theorem completion_status (start_page end_page batch_size : Z) :
  batch_size <> 0 ->
  was_cancelled (ocr_worker_thread start_page end_page batch_size) = false ->
  let s' := ocr_worker_thread start_page end_page batch_size in
  let bl := batches start_page end_page batch_size in
  (existsb batch_clean bl = true ->
   final_status s' = "OCR process completed.")
  /\ (existsb batch_clean bl = false ->
      final_status s'
      = "OCR finished, but encountered errors or no text was processed.")
  /\ (bl <> [] -> forallb batch_clean bl = true ->
      final_status s' = "OCR process completed.").
Proof.
  intros Hbs Hwc. cbv zeta.
  destruct (worker_cases start_page end_page batch_size Hbs)
    as [(W & _) | (_ & _ & _ & _ & Hst)]; [congruence|].
  rewrite Hst. split; [|split].
  - intros ->. reflexivity.
  - intros ->. reflexivity.
  - intros Hne Hall.
    destruct (batches start_page end_page batch_size) as [|b bl];
      [contradiction|].
    cbn in Hall |- *. apply andb_prop in Hall as [-> _]. reflexivity.
Qed.

(** ** Error texts *)

(** C10: when the text obtained for a page begins with [Error:], the page's
    block is the page label followed by that text as it is; nothing is
    trimmed and no fence is removed. *)
Theorem error_text_kept_verbatim (page_num : Z) (img : image)
    (acc : list string * bool) (s : wstate) (t : string) (err : bool) :
  extract_text (ocr_page respond img) = (VStr t, err) ->
  startswith t "Error:" = true ->
  fst (fst (process_page page_num img acc s)) = false ->
  read_prediction (ocr_page respond img) = inl (t, err)
  /\ fst (snd (fst (process_page page_num img acc s)))
     = fst acc ++ [("--- Page " ++ str_of_int page_num ++ " ---" ++ nl
                    ++ t ++ nl)%string].
Proof.
  intros Hx Ht Hgo.
  assert (Hread : read_prediction (ocr_page respond img) = inl (t, err)).
  { unfold read_prediction. rewrite Hx. cbn [cleanup_value].
    now rewrite (cleanup_error t Ht). }
  split; [exact Hread|].
  destruct (process_page_cases page_num img acc s)
    as [(Hbrk & _) | (_ & Hacc & _)]; [congruence|].
  rewrite Hacc. unfold page_outcome. rewrite Hread. reflexivity.
Qed.

End RunFacts.

(** ** Worked runs *)

Lemma render_all_faithful (f l : Z) :
  f <= l ->
  exists images, render_all f l = Rendered images
                 /\ List.length images = Z.to_nat (l - f + 1).
Proof.
  intros _. exists (page_range f l). split; [reflexivity|].
  unfold page_range. now rewrite length_map, length_seq.
Qed.

Lemma cancellation_ends_run_witness :
  committed (trace (ocr_worker_thread Z render_all respond_ok
                      set_after_first_commit 1 4 2))
  = [batch_emission Z render_all respond_ok (1, 1 + 2 - 1)]
  /\ was_cancelled (ocr_worker_thread Z render_all respond_ok
                      set_after_first_commit 1 4 2) = true
  /\ final_status (ocr_worker_thread Z render_all respond_ok
                     set_after_first_commit 1 4 2)
     = "OCR process cancelled by user.".
Proof.
  apply (cancellation_ends_run Z render_all respond_ok
           set_after_first_commit 1 4 2);
    [intros tr; reflexivity | lia | lia].
Defined.

(** The flag is set while page 3, the first page of the second batch, is
    with the model: page 3 was recognised, yet only the first batch is
    handed over. *)
Example cancelled_in_second_batch :
  let s' := ocr_worker_thread Z render_all respond_ok set_during_page_3
              1 4 2 in
  recognised_pages (trace s') = [1; 2; 3]
  /\ committed (trace s')
     = [AppendBatch ("--- Page 1 ---" ++ nl ++ "text of page 1" ++ nl ++ nl
                     ++ "--- Page 2 ---" ++ nl ++ "text of page 2" ++ nl)]
  /\ was_cancelled s' = true
  /\ final_status s' = "OCR cancelled.".
Proof. vm_compute. repeat split. Qed.

(** The text in the results widget after an undisturbed run over two
    batches of one page each. *)
Example results_of_two_batches :
  results_text "" (trace (ocr_worker_thread Z render_all respond_ok never_set
                            1 2 1))
  = "--- Page 1 ---" ++ nl ++ "text of page 1" ++ nl ++ nl
    ++ "--- Page 2 ---" ++ nl ++ "text of page 2" ++ nl.
Proof. vm_compute. reflexivity. Qed.

Lemma batches_cover_range_in_order_witness :
  recognised_pages (trace (ocr_worker_thread Z render_all respond_ok never_set
                             1 25 10))
  = page_range 1 25
  /\ batches 1 25 10 = [(1, 10); (11, 20); (21, 25)].
Proof.
  destruct (batches_cover_range_in_order Z render_all respond_ok never_set
              1 25 10 ltac:(lia) ltac:(lia) ltac:(lia))
    as (_ & _ & Hrun & Hfaithful & B).
  destruct (Hrun ltac:(vm_compute; reflexivity)) as [_ Hr].
  destruct (Hfaithful render_all_faithful) as [Hp _].
  split; [now rewrite Hr, Hp | exact B].
Defined.

Lemma page_failure_does_not_abort_witness :
  committed (trace (ocr_worker_thread Z render_all respond_fail_7 never_set
                      1 10 10))
  = map (batch_emission Z render_all respond_fail_7) (batches 1 10 10)
  /\ nth_error (page_blocks Z respond_fail_7 1 0 (page_range 1 10)) 6
     = Some ("--- Page " ++ str_of_int (1 + Z.of_nat 6) ++ " ---" ++ nl
             ++ "Error: " ++ "model unreachable" ++ nl)%string
  /\ nth_error (page_blocks Z respond_odd_7 1 0 (page_range 1 10)) 6
     = Some ("--- Page " ++ str_of_int (1 + Z.of_nat 6) ++ " ---" ++ nl
             ++ "Error processing page " ++ str_of_int (1 + Z.of_nat 6)
             ++ ": " ++ "'NoneType' object has no attribute 'startswith'"
             ++ nl)%string
  /\ batch_clean Z render_all respond_odd_7 (1, 10) = false.
Proof.
  destruct (page_failure_does_not_abort Z render_all respond_fail_7 never_set
              1 10 10 ltac:(lia) ltac:(vm_compute; reflexivity))
    as (Hc & Hb & _).
  split; [exact Hc|].
  destruct (Hb (1, 10) (page_range 1 10)
               ltac:(left; reflexivity) ltac:(reflexivity))
    as (_ & _ & Hfail & _).
  split; [apply (Hfail 6%nat 7 "model unreachable"); reflexivity|].
  destruct (page_failure_does_not_abort Z render_all respond_odd_7 never_set
              1 10 10 ltac:(lia) ltac:(vm_compute; reflexivity))
    as (_ & Hb' & _).
  destruct (Hb' (1, 10) (page_range 1 10)
                ltac:(left; reflexivity) ltac:(reflexivity))
    as (_ & _ & _ & Hodd & _).
  apply (Hodd 6%nat 7 "'NoneType' object has no attribute 'startswith'");
    reflexivity.
Defined.

(** The ten-page batch with a model that fails on page 7: one text is
    handed over, it has a block for each of the ten pages, and the block
    of page 7 carries the error. *)
Example page_7_fails :
  committed (trace (ocr_worker_thread Z render_all respond_fail_7 never_set
                      1 10 10))
  = [AppendBatch
       (join nl
          [page_block 1 "text of page 1"; page_block 2 "text of page 2";
           page_block 3 "text of page 3"; page_block 4 "text of page 4";
           page_block 5 "text of page 5"; page_block 6 "text of page 6";
           page_block 7 "Error: model unreachable";
           page_block 8 "text of page 8"; page_block 9 "text of page 9";
           page_block 10 "text of page 10"])].
Proof. vm_compute. reflexivity. Qed.

(** C6, as stated, fails: in a run of two one-page batches in which the
    model fails on page 2, a page error occurred and the second batch is
    marked as having errors, yet the run ends with the clean status. *)
Lemma later_error_still_completed :
  snd (page_outcome 2 (ocr_page respond_fail_2 2)) = true
  /\ batch_clean Z render_all respond_fail_2 (2, 2) = false
  /\ was_cancelled (ocr_worker_thread Z render_all respond_fail_2 never_set
                      1 2 1) = false
  /\ final_status (ocr_worker_thread Z render_all respond_fail_2 never_set
                     1 2 1) = "OCR process completed.".
Proof. vm_compute. repeat split. Qed.

Lemma completion_status_witness :
  final_status (ocr_worker_thread Z render_all respond_fail_2 never_set 1 2 1)
  = "OCR process completed."
  /\ final_status (ocr_worker_thread Z render_all respond_fail_2 never_set
                     2 2 1)
     = "OCR finished, but encountered errors or no text was processed.".
Proof.
  split.
  - destruct (completion_status Z render_all respond_fail_2 never_set 1 2 1
                ltac:(lia) ltac:(vm_compute; reflexivity)) as (H & _ & _).
    apply H. vm_compute. reflexivity.
  - destruct (completion_status Z render_all respond_fail_2 never_set 2 2 1
                ltac:(lia) ltac:(vm_compute; reflexivity)) as (_ & H & _).
    apply H. vm_compute. reflexivity.
Defined.

Lemma error_text_kept_verbatim_witness :
  read_prediction (ocr_page respond_fail_7 7)
  = inl ("Error: model unreachable", true)
  /\ fst (snd (fst (process_page Z respond_fail_7 never_set 7 7 ([], false)
                      initial_state)))
     = [("--- Page " ++ str_of_int 7 ++ " ---" ++ nl
         ++ "Error: model unreachable" ++ nl)%string].
Proof.
  apply (error_text_kept_verbatim Z respond_fail_7 never_set 7 7 ([], false)
           initial_state "Error: model unreachable" true);
    reflexivity.
Defined.

(* ================================================================== *)
(** * Part III: further properties of the code *)
(* ================================================================== *)

Import Registry.

(** ** Lookup, insertion and removal in the registry *)

Lemma object_eqb_refl (x : ObjectType) : object_eqb x x = true.
Proof.
  assert (L : forall l : list Z, list_eqb Z.eqb l l = true).
  { induction l as [|a l IH]; [reflexivity|].
    cbn. now rewrite Z.eqb_refl, IH. }
  unfold object_eqb. rewrite Z.eqb_refl, String.eqb_refl.
  destruct (page x), (coordinates x); cbn;
    rewrite ?Z.eqb_refl, ?L; reflexivity.
Qed.

Lemma object_eqb_index (x y : ObjectType) :
  object_eqb y x = true -> index y = index x.
Proof.
  unfold object_eqb. intros H.
  repeat (apply andb_prop in H as [H ?]). now apply Z.eqb_eq.
Qed.

Lemma find_object_none (i : Z) (l : list ObjectType) :
  (forall o, In o l -> index o <> i) -> find_object i l = None.
Proof.
  induction l as [|x t IH]; intros H; [reflexivity|]. cbn.
  destruct (index x =? i) eqn:E.
  - apply Z.eqb_eq in E. exfalso. apply (H x); [now left | exact E].
  - apply IH. intros o Ho. apply H. now right.
Qed.

Lemma find_object_app (i : Z) (l1 l2 : list ObjectType) :
  find_object i (l1 ++ l2)
  = match find_object i l1 with
    | Some o => Some o
    | None => find_object i l2
    end.
Proof.
  induction l1 as [|x t IH]; [reflexivity|]. cbn.
  destruct (index x =? i); [reflexivity | exact IH].
Qed.

(** Without a match the loop of [delete_object] changes nothing. *)
Lemma delete_loop_no_match (fuel : nat) (i : Z) :
  forall pos l,
    (forall o, In o l -> index o <> i) -> delete_loop fuel i pos l = l.
Proof.
  induction fuel as [|fuel IH]; intros pos l H; [reflexivity|]. cbn.
  destruct (nth_error l pos) as [obj|] eqn:E; [|reflexivity].
  assert (Hobj : index obj <> i) by (apply H; eapply nth_error_In; eassumption).
  apply Z.eqb_neq in Hobj. rewrite Hobj. now apply IH.
Qed.

Lemma list_remove_at (x : ObjectType) (pre t : list ObjectType) :
  (forall o, In o pre -> index o <> index x) ->
  list_remove x (pre ++ x :: t) = (pre ++ t)%list.
Proof.
  induction pre as [|y pre IH]; intros H; cbn.
  - now rewrite object_eqb_refl.
  - destruct (object_eqb y x) eqn:E.
    + apply object_eqb_index in E. exfalso. apply (H y); [now left | exact E].
    + f_equal. apply IH. intros o Ho. apply H. now right.
Qed.

(** On a list whose indices increase, the loop of [delete_object] keeps
    exactly the objects that do not carry the index. *)
Lemma delete_loop_filter (i : Z) (l : list ObjectType) :
  forall (fuel : nat) (pre : list ObjectType),
    (List.length l <= fuel)%nat ->
    (forall o, In o pre -> index o <> i) ->
    StronglySorted Z.lt (map index l) ->
    delete_loop fuel i (List.length pre) (pre ++ l)
    = (pre ++ filter (other_index i) l)%list.
Proof.
  induction l as [|x t IH]; intros fuel pre Hfuel Hpre Hs.
  - cbn. rewrite app_nil_r. now apply delete_loop_no_match.
  - destruct fuel as [|fuel]; [cbn in Hfuel; lia|]. cbn [delete_loop].
    assert (E : nth_error (pre ++ x :: t) (List.length pre) = Some x).
    { rewrite nth_error_app2 by lia. now rewrite Nat.sub_diag. }
    rewrite E. cbn in Hs. inversion Hs as [|a l' Hs' Hall]; subst.
    cbn [filter]. unfold other_index at 1.
    destruct (index x =? i) eqn:Ex; cbn [negb].
    + apply Z.eqb_eq in Ex. subst i.
      rewrite list_remove_at by exact Hpre.
      assert (Ht : forall o, In o t -> index o <> index x).
      { intros o Ho. rewrite Forall_forall in Hall.
        specialize (Hall (index o) (in_map index _ _ Ho)). lia. }
      rewrite delete_loop_no_match.
      * f_equal. symmetry. apply forallb_filter_id.
        apply forallb_forall. intros o Ho. unfold other_index.
        apply negb_true_iff, Z.eqb_neq. now apply Ht.
      * intros o Ho. apply in_app_or in Ho as [Ho | Ho]; auto.
    + specialize (IH fuel (pre ++ [x])%list).
      rewrite length_app in IH. cbn [List.length] in IH.
      replace (List.length pre + 1)%nat with (S (List.length pre)) in IH by lia.
      rewrite <- app_assoc in IH. cbn [app] in IH.
      rewrite IH; [now rewrite <- app_assoc | cbn in Hfuel; lia | | exact Hs'].
      intros o Ho. apply in_app_or in Ho as [Ho | [<- | []]]; auto.
      now apply Z.eqb_neq.
Qed.

Lemma find_object_filter_other (i j : Z) (l : list ObjectType) :
  j <> i ->
  find_object j (filter (other_index i) l) = find_object j l.
Proof.
  intros Hji. induction l as [|x t IH]; [reflexivity|]. cbn.
  unfold other_index at 1.
  destruct (index x =? i) eqn:Ei; cbn.
  - apply Z.eqb_eq in Ei.
    assert (E : (index x =? j) = false) by (apply Z.eqb_neq; lia).
    now rewrite E.
  - destruct (index x =? j); [reflexivity | exact IH].
Qed.

Lemma find_object_filter_same (i : Z) (l : list ObjectType) :
  find_object i (filter (other_index i) l) = None.
Proof.
  apply find_object_none. intros o Ho.
  apply filter_In in Ho as [_ Ho]. unfold other_index in Ho.
  now apply negb_true_iff, Z.eqb_neq in Ho.
Qed.

Lemma filter_other_length (i : Z) (l : list ObjectType) :
  StronglySorted Z.lt (map index l) ->
  Z.of_nat (List.length l)
  - Z.of_nat (List.length (filter (other_index i) l))
  = match find_object i l with Some _ => 1 | None => 0 end.
Proof.
  induction l as [|x t IH]; intros Hs; [reflexivity|].
  cbn in Hs. inversion Hs as [|a l' Hs' Hall]; subst.
  cbn [filter find_object]. unfold other_index at 1.
  destruct (index x =? i) eqn:E; cbn [negb].
  - apply Z.eqb_eq in E. subst i.
    rewrite forallb_filter_id; [cbn [List.length]; lia|].
    apply forallb_forall. intros o Ho. unfold other_index.
    apply negb_true_iff, Z.eqb_neq. rewrite Forall_forall in Hall.
    specialize (Hall (index o) (in_map index _ _ Ho)). lia.
  - specialize (IH Hs'). cbn [List.length]. lia.
Qed.

(** X1: on a document that satisfies the invariant of the registry, the
    object that [add_object] appends is the one [get_object] returns for
    the index it was given, and the lookup of every other index is what it
    was before. *)
Theorem get_after_add (d : DocumentClass) (pg : option Z) (text : string)
    (coords : option (list Z)) :
  doc_inv d ->
  get_object (add_object d pg text coords) (obj_index d)
  = Some (mkObject (obj_index d) pg text coords)
  /\ forall j, j <> obj_index d ->
       get_object (add_object d pg text coords) j = get_object d j.
Proof.
  intros [Hlt _]. unfold get_object. cbn [objects add_object].
  split.
  - rewrite find_object_app, find_object_none.
    + cbn. now rewrite Z.eqb_refl.
    + intros o Ho. rewrite Forall_forall in Hlt. specialize (Hlt o Ho). lia.
  - intros j Hj. rewrite find_object_app.
    destruct (find_object j (objects d)); [reflexivity|]. cbn.
    assert (E : (obj_index d =? j) = false) by (apply Z.eqb_neq; lia).
    now rewrite E.
Qed.

Lemma get_after_add_witness :
  get_object (add_object (add_object new_document None "a" None)
                         (Some 2) "b" (Some [0; 0; 10; 10])) 1
  = Some (mkObject 1 (Some 2) "b" (Some [0; 0; 10; 10])).
Proof.
  apply (get_after_add (add_object new_document None "a" None) (Some 2) "b"
           (Some [0; 0; 10; 10])).
  apply add_object_inv, new_document_inv.
Defined.

(** In a list whose indices increase, the search for the index of a
    member ends at that member. *)
Lemma find_object_member (l : list ObjectType) (o : ObjectType) :
  StronglySorted Z.lt (map index l) -> In o l ->
  find_object (index o) l = Some o.
Proof.
  induction l as [|x t IH]; intros Hs Ho; [destruct Ho|].
  cbn in Hs. inversion Hs as [|a l' Hs' Hall]; subst. cbn.
  destruct Ho as [-> | Ho].
  - now rewrite Z.eqb_refl.
  - assert (E : (index x =? index o) = false).
    { apply Z.eqb_neq. rewrite Forall_forall in Hall.
      specialize (Hall (index o) (in_map index _ _ Ho)). lia. }
    rewrite E. now apply IH.
Qed.

(** X2: [get_object] finds the object that carries an index when there is
    one, wherever it is in the list, and returns nothing for an index that
    no stored object carries; in particular for every index from the
    counter on. *)
Theorem get_object_spec (d : DocumentClass) (i : Z) :
  doc_inv d ->
  (forall o, In o (objects d) -> index o = i -> get_object d i = Some o)
  /\ ((forall o, In o (objects d) -> index o <> i) -> get_object d i = None)
  /\ (obj_index d <= i -> get_object d i = None).
Proof.
  intros [Hlt Hs]. unfold get_object.
  assert (Hnone : (forall o, In o (objects d) -> index o <> i) ->
                  find_object i (objects d) = None)
    by apply find_object_none.
  split; [|split; [exact Hnone|]].
  - intros o Ho <-. now apply find_object_member.
  - intros Hi. apply Hnone. intros o Ho.
    rewrite Forall_forall in Hlt. specialize (Hlt o Ho). lia.
Qed.

Lemma get_object_spec_witness :
  get_object (add_object (add_object new_document None "a" None)
                         None "b" None) 2 = None.
Proof.
  apply (get_object_spec (add_object (add_object new_document None "a" None)
                                     None "b" None) 2).
  - apply add_object_inv, add_object_inv, new_document_inv.
  - simpl. lia.
Defined.

(** X3: on a document that satisfies the invariant, [delete_object]
    removes the object that carries the index and no other, keeps the
    order of the others, and returns 1 when there was such an object and 0
    when there was none; afterwards the index is not found and every
    other lookup is unchanged. *)
Theorem delete_object_spec (d : DocumentClass) (i : Z) :
  doc_inv d ->
  objects (snd (delete_object d i)) = filter (other_index i) (objects d)
  /\ fst (delete_object d i)
     = match get_object d i with Some _ => 1 | None => 0 end
  /\ get_object (snd (delete_object d i)) i = None
  /\ (forall j, j <> i ->
        get_object (snd (delete_object d i)) j = get_object d j)
  /\ obj_index (snd (delete_object d i)) = obj_index d
  /\ pages (snd (delete_object d i)) = pages d.
Proof.
  intros [_ Hs].
  assert (E : delete_loop (List.length (objects d)) i 0 (objects d)
              = filter (other_index i) (objects d)).
  { apply (delete_loop_filter i (objects d) _ []);
      [lia | intros o [] | exact Hs]. }
  unfold delete_object, get_object. cbn [fst snd objects obj_index pages].
  rewrite E. split; [reflexivity|].
  split; [now apply filter_other_length|].
  split; [apply find_object_filter_same|].
  split; [intros j Hj; now apply find_object_filter_other|].
  split; reflexivity.
Qed.

Lemma delete_object_spec_witness :
  fst (delete_object
         (add_object (add_object new_document None "a" None) None "b" None)
         0) = 1
  /\ objects (snd (delete_object
                     (add_object (add_object new_document None "a" None)
                                 None "b" None) 0))
     = [mkObject 1 None "b" None].
Proof.
  destruct (delete_object_spec
              (add_object (add_object new_document None "a" None)
                          None "b" None) 0
              ltac:(apply add_object_inv, add_object_inv, new_document_inv))
    as (H1 & H2 & _).
  split; [exact H2 | exact H1].
Defined.

Lemma delete_loop_no_match_from (fuel : nat) (i : Z) :
  forall pos l,
    (forall k o, (pos <= k)%nat -> nth_error l k = Some o -> index o <> i) ->
    delete_loop fuel i pos l = l.
Proof.
  induction fuel as [|fuel IH]; intros pos l H; [reflexivity|]. cbn.
  destruct (nth_error l pos) as [obj|] eqn:E; [|reflexivity].
  assert (Hobj : index obj <> i) by (eapply H; [apply Nat.le_refl | exact E]).
  apply Z.eqb_neq in Hobj. rewrite Hobj. apply IH.
  intros k o Hk. apply H. lia.
Qed.

Lemma delete_loop_S (fuel : nat) (i : Z) (pos : nat)
    (l : list ObjectType) :
  delete_loop (S fuel) i pos l
  = match nth_error l pos with
    | None => l
    | Some obj =>
        if index obj =? i
        then delete_loop fuel i (S pos) (list_remove obj l)
        else delete_loop fuel i (S pos) l
    end.
Proof. reflexivity. Qed.

(** The loop walks over a stretch without a match, one object a turn. *)
Lemma delete_loop_skip_prefix (i : Z) (pre : list ObjectType) :
  forall (fuel : nat) (done tail : list ObjectType),
    (forall o, In o pre -> index o <> i) ->
    delete_loop (List.length pre + fuel) i (List.length done)
                (done ++ pre ++ tail)
    = delete_loop fuel i (List.length (done ++ pre)) (done ++ pre ++ tail).
Proof.
  induction pre as [|x t IH]; intros fuel done tail H.
  - cbn. now rewrite app_nil_r.
  - cbn [List.length Nat.add delete_loop].
    rewrite nth_error_app2 by lia. rewrite Nat.sub_diag. cbn [app nth_error].
    assert (Ex : (index x =? i) = false)
      by (apply Z.eqb_neq, H; now left).
    rewrite Ex.
    specialize (IH fuel (done ++ [x])%list tail).
    rewrite <- !app_assoc in IH. cbn [app] in IH.
    rewrite length_app in IH. cbn [List.length] in IH.
    replace (List.length done + 1)%nat with (S (List.length done)) in IH by lia.
    rewrite IH by (intros o Ho; apply H; now right).
    reflexivity.
Qed.

(** X4: the loop of [delete_object] advances after a removal, so the
    object that follows the removed one is never looked at.  When the
    first object that carries the index is followed by another object and
    no later object carries the index, exactly the first is removed and 1
    is returned, also when the follower carries the same index: such a
    duplicate stays in the list and is still found afterwards. *)
Theorem delete_object_skips_next (d : DocumentClass) (i : Z)
    (pre rest : list ObjectType) (a b : ObjectType) :
  objects d = (pre ++ a :: b :: rest)%list ->
  (forall o, In o pre -> index o <> i) ->
  index a = i ->
  (forall o, In o rest -> index o <> i) ->
  objects (snd (delete_object d i)) = (pre ++ b :: rest)%list
  /\ fst (delete_object d i) = 1
  /\ (index b = i -> get_object (snd (delete_object d i)) i = Some b).
Proof.
  intros Hobjs Hpre Ha Hrest.
  assert (E : delete_loop (List.length (objects d)) i 0 (objects d)
              = (pre ++ b :: rest)%list).
  { rewrite Hobjs, length_app. cbn [List.length].
    rewrite (delete_loop_skip_prefix i pre _ [] (a :: b :: rest) Hpre).
    cbn [app]. rewrite delete_loop_S.
    rewrite nth_error_app2 by lia. rewrite Nat.sub_diag. cbn [nth_error].
    assert (Ea : (index a =? i) = true) by now apply Z.eqb_eq.
    rewrite Ea, list_remove_at by (intros o Ho; rewrite Ha; now apply Hpre).
    apply delete_loop_no_match_from. intros k o Hk Hnth.
    rewrite nth_error_app2 in Hnth by lia.
    destruct (k - List.length pre)%nat as [|m] eqn:Ek; [lia|].
    cbn in Hnth. apply Hrest. eapply nth_error_In; eassumption. }
  unfold delete_object, get_object. cbn [fst snd objects]. rewrite E.
  split; [reflexivity|]. split.
  - rewrite Hobjs, !length_app. cbn [List.length]. lia.
  - intros Hb. rewrite find_object_app, find_object_none by exact Hpre.
    cbn. assert (Eb : (index b =? i) = true) by now apply Z.eqb_eq.
    now rewrite Eb.
Qed.

Lemma delete_object_skips_next_witness :
  objects (snd (delete_object
                  (mkDocument None [mkObject 0 None "a" None;
                                    mkObject 0 None "b" None] 1 0) 0))
  = [mkObject 0 None "b" None]
  /\ fst (delete_object
            (mkDocument None [mkObject 0 None "a" None;
                              mkObject 0 None "b" None] 1 0) 0) = 1.
Proof.
  destruct (delete_object_skips_next
              (mkDocument None [mkObject 0 None "a" None;
                                mkObject 0 None "b" None] 1 0)
              0 [] [] (mkObject 0 None "a" None) (mkObject 0 None "b" None)
              eq_refl ltac:(intros o []) eq_refl ltac:(intros o []))
    as (H1 & H2 & _).
  split; [exact H1 | exact H2].
Defined.

(** ** Removal by page *)

Lemma filter_sorted (f : ObjectType -> bool) (l : list ObjectType) :
  StronglySorted Z.lt (map index l) ->
  StronglySorted Z.lt (map index (filter f l)).
Proof.
  induction l as [|x t IH]; intros Hs; [exact Hs|].
  cbn in Hs. inversion Hs as [|a l' Hs' Hall]; subst. cbn.
  destruct (f x); [|now apply IH].
  cbn. constructor; [now apply IH|].
  rewrite Forall_forall in *. intros j Hj.
  apply in_map_iff in Hj as (o & <- & Ho).
  apply filter_In in Ho as [Ho _]. apply Hall. now apply in_map.
Qed.

Lemma page_differs_iff (p : Z) (o : ObjectType) :
  page_differs p o = true <-> page o <> Some p.
Proof.
  unfold page_differs. destruct (page o) as [q|].
  - rewrite negb_true_iff, Z.eqb_neq. split; congruence.
  - split; [discriminate | reflexivity].
Qed.

Lemma get_object_member (d : DocumentClass) (o : ObjectType) :
  doc_inv d -> In o (objects d) -> get_object d (index o) = Some o.
Proof.
  intros [_ Hs] Ho. unfold get_object. now apply find_object_member.
Qed.

Lemma delete_page_objects_inv (d : DocumentClass) (p : Z) :
  doc_inv d ->
  doc_inv (snd (delete_page_objects d p))
  /\ obj_index (snd (delete_page_objects d p)) = obj_index d.
Proof.
  intros Hd. unfold delete_page_objects, has_pages.
  destruct (0 <? pages d); cbn [negb fst snd obj_index];
    [|split; [exact Hd | reflexivity]].
  split; [|reflexivity].
  destruct Hd as [Hlt Hs]. split; cbn.
  - rewrite Forall_forall in *. intros o Ho.
    apply filter_In in Ho as [Ho _]. now apply Hlt.
  - now apply filter_sorted.
Qed.

(** X5: [delete_page_objects] on a document without pages returns 0 and
    changes nothing, even when objects refer to the page.  On a document
    with pages it returns nothing and removes exactly the objects of the
    page: the objects of other pages and those without a page stay, in
    their order, and are still found under their indices; the counter is
    not touched. *)
Theorem delete_page_objects_spec (d : DocumentClass) (p : Z) :
  doc_inv d ->
  (pages d <= 0 -> delete_page_objects d p = (Some 0, d))
  /\ (0 < pages d ->
      fst (delete_page_objects d p) = None
      /\ objects (snd (delete_page_objects d p))
         = filter (page_differs p) (objects d)
      /\ (forall o, In o (objects (snd (delete_page_objects d p)))
                    <-> In o (objects d) /\ page o <> Some p)
      /\ (forall o, In o (objects d) -> page o <> Some p ->
            get_object (snd (delete_page_objects d p)) (index o) = Some o)
      /\ obj_index (snd (delete_page_objects d p)) = obj_index d
      /\ doc_inv (snd (delete_page_objects d p))).
Proof.
  intros Hd. unfold delete_page_objects, has_pages. split.
  - intros Hp. assert (E : (0 <? pages d) = false) by lia. now rewrite E.
  - intros Hp. assert (E : (0 <? pages d) = true) by lia. rewrite E.
    cbn [negb fst snd objects obj_index].
    assert (Hd' : doc_inv (mkDocument (file_type d)
                             (filter (page_differs p) (objects d))
                             (obj_index d) (pages d))).
    { destruct Hd as [Hlt Hs]. split; cbn.
      - rewrite Forall_forall in *. intros o Ho.
        apply filter_In in Ho as [Ho _]. now apply Hlt.
      - now apply filter_sorted. }
    assert (Hin : forall o,
               In o (filter (page_differs p) (objects d))
               <-> In o (objects d) /\ page o <> Some p).
    { intros o. rewrite filter_In, page_differs_iff. reflexivity. }
    split; [reflexivity|]. split; [reflexivity|]. split; [exact Hin|].
    split; [|split; [reflexivity | exact Hd']].
    intros o Ho Hpage. apply (get_object_member _ o Hd').
    cbn. apply Hin. now split.
Qed.

Lemma delete_page_objects_spec_witness :
  delete_page_objects (add_object new_document (Some 0) "a" None) 0
  = (Some 0, add_object new_document (Some 0) "a" None)
  /\ objects (snd (delete_page_objects
                     (add_object (add_object (add_page new_document)
                                             (Some 0) "a" None)
                                 (Some 1) "b" None) 0))
     = [mkObject 1 (Some 1) "b" None].
Proof.
  split.
  - apply (delete_page_objects_spec
             (add_object new_document (Some 0) "a" None) 0);
      [apply add_object_inv, new_document_inv | simpl; lia].
  - apply (delete_page_objects_spec
             (add_object (add_object (add_page new_document)
                                     (Some 0) "a" None) (Some 1) "b" None) 0);
      [apply add_object_inv, add_object_inv; split; constructor
      | simpl; lia].
Defined.

(** ** The registry under every call *)

Lemma detect_type_frame (tools : tooling) (d : DocumentClass) (p : string) :
  objects (snd (detect_type tools d p)) = objects d
  /\ obj_index (snd (detect_type tools d p)) = obj_index d.
Proof.
  unfold detect_type.
  repeat match goal with
         | |- context [if ?c then _ else _] => destruct c
         | |- context [match ?t with ImportError => _ | _ => _ end] =>
             destruct t
         end; split; reflexivity.
Qed.

Lemma apply_api_inv (d : DocumentClass) (c : api_call) :
  doc_inv d ->
  doc_inv (apply_api d c) /\ obj_index d <= obj_index (apply_api d c).
Proof.
  intros Hd. destruct c as [|pg text coords|i|p|tools path]; cbn [apply_api].
  - split; [exact Hd | cbn; lia].
  - split; [now apply add_object_inv | cbn; lia].
  - split; [now apply delete_object_inv | cbn; lia].
  - destruct (delete_page_objects_inv d p Hd) as [Hinv Hidx].
    split; [exact Hinv | lia].
  - destruct (detect_type_frame tools d path) as [Ho Hi].
    destruct Hd as [Hlt Hs]. split; [|lia].
    split; rewrite Ho; [rewrite Hi; exact Hlt | exact Hs].
Qed.

(** X6: whatever calls are made on a document, in whatever order (pages
    added, objects added or deleted by index or by page, format detected),
    the stored objects keep distinct, increasing indices below the counter,
    and the counter never goes down. *)
Theorem registry_invariant (calls : list api_call) :
  forall d, doc_inv d ->
    doc_inv (run_api d calls)
    /\ NoDup (map index (objects (run_api d calls)))
    /\ obj_index d <= obj_index (run_api d calls).
Proof.
  induction calls as [|c rest IH]; intros d Hd; unfold run_api; cbn.
  - split; [exact Hd|]. split; [apply sorted_NoDup, Hd | lia].
  - destruct (apply_api_inv d c Hd) as [Hd1 Hle].
    destruct (IH (apply_api d c) Hd1) as (I1 & I2 & I3).
    unfold run_api in *. split; [exact I1|]. split; [exact I2 | lia].
Qed.

Lemma registry_invariant_witness :
  NoDup (map index
           (objects (run_api new_document
                       [CallAddObject (Some 0) "a" None; CallAddPage;
                        CallDeletePageObjects 0;
                        CallDetectType unavailable "notes.txt";
                        CallAddObject None "b" None])))
  /\ 0 <= obj_index (run_api new_document
                       [CallAddObject (Some 0) "a" None; CallAddPage;
                        CallDeletePageObjects 0;
                        CallDetectType unavailable "notes.txt";
                        CallAddObject None "b" None]).
Proof.
  destruct (registry_invariant
              [CallAddObject (Some 0) "a" None; CallAddPage;
               CallDeletePageObjects 0;
               CallDetectType unavailable "notes.txt";
               CallAddObject None "b" None]
              new_document new_document_inv) as (_ & H1 & H2).
  split; [exact H1 | exact H2].
Defined.

(** X7: [detect_type] never touches the objects or the counter, whether
    it returns or raises.  When it raises, which happens only for PDF,
    PPTX and TIFF files, the file type has already been overwritten while
    the page count is still the one the document had before the call. *)
Theorem detect_type_raise_partial_update (tools : tooling)
    (d : DocumentClass) (p : string) :
  objects (snd (detect_type tools d p)) = objects d
  /\ obj_index (snd (detect_type tools d p)) = obj_index d
  /\ forall e : exn,
       fst (detect_type tools d p) = Some e ->
       pages (snd (detect_type tools d p)) = pages d
       /\ (file_type (snd (detect_type tools d p)) = Some "PDF"
           /\ lower (path_suffix p) = ".pdf"
           \/ file_type (snd (detect_type tools d p)) = Some "PPTX"
              /\ lower (path_suffix p) = ".pptx"
           \/ file_type (snd (detect_type tools d p)) = Some "TIFF"
              /\ (lower (path_suffix p) = ".tif"
                  \/ lower (path_suffix p) = ".tiff")).
Proof.
  destruct (detect_type_frame tools d p) as [Ho Hi].
  split; [exact Ho|]. split; [exact Hi|]. clear Ho Hi.
  intros e. unfold detect_type.
  destruct (String.eqb (lower (path_suffix p)) ".pdf") eqn:E1.
  { apply String.eqb_eq in E1.
    destruct (pdfinfo_pages tools p); cbn; intros H; try discriminate;
      auto 10. }
  destruct (String.eqb (lower (path_suffix p)) ".pptx") eqn:E2.
  { apply String.eqb_eq in E2.
    destruct (pptx_slides tools p); cbn; intros H; try discriminate;
      auto 10. }
  destruct (String.eqb (lower (path_suffix p)) ".tif"
            || String.eqb (lower (path_suffix p)) ".tiff") eqn:E3.
  { apply orb_prop in E3.
    assert (E3' : lower (path_suffix p) = ".tif"
                  \/ lower (path_suffix p) = ".tiff")
      by (destruct E3 as [E | E]; apply String.eqb_eq in E; auto).
    destruct (tiff_frames tools p); cbn; intros H; try discriminate;
      auto 10. }
  destruct (String.eqb (lower (path_suffix p)) ".docx"
            || String.eqb (lower (path_suffix p)) ".odt"
            || String.eqb (lower (path_suffix p)) ".rtf").
  { destruct (converted_pdf_pages tools p); cbn; discriminate. }
  cbn. discriminate.
Qed.

Lemma detect_type_raise_partial_update_witness :
  pages (snd (detect_type unavailable
                (mkDocument (Some "DOCX") [] 0 12) "slides.pptx")) = 12
  /\ file_type (snd (detect_type unavailable
                       (mkDocument (Some "DOCX") [] 0 12) "slides.pptx"))
     = Some "PPTX".
Proof.
  destruct (detect_type_raise_partial_update unavailable
              (mkDocument (Some "DOCX") [] 0 12) "slides.pptx")
    as (_ & _ & H).
  destruct (H (RuntimeError "Install python-pptx to handle PPTX.") eq_refl)
    as (H1 & _).
  split; [exact H1 | reflexivity].
Defined.

(** ** More about the conversion run *)

Import RunNotions.

Section RunMore.

Variable image : Type.
Variable convert_from_path : Z -> Z -> render_result image.
Variable respond : image -> backend_result.
Variable is_set : list event -> bool.

Local Open Scope list_scope.

Local Abbreviation process_page := (process_page image respond is_set).
Local Abbreviation process_pages := (process_pages image respond is_set).
Local Abbreviation process_batch :=
  (process_batch image convert_from_path respond is_set).
Local Abbreviation process_batches :=
  (process_batches image convert_from_path respond is_set).
Local Abbreviation ocr_worker_thread :=
  (ocr_worker_thread image convert_from_path respond is_set).
Local Abbreviation page_blocks := (page_blocks image respond).
Local Abbreviation batch_emission :=
  (batch_emission image convert_from_path respond).
Local Abbreviation batch_clean := (batch_clean image convert_from_path respond).
Local Abbreviation batch_pages := (batch_pages image convert_from_path).
Local Abbreviation batch_count := (batch_count image convert_from_path).
Local Abbreviation all_blocks := (all_blocks image convert_from_path respond).
Local Abbreviation load_batch := (load_batch image convert_from_path).
Local Abbreviation worker_cases :=
  (worker_cases image convert_from_path respond is_set).

Ltac run_unfold :=
  unfold Worker.process_page, Worker.process_batch, bind, check_cancel,
    cancelled, add_processed, emit, mark_success, get_cancelled, ret;
  cbn [fst snd trace was_cancelled final_status processed_page_count_in_run
       any_batch_processed_successfully].

Ltac trace_shape := cbn [app]; rewrite <- ?app_assoc; reflexivity.

Lemma no_batch_clean (bl : list (Z * Z)) :
  (forall b, In b bl -> exists msg, load_batch (fst b) (snd b) = inl msg) ->
  existsb batch_clean bl = false.
Proof.
  induction bl as [|b bl IH]; intros Hall; [reflexivity|].
  cbn [existsb]. destruct (Hall b (or_introl eq_refl)) as [msg Hmsg].
  unfold Notions.batch_clean at 1. rewrite Hmsg.
  cbn [orb]. apply IH. intros b' Hb'. apply Hall. now right.
Qed.

(** X8: a batch that cannot be rendered does not end the run.  In a run
    that is not cancelled every batch is handed over; a batch whose
    render call raises, or returns no image, is handed over as an empty
    line, the line [--- ERROR LOADING BATCH: Pages f-l ---] with its first
    and last page, and the line [Error: <message>]; none of its pages is
    sent to the model, and it does not count as a successful batch; a run
    in which no batch could be rendered ends with the status that reports
    errors. *)
Theorem batch_load_failure_is_skipped (start_page end_page batch_size : Z) :
  batch_size <> 0 ->
  was_cancelled (ocr_worker_thread start_page end_page batch_size) = false ->
  let s' := ocr_worker_thread start_page end_page batch_size in
  let bl := batches start_page end_page batch_size in
  committed (trace s') = map batch_emission bl
  /\ recognised_pages (trace s') = flat_map batch_pages bl
  /\ (forall b msg,
        convert_from_path (fst b) (snd b) = RenderRaises msg ->
        batch_emission b
        = AppendLoadError
            (nl ++ "--- ERROR LOADING BATCH: Pages " ++ str_of_int (fst b)
             ++ "-" ++ str_of_int (snd b) ++ " ---" ++ nl
             ++ "Error: " ++ msg ++ nl)%string
        /\ batch_pages b = [] /\ batch_clean b = false)
  /\ (forall b,
        convert_from_path (fst b) (snd b) = Rendered [] ->
        batch_emission b
        = AppendLoadError
            (nl ++ "--- ERROR LOADING BATCH: Pages " ++ str_of_int (fst b)
             ++ "-" ++ str_of_int (snd b) ++ " ---" ++ nl
             ++ "Error: " ++ "pdf2image returned no images." ++ nl)%string
        /\ batch_pages b = [] /\ batch_clean b = false)
  /\ ((forall b, In b bl -> exists msg, load_batch (fst b) (snd b) = inl msg) ->
      final_status s'
      = "OCR finished, but encountered errors or no text was processed.").
Proof.
  intros Hbs Hwc. cbv zeta.
  destruct (worker_cases start_page end_page batch_size Hbs)
    as [(W & _) | (_ & _ & Hc & Hr & Hst)]; [congruence|].
  split; [exact Hc|]. split; [exact Hr|].
  split; [|split].
  - intros b msg H.
    unfold Notions.batch_emission, Notions.batch_pages, Notions.batch_clean,
      Worker.load_batch.
    rewrite H. auto.
  - intros b H.
    unfold Notions.batch_emission, Notions.batch_pages, Notions.batch_clean,
      Worker.load_batch.
    rewrite H. auto.
  - intros Hall. rewrite Hst.
    now rewrite (no_batch_clean _ Hall).
Qed.

(** The renderer or the page loop advance the counter by the size of the
    batch. *)
Lemma process_batch_progress (b e bs : Z) (s : wstate) :
  was_cancelled s = false ->
  fst (process_batch b e bs s) = false ->
  processed_page_count_in_run (snd (process_batch b e bs s))
  = processed_page_count_in_run s + batch_count (b, Z.min (b + bs - 1) e).
Proof.
  intros Hwc. run_unfold. unfold RunNotions.batch_count. cbn [fst snd].
  destruct (is_set (trace s)) eqn:C1; [cbn; discriminate|].
  run_unfold.
  destruct (load_batch b (Z.min (b + bs - 1) e)) as [msg|images] eqn:L.
  - run_unfold.
    match goal with |- context [is_set ?t] => destruct (is_set t) eqn:C2 end;
      [cbn; discriminate|].
    run_unfold. rewrite Hwc. cbn [negb]. run_unfold. reflexivity.
  - set (s1 := mkState _ _ _ _ _).
    pose proof (process_pages_cases image respond is_set b images 0
                  ([], false) s1) as Hp.
    cbv zeta in Hp.
    destruct (Worker.process_pages image respond is_set b 0 images
                ([], false) s1) as [acc s2].
    cbn [fst snd] in Hp.
    destruct Hp as [(pre & (_ & _ & _ & W & _) & _)
                   | (-> & _ & Hcount & evs & (_ & _ & W & _) & _)].
    + rewrite W. cbn [negb andb]. run_unfold. rewrite W. discriminate.
    + assert (W2 : was_cancelled s2 = false) by (rewrite W; exact Hwc).
      rewrite W2. cbn [negb andb fst snd].
      intros _.
      destruct (negb (Nat.eqb (List.length ([] ++ page_blocks b 0 images)) 0));
        run_unfold;
        [destruct (negb (false || Notions.page_errors image respond b 0 images));
         run_unfold|];
        rewrite Hcount; reflexivity.
Qed.

Lemma process_batches_progress (e bs : Z) (starts : list Z) :
  forall s : wstate,
    was_cancelled s = false ->
    was_cancelled (snd (process_batches starts e bs s)) = false ->
    processed_page_count_in_run (snd (process_batches starts e bs s))
    = processed_page_count_in_run s
      + sum_Z (map (fun b => batch_count (b, Z.min (b + bs - 1) e)) starts).
Proof.
  induction starts as [|b rest IH]; intros s Hwc Hend.
  - cbn. lia.
  - cbn [Worker.process_batches map sum_Z fold_right] in Hend |- *.
    unfold bind in Hend |- *.
    pose proof (process_batch_cases image convert_from_path respond is_set
                  b e bs s Hwc) as Hb.
    pose proof (process_batch_progress b e bs s Hwc) as Hcount.
    cbv zeta in Hb.
    destruct (process_batch b e bs s) as [brk s1]. cbn [fst snd] in Hb, Hcount.
    destruct Hb as [(-> & pre & status & (_ & _ & _ & W & _) & _)
                   | (-> & _ & evs & (_ & _ & W & _) & _)].
    + cbn in Hend. congruence.
    + assert (Hwc1 : was_cancelled s1 = false) by congruence.
      rewrite (IH s1 Hwc1 Hend), (Hcount eq_refl).
      fold (sum_Z (map (fun b0 => batch_count (b0, Z.min (b0 + bs - 1) e))
                       rest)).
      lia.
Qed.

Lemma sum_batch_sizes (bs e : Z) (n : nat) :
  0 < bs ->
  forall s, s <= e + 1 -> e + 1 - s <= Z.of_nat n ->
    sum_Z (map (fun b => snd b - fst b + 1) (batches s e bs)) = e - s + 1.
Proof.
  intros Hbs. induction n as [|n IH]; intros s H1 H2.
  - rewrite batches_unfold by exact Hbs.
    assert (E : (s <=? e) = false) by lia. rewrite E. cbn. lia.
  - rewrite batches_unfold by exact Hbs.
    destruct (s <=? e) eqn:E; [|cbn; lia].
    apply Z.leb_le in E. cbn [map sum_Z fold_right fst snd].
    fold (sum_Z (map (fun b => snd b - fst b + 1) (batches (s + bs) e bs))).
    destruct (Z.le_gt_cases (s + bs) (e + 1)) as [Hfit | Hlast].
    + rewrite IH by lia. lia.
    + rewrite (batches_unfold (s + bs)) by exact Hbs.
      assert (E2 : (s + bs <=? e) = false) by lia. rewrite E2. cbn. lia.
Qed.

(** X9: in a run that is not cancelled the progress counter ends at the
    sum, over the batches, of the pages attempted: the size of a batch
    that failed to load, the number of images of a batch that loaded.
    With a renderer that returns one image for each page asked for, on a
    valid range, it ends at the number of pages of the range, the total
    shown in the status line. *)
Theorem progress_reaches_total (start_page end_page batch_size : Z) :
  batch_size <> 0 ->
  was_cancelled (ocr_worker_thread start_page end_page batch_size) = false ->
  let s' := ocr_worker_thread start_page end_page batch_size in
  let bl := batches start_page end_page batch_size in
  processed_page_count_in_run s' = sum_Z (map batch_count bl)
  /\ (start_page <= end_page -> 1 <= batch_size ->
      (forall f l, f <= l ->
         (exists msg, convert_from_path f l = RenderRaises msg)
         \/ (exists images, convert_from_path f l = Rendered images
                            /\ List.length images = Z.to_nat (l - f + 1))) ->
      processed_page_count_in_run s' = end_page - start_page + 1).
Proof.
  intros Hbs Hwc. cbv zeta.
  assert (Hcount : processed_page_count_in_run
                     (ocr_worker_thread start_page end_page batch_size)
                   = sum_Z (map batch_count
                              (batches start_page end_page batch_size))).
  { revert Hwc. unfold Worker.ocr_worker_thread, batches.
    apply Z.eqb_neq in Hbs. rewrite Hbs.
    set (starts := py_range start_page (end_page + 1) batch_size).
    intros Hwc.
    assert (Hend : was_cancelled
                     (snd (process_batches starts end_page batch_size
                             initial_state)) = false).
    { destruct (was_cancelled (snd (process_batches starts end_page
                                      batch_size initial_state))) eqn:W;
        [|reflexivity].
      cbv zeta in Hwc. rewrite ?W in Hwc. cbn [negb] in Hwc.
      rewrite ?W in Hwc. discriminate. }
    pose proof (process_batches_progress end_page batch_size starts
                  initial_state eq_refl Hend) as H.
    cbv zeta. rewrite Hend. cbn [negb].
    rewrite map_map.
    destruct (negb (any_batch_processed_successfully _));
      cbn [set_status processed_page_count_in_run]; rewrite H; cbn; lia. }
  split; [exact Hcount|].
  intros H1 H2 Hrender. rewrite Hcount.
  destruct (batches_partition batch_size end_page
              (Z.to_nat (end_page + 1 - start_page)) ltac:(lia)
              start_page ltac:(lia) ltac:(lia)) as [_ Hsizes].
  rewrite <- (sum_batch_sizes batch_size end_page
                (Z.to_nat (end_page + 1 - start_page)) ltac:(lia)
                start_page ltac:(lia) ltac:(lia)).
  f_equal. apply map_ext_in. intros b Hb.
  rewrite Forall_forall in Hsizes. destruct (Hsizes b Hb) as (_ & Hle & _).
  unfold RunNotions.batch_count, Worker.load_batch.
  destruct (Hrender (fst b) (snd b) Hle) as [[msg ->] | (images & -> & Hlen)];
    [reflexivity|].
  destruct images; [cbn in Hlen; lia|]. rewrite Hlen. lia.
Qed.


(** *** Polling of the cancellation flag *)

Lemma guarded_weaken (p : bool) (tr : list event) :
  guarded false tr = true -> guarded p tr = true.
Proof.
  destruct tr as [|e rest]; [reflexivity|]. cbn [guarded].
  destruct (is_blocking e); [discriminate | trivial].
Qed.

Lemma ends_quiet_tail (e : event) (rest : list event) :
  ends_quiet (e :: rest) = true -> ends_quiet rest = true.
Proof. destruct rest as [|x r]; [reflexivity | trivial]. Qed.

Lemma ends_quiet_app (a b : list event) :
  ends_quiet a = true -> ends_quiet b = true -> ends_quiet (a ++ b) = true.
Proof.
  induction a as [|e rest IH]; intros Ha Hb; [exact Hb|].
  destruct rest as [|x r].
  - destruct b as [|y b']; [exact Ha | exact Hb].
  - cbn [app ends_quiet] in *. apply IH; assumption.
Qed.

Lemma guarded_app (a b : list event) :
  forall p,
    guarded p a = true -> ends_quiet a = true -> guarded false b = true ->
    guarded p (a ++ b) = true.
Proof.
  induction a as [|e rest IH]; intros p Ha Hq Hb.
  - now apply guarded_weaken.
  - pose proof (ends_quiet_tail _ _ Hq) as Hq'.
    cbn [app guarded] in *.
    destruct (is_blocking e).
    + apply andb_prop in Ha as [Ha Hrest]. apply andb_prop in Ha as [Hp Hnext].
      destruct rest as [|[c| | | |] rest']; try discriminate.
      rewrite Hp. cbn [app andb]. now apply IH.
    + now apply IH.
Qed.

Lemma well_polled_app (a b : list event) :
  well_polled a -> well_polled b -> well_polled (a ++ b).
Proof.
  intros [Ga Qa] [Gb Qb]. split.
  - now apply guarded_app.
  - now apply ends_quiet_app.
Qed.

Ltac polled_stretch :=
  eexists; split;
  [rewrite <- ?app_assoc; reflexivity | split; reflexivity].

Ltac polled_from_read :=
  do 2 eexists; split;
  [rewrite <- ?app_assoc; reflexivity | split; reflexivity].

Lemma process_page_polled (n : Z) (img : image) (acc : list string * bool)
    (s : wstate) :
  exists c rest,
    trace (snd (process_page n img acc s)) = trace s ++ CancelRead c :: rest
    /\ well_polled (CancelRead c :: rest).
Proof.
  run_unfold.
  destruct (is_set (trace s)); run_unfold; [polled_from_read|].
  match goal with |- context [is_set ?t] => destruct (is_set t) end;
    run_unfold; [polled_from_read|].
  match goal with |- context [is_set ?t] => destruct (is_set t) end;
    run_unfold; [polled_from_read|].
  destruct (read_prediction (ocr_page respond img)) as [[text err]|ex];
    run_unfold; [polled_from_read|].
  match goal with |- context [is_set ?t] => destruct (is_set t) end;
    run_unfold; polled_from_read.
Qed.

Lemma process_pages_polled (b : Z) (images : list image) :
  forall (i : Z) (acc : list string * bool) (s : wstate),
    exists evs, trace (snd (process_pages b i images acc s)) = trace s ++ evs
                /\ well_polled evs
                /\ (images <> [] -> exists c rest, evs = CancelRead c :: rest).
Proof.
  induction images as [|img rest IH]; intros i acc s.
  - exists []. cbn. rewrite app_nil_r. repeat split. contradiction.
  - cbn [Worker.process_pages]. unfold bind.
    destruct (process_page_polled (b + i) img acc s) as (c & r1 & T1 & P1).
    destruct (process_page (b + i) img acc s) as [[brk acc1] s1].
    cbn [fst snd] in *. destruct brk.
    + exists (CancelRead c :: r1). repeat split; try apply P1; eauto.
    + destruct (IH (i + 1) acc1 s1) as (e2 & T2 & P2 & _).
      exists ((CancelRead c :: r1) ++ e2).
      split; [rewrite T2, T1; now rewrite <- app_assoc|].
      split; [now apply well_polled_app|].
      intros _. cbn [app]. eauto.
Qed.

Lemma well_polled_after_render (f l : Z) (c : bool) (rest : list event) :
  well_polled (CancelRead c :: rest) ->
  well_polled (CancelRead false :: Render f l :: CancelRead c :: rest).
Proof.
  intros [G Q]. split.
  - cbn [guarded is_blocking andb]. exact G.
  - exact Q.
Qed.

Lemma process_batch_polled (b e bs : Z) (s : wstate) :
  exists evs, trace (snd (process_batch b e bs s)) = trace s ++ evs
              /\ well_polled evs.
Proof.
  run_unfold.
  destruct (is_set (trace s)); run_unfold; [polled_stretch|].
  destruct (load_batch b (Z.min (b + bs - 1) e)) as [msg|images] eqn:L.
  - run_unfold.
    match goal with |- context [is_set ?t] => destruct (is_set t) end;
      run_unfold; [polled_stretch|].
    destruct (negb (was_cancelled s)); run_unfold; polled_stretch.
  - pose proof (load_batch_nonempty image convert_from_path _ _ _ L) as Hne.
    match goal with
    | |- context [Worker.process_pages _ _ _ ?b0 ?i0 ?im ?a0 ?s0] =>
        destruct (process_pages_polled b0 im i0 a0 s0) as (e1 & T1 & P1 & S1);
        destruct (Worker.process_pages image respond is_set b0 i0 im a0 s0)
          as [acc s2]
    end.
    destruct (S1 Hne) as (c & r1 & ->).
    cbn [fst snd trace] in T1 |- *.
    pose proof (well_polled_after_render b (Z.min (b + bs - 1) e) c r1 P1)
      as P0.
    destruct (negb (was_cancelled s2)
              && negb (Nat.eqb (List.length (fst acc)) 0)); run_unfold.
    + assert (P2 : well_polled [AppendBatch (join nl (fst acc))])
        by (split; reflexivity).
      exists ((CancelRead false :: Render b (Z.min (b + bs - 1) e)
                 :: CancelRead c :: r1)
                ++ [AppendBatch (join nl (fst acc))]).
      split; [|now apply well_polled_app].
      destruct (negb (snd acc)); run_unfold; rewrite T1;
        rewrite <- ?app_assoc; reflexivity.
    + exists (CancelRead false :: Render b (Z.min (b + bs - 1) e)
                :: CancelRead c :: r1).
      split; [|exact P0].
      rewrite T1. rewrite <- ?app_assoc. reflexivity.
Qed.

Lemma process_batches_polled (e bs : Z) (starts : list Z) :
  forall s : wstate,
    exists evs, trace (snd (process_batches starts e bs s)) = trace s ++ evs
                /\ well_polled evs.
Proof.
  induction starts as [|b rest IH]; intros s.
  - exists []. cbn. rewrite app_nil_r. repeat split.
  - cbn [Worker.process_batches]. unfold bind.
    destruct (process_batch_polled b e bs s) as (e1 & T1 & P1).
    destruct (process_batch b e bs s) as [brk s1].
    cbn [fst snd] in *. destruct brk.
    + exists e1. split; assumption.
    + destruct (IH s1) as (e2 & T2 & P2).
      exists (e1 ++ e2). split; [|now apply well_polled_app].
      rewrite T2, T1. now rewrite app_assoc.
Qed.

Lemma guarded_sound (pre : list event) :
  forall p b post,
    guarded p (pre ++ b :: post) = true -> is_blocking b = true ->
    match pre with
    | [] => p = true
    | _ => exists pre', pre = pre' ++ [CancelRead false]
    end
    /\ exists c post', post = CancelRead c :: post'.
Proof.
  induction pre as [|x t IH]; intros p b post H Hb.
  - cbn [app guarded] in H. rewrite Hb in H.
    apply andb_prop in H as [H _]. apply andb_prop in H as [Hp Hnext].
    split; [exact Hp|].
    destruct post as [|[c| | | |] post']; try discriminate. eauto.
  - cbn [app guarded] in H.
    assert (Hrest : exists p', guarded p' (t ++ b :: post) = true
                               /\ (p' = true -> x = CancelRead false)).
    { destruct (is_blocking x).
      - apply andb_prop in H as [_ H]. exists false. split; [exact H|].
        discriminate.
      - eexists. split; [exact H|].
        destruct x as [[|]| | | |]; try discriminate; reflexivity. }
    destruct Hrest as (p' & Hg & Hx).
    destruct (IH p' b post Hg Hb) as [Hpre Hpost]. split; [|exact Hpost].
    destruct t as [|y t'].
    + exists []. cbn. now rewrite (Hx Hpre).
    + destruct Hpre as [pre' ->]. exists (x :: pre'). reflexivity.
Qed.

(** X10: the worker reads the cancellation flag around every call it can
    block in.  In the trace of any run, each render call and each
    recognition call comes right after a read of the flag that answered
    "not set", and is followed at once by another read of the flag: a
    cancellation waits for one blocking call at most. *)
Theorem flag_read_around_blocking_calls (start_page end_page batch_size : Z) :
  forall pre b post,
    trace (ocr_worker_thread start_page end_page batch_size)
    = pre ++ b :: post ->
    is_blocking b = true ->
    (exists pre', pre = pre' ++ [CancelRead false])
    /\ (exists c post', post = CancelRead c :: post').
Proof.
  intros pre b post H Hb.
  assert (G : guarded false
                (trace (ocr_worker_thread start_page end_page batch_size))
              = true).
  { unfold Worker.ocr_worker_thread.
    destruct (batch_size =? 0); [reflexivity|]. cbv zeta.
    destruct (process_batches_polled end_page batch_size
                (py_range start_page (end_page + 1) batch_size)
                initial_state) as (evs & T & [G _]).
    cbn [trace initial_state app] in T.
    destruct (negb (was_cancelled _));
      [destruct (negb (any_batch_processed_successfully _))|];
      cbn [set_status trace]; rewrite T; exact G. }
  rewrite H in G. destruct (guarded_sound pre false b post G Hb) as [Hpre Hpost].
  split; [|exact Hpost].
  destruct pre; [discriminate | exact Hpre].
Qed.

(** *** The text in the results widget *)

Lemma results_text_committed (tr : list event) :
  forall w, results_text w tr = results_text w (committed tr).
Proof.
  unfold results_text.
  induction tr as [|e rest IH]; intros w; [reflexivity|].
  cbn [fold_left committed filter].
  destruct e; cbn [is_append apply_append fold_left]; apply IH.
Qed.

Lemma join_cons (sep x : string) (l : list string) :
  l <> [] -> join sep (x :: l) = (x ++ sep ++ join sep l)%string.
Proof. destruct l; [contradiction | reflexivity]. Qed.

Lemma join_app (sep : string) (l1 l2 : list string) :
  l1 <> [] -> l2 <> [] ->
  join sep (l1 ++ l2) = (join sep l1 ++ sep ++ join sep l2)%string.
Proof.
  induction l1 as [|x l IH]; intros H1 H2; [contradiction|].
  destruct l as [|y l'].
  - cbn [app]. now rewrite join_cons.
  - cbn [app]. rewrite join_cons by discriminate.
    change (y :: l' ++ l2) with ((y :: l') ++ l2).
    rewrite IH by (discriminate || assumption).
    rewrite (join_cons sep x (y :: l')) by discriminate.
    now rewrite !app_assoc_s.
Qed.

Lemma page_blocks_labelled (b : Z) (images : list image) :
  forall i, labelled (page_blocks b i images).
Proof.
  induction images as [|img rest IH]; intros i; constructor.
  - eexists. unfold page_block. cbn [append]. reflexivity.
  - apply IH.
Qed.

Lemma strip_solid_nonempty (c : ascii) (x : string) :
  is_space c = false -> nonempty (strip (String c x)) = true.
Proof.
  intros H. unfold strip. cbn [lstrip]. rewrite H. cbn [rstrip].
  destruct (rstrip x); [now rewrite H | reflexivity].
Qed.

Lemma labelled_join_shown (l : list string) :
  labelled l -> l <> [] -> nonempty (strip (join nl l)) = true.
Proof.
  intros Hl Hne. destruct l as [|x r]; [contradiction|].
  inversion Hl as [|? ? [t ->] _]; subst.
  destruct r; cbn [join String.concat append];
    now apply strip_solid_nonempty.
Qed.

Lemma append_batches (bl : list (Z * Z)) :
  forall acc,
    (forall b, In b bl ->
       exists images, load_batch (fst b) (snd b) = inr images) ->
    labelled acc ->
    fold_left apply_append (map batch_emission bl) (join nl acc)
    = join nl (acc ++ all_blocks bl).
Proof.
  induction bl as [|b bl IH]; intros acc Hall Hacc.
  - cbn. now rewrite app_nil_r.
  - destruct (Hall b (or_introl eq_refl)) as [images Hl].
    pose proof (load_batch_nonempty image convert_from_path _ _ _ Hl) as Hne.
    assert (Hblocks : page_blocks (fst b) 0 images <> []).
    { intros E. apply (f_equal (@List.length string)) in E.
      rewrite page_blocks_length in E. destruct images; [contradiction|].
      discriminate. }
    cbn [map fold_left].
    rewrite (batch_emission_loaded image convert_from_path respond b images Hl).
    unfold RunNotions.all_blocks. cbn [flat_map].
    fold (all_blocks bl). rewrite Hl. cbn [apply_append].
    assert (E : (join nl acc
                 ++ (if nonempty (strip (join nl acc)) then nl else "")
                 ++ join nl (page_blocks (fst b) 0 images))%string
                = join nl (acc ++ page_blocks (fst b) 0 images)).
    { destruct acc as [|x r].
      - reflexivity.
      - rewrite labelled_join_shown by (assumption || discriminate).
        now rewrite join_app by (discriminate || assumption). }
    rewrite E, IH.
    + now rewrite <- app_assoc.
    + intros b' Hb'. apply Hall. now right.
    + apply Forall_app. split; [exact Hacc | apply page_blocks_labelled].
Qed.

(** X11: in a run that is not cancelled and in which every batch could be
    rendered, the results widget, empty at the start, ends up showing the
    blocks of all the pages joined by a newline, in page order: the places
    where one batch ends and the next begins do not show in the text. *)
Theorem results_are_the_joined_blocks (start_page end_page batch_size : Z) :
  batch_size <> 0 ->
  was_cancelled (ocr_worker_thread start_page end_page batch_size) = false ->
  (forall b, In b (batches start_page end_page batch_size) ->
     exists images, load_batch (fst b) (snd b) = inr images) ->
  results_text "" (trace (ocr_worker_thread start_page end_page batch_size))
  = join nl (all_blocks (batches start_page end_page batch_size)).
Proof.
  intros Hbs Hwc Hall.
  destruct (worker_cases start_page end_page batch_size Hbs)
    as [(W & _) | (_ & _ & Hc & _)]; [congruence|].
  rewrite results_text_committed, Hc. unfold results_text.
  apply (append_batches _ [] Hall). constructor.
Qed.

(** X12: a run with a batch size other than zero ends in one of four
    ways: cancelled, with one of the two cancellation messages, or not
    cancelled, with the message of a clean completion or the one that
    reports errors; it never keeps the initial status and never reports an
    unexpected failure. *)
Theorem final_status_is_one_of_four (start_page end_page batch_size : Z) :
  batch_size <> 0 ->
  let s' := ocr_worker_thread start_page end_page batch_size in
  (was_cancelled s' = true
   /\ (final_status s' = "OCR cancelled."
       \/ final_status s' = "OCR process cancelled by user."))
  \/ (was_cancelled s' = false
      /\ (final_status s' = "OCR process completed."
          \/ final_status s'
             = "OCR finished, but encountered errors or no text was processed.")).
Proof.
  intros Hbs. cbv zeta.
  destruct (worker_cases start_page end_page batch_size Hbs)
    as [(W & St & _) | (W & _ & _ & _ & Hst)].
  - left. split; [exact W|]. unfold is_cancelled_status in St.
    apply orb_prop in St as [E | E]; apply String.eqb_eq in E; auto.
  - right. split; [exact W|]. rewrite Hst.
    destruct (existsb batch_clean _); auto.
Qed.

End RunMore.

Import MoreSamples.

Lemma batch_load_failure_is_skipped_witness :
  committed (trace (ocr_worker_thread Z render_fail_at_3 respond_ok never_set
                      1 4 2))
  = map (batch_emission Z render_fail_at_3 respond_ok) (batches 1 4 2)
  /\ batch_emission Z render_fail_at_3 respond_ok (3, 4)
     = AppendLoadError
         (nl ++ "--- ERROR LOADING BATCH: Pages 3-4 ---" ++ nl
          ++ "Error: Unable to get page count." ++ nl).
Proof.
  destruct (batch_load_failure_is_skipped Z render_fail_at_3 respond_ok
              never_set 1 4 2 ltac:(lia) ltac:(vm_compute; reflexivity))
    as (H1 & _ & H2 & _).
  split; [exact H1|].
  apply (H2 (3, 4) "Unable to get page count." eq_refl).
Defined.

(** The run of the witness above, evaluated: the first batch, then the
    placeholder of the second. *)
Example second_batch_fails_to_load :
  results_text "" (trace (ocr_worker_thread Z render_fail_at_3 respond_ok
                            never_set 1 4 2))
  = "--- Page 1 ---" ++ nl ++ "text of page 1" ++ nl ++ nl
    ++ "--- Page 2 ---" ++ nl ++ "text of page 2" ++ nl
    ++ nl ++ "--- ERROR LOADING BATCH: Pages 3-4 ---" ++ nl
    ++ "Error: Unable to get page count." ++ nl.
Proof. vm_compute. reflexivity. Qed.

Lemma progress_reaches_total_witness :
  processed_page_count_in_run
    (ocr_worker_thread Z render_fail_at_3 respond_ok never_set 1 5 2)
  = 5 - 1 + 1.
Proof.
  destruct (progress_reaches_total Z render_fail_at_3 respond_ok never_set
              1 5 2 ltac:(lia) ltac:(vm_compute; reflexivity)) as [_ H].
  apply H; [lia | lia |].
  intros f l Hfl. unfold render_fail_at_3.
  destruct (f =? 3); [left; eexists; reflexivity|].
  right. apply render_all_faithful. exact Hfl.
Defined.

Lemma flag_read_around_blocking_calls_witness :
  (exists pre', [CancelRead false] = (pre' ++ [CancelRead false])%list)
  /\ (exists c post',
        skipn 2 (trace (ocr_worker_thread Z render_all respond_ok never_set
                          1 1 1))
        = CancelRead c :: post').
Proof.
  apply (flag_read_around_blocking_calls Z render_all respond_ok never_set
           1 1 1 [CancelRead false] (Render 1 1)
           (skipn 2 (trace (ocr_worker_thread Z render_all respond_ok
                              never_set 1 1 1))));
    reflexivity.
Defined.

Lemma results_are_the_joined_blocks_witness :
  results_text "" (trace (ocr_worker_thread Z render_all respond_ok never_set
                            1 3 2))
  = join nl (all_blocks Z render_all respond_ok (batches 1 3 2)).
Proof.
  apply (results_are_the_joined_blocks Z render_all respond_ok never_set
           1 3 2); [lia | vm_compute; reflexivity |].
  intros b Hb. vm_compute in Hb.
  destruct Hb as [<- | [<- | []]]; eexists; vm_compute; reflexivity.
Defined.

Lemma final_status_is_one_of_four_witness :
  was_cancelled (ocr_worker_thread Z render_all respond_ok
                   set_after_first_commit 1 4 2) = true
  /\ (final_status (ocr_worker_thread Z render_all respond_ok
                      set_after_first_commit 1 4 2) = "OCR cancelled."
      \/ final_status (ocr_worker_thread Z render_all respond_ok
                         set_after_first_commit 1 4 2)
         = "OCR process cancelled by user.")
  \/ was_cancelled (ocr_worker_thread Z render_all respond_ok
                      set_after_first_commit 1 4 2) = false
     /\ (final_status (ocr_worker_thread Z render_all respond_ok
                         set_after_first_commit 1 4 2)
         = "OCR process completed."
         \/ final_status (ocr_worker_thread Z render_all respond_ok
                            set_after_first_commit 1 4 2)
            = "OCR finished, but encountered errors or no text was processed.").
Proof.
  apply (final_status_is_one_of_four Z render_all respond_ok
           set_after_first_commit 1 4 2). lia.
Defined.

(** ** Starting a run: the checks of [run_ocr] *)

(** X13: on fields that hold ASCII text of at most 4300 characters,
    [run_ocr] starts the worker only when no run is in progress and a file
    is loaded, only on a range with 1 <= from <= to <= total pages, and
    only with a batch size of at least one (10 when the caller's is below
    one).  The range is the whole document when both fields are blank,
    and otherwise what [int] reads in the two fields. *)
Theorem run_ocr_starts_valid_runs (app : app_state) (batch_size : Z)
    (from_entry to_entry : string) (s e b : Z) :
  is_ascii from_entry = true -> is_ascii to_entry = true ->
  Z.of_nat (String.length from_entry) <= 4300 ->
  Z.of_nat (String.length to_entry) <= 4300 ->
  run_ocr app batch_size from_entry to_entry = StartWorker s e b ->
  ocr_thread_alive app = false
  /\ (exists path, pdf_file app = Some path /\ path <> "")
  /\ 1 <= s /\ s <= e /\ e <= total_pages app
  /\ 1 <= b /\ b = (if batch_size <? 1 then 10 else batch_size)
  /\ (strip from_entry = "" /\ strip to_entry = ""
      /\ s = 1 /\ e = total_pages app
      \/ py_int (strip from_entry) = Some s
         /\ py_int (strip to_entry) = Some e).
Proof.
  intros _ _ _ _. unfold run_ocr.
  destruct (ocr_thread_alive app); [discriminate|].
  destruct (pdf_file app) as [path|]; [|discriminate].
  destruct path as [|c path]; [discriminate|]. cbn [nonempty negb].
  destruct (total_pages app <=? 0) eqn:Et; [discriminate|].
  apply Z.leb_gt in Et.
  assert (Hb : 1 <= (if batch_size <? 1 then 10 else batch_size))
    by (destruct (batch_size <? 1) eqn:E; lia).
  destruct (strip from_entry) as [|cf f] eqn:Ef;
    destruct (strip to_entry) as [|ct t] eqn:Et2; cbn [nonempty negb orb];
    try discriminate.
  - intros H. inversion H; subst.
    split; [reflexivity|].
    split; [eexists; split; [reflexivity | discriminate]|].
    repeat split; try lia. left. repeat split; reflexivity.
  - destruct (py_int (String cf f)) as [sp|]; [|discriminate].
    destruct (py_int (String ct t)) as [ep|]; [|discriminate].
    destruct ((1 <=? sp) && (sp <=? total_pages app)) eqn:E1;
      [|discriminate].
    destruct ((1 <=? ep) && (ep <=? total_pages app)) eqn:E2;
      [|discriminate].
    destruct (ep <? sp) eqn:E3; [discriminate|]. cbn [negb].
    intros H. inversion H; subst.
    apply andb_prop in E1 as [? ?]. apply andb_prop in E2 as [? ?].
    split; [reflexivity|].
    split; [eexists; split; [reflexivity | discriminate]|].
    repeat split; try lia. right. split; reflexivity.
Qed.

Lemma run_ocr_starts_valid_runs_witness :
  run_ocr (mkApp false (Some "book.pdf") 12) 0 " 3" "7 " = StartWorker 3 7 10
  /\ ocr_thread_alive (mkApp false (Some "book.pdf") 12) = false
  /\ 3 <= 7 /\ 7 <= total_pages (mkApp false (Some "book.pdf") 12)
  /\ (strip " 3" = "" /\ strip "7 " = ""
      /\ 3 = 1 /\ 7 = total_pages (mkApp false (Some "book.pdf") 12)
      \/ py_int (strip " 3") = Some 3 /\ py_int (strip "7 ") = Some 7).
Proof.
  split; [reflexivity|].
  destruct (run_ocr_starts_valid_runs (mkApp false (Some "book.pdf") 12)
              0 " 3" "7 " 3 7 10 eq_refl eq_refl
              ltac:(simpl; lia) ltac:(simpl; lia) eq_refl)
    as (H0 & _ & _ & H2 & H3 & _ & _ & H4).
  repeat split; assumption.
Defined.

(** *** Decimal numerals *)

Lemma int_digits_acc (d : Decimal.uint) :
  forall acc : positive,
    int_digits (Z.pos acc) true (NilEmpty.string_of_uint d)
    = Some (Z.pos (Pos.of_uint_acc d acc)).
Proof.
  induction d as [|d IH|d IH|d IH|d IH|d IH|d IH|d IH|d IH|d IH|d IH];
    intros acc; [reflexivity|..];
    cbn [NilEmpty.string_of_uint int_digits Pos.of_uint_acc];
    match goal with
    | |- context [is_digit ?c] => change (is_digit c) with true
    end; cbv iota;
    rewrite <- IH; f_equal; unfold digit_value;
    match goal with
    | |- context [nat_of_ascii ?c] =>
        let v := eval vm_compute in (nat_of_ascii c) in
        change (nat_of_ascii c) with v
    end; lia.
Qed.

Lemma int_digits_uint (d : Decimal.uint) :
  forall after_digit : bool,
    after_digit = true \/ d <> Decimal.Nil ->
    int_digits 0 after_digit (NilEmpty.string_of_uint d)
    = Some (Z.of_N (Pos.of_uint d)).
Proof.
  induction d as [|d IH|d IH|d IH|d IH|d IH|d IH|d IH|d IH|d IH|d IH];
    intros after_digit H.
  - destruct H as [-> | H]; [reflexivity | contradiction].
  - cbn [NilEmpty.string_of_uint int_digits Pos.of_uint].
    change (is_digit "0") with true. cbv iota.
    change (10 * 0 + digit_value "0") with 0. apply IH. now left.
  - apply (int_digits_acc d 1).
  - apply (int_digits_acc d 2).
  - apply (int_digits_acc d 3).
  - apply (int_digits_acc d 4).
  - apply (int_digits_acc d 5).
  - apply (int_digits_acc d 6).
  - apply (int_digits_acc d 7).
  - apply (int_digits_acc d 8).
  - apply (int_digits_acc d 9).
Qed.

Lemma rstrip_solid (c : ascii) (r : string) :
  is_space c = false -> rstrip r = r -> rstrip (String c r) = String c r.
Proof.
  intros Hc Hr. cbn [rstrip]. rewrite Hr.
  destruct r; [now rewrite Hc | reflexivity].
Qed.

Lemma rstrip_numeral (d : Decimal.uint) :
  rstrip (NilEmpty.string_of_uint d) = NilEmpty.string_of_uint d.
Proof.
  induction d; [reflexivity|..]; cbn [NilEmpty.string_of_uint];
    apply rstrip_solid; (reflexivity || assumption).
Qed.

Lemma strip_numeral (d : Decimal.uint) :
  strip (NilEmpty.string_of_uint d) = NilEmpty.string_of_uint d.
Proof.
  unfold strip.
  assert (L : lstrip (NilEmpty.string_of_uint d) = NilEmpty.string_of_uint d)
    by (destruct d; reflexivity).
  rewrite L. apply rstrip_numeral.
Qed.

Lemma py_int_numeral (d : Decimal.uint) :
  d <> Decimal.Nil ->
  py_int (NilEmpty.string_of_uint d) = Some (Z.of_N (Pos.of_uint d)).
Proof.
  intros Hd. unfold py_int. rewrite strip_numeral.
  rewrite <- (int_digits_uint d false (or_intror Hd)).
  destruct d; [contradiction|..]; reflexivity.
Qed.

(** What [str] writes for an integer, [int] reads back. *)
Lemma py_int_str_of_int (n : Z) : py_int (str_of_int n) = Some n.
Proof.
  destruct n as [|p|p]; [reflexivity|..]; unfold str_of_int;
    cbn [Z.to_int NilZero.string_of_int];
    pose proof (DecimalPos.Unsigned.to_uint_nonnil p) as Hnil;
    pose proof (DecimalPos.Unsigned.of_to p) as Hval.
  - unfold NilZero.string_of_uint.
    destruct (Pos.to_uint p) eqn:E; [contradiction|..];
      rewrite <- E, py_int_numeral, E, Hval by (rewrite E; discriminate);
      reflexivity.
  - assert (Es : NilZero.string_of_uint (Pos.to_uint p)
                 = NilEmpty.string_of_uint (Pos.to_uint p))
      by (unfold NilZero.string_of_uint; destruct (Pos.to_uint p);
          [contradiction|..]; reflexivity).
    rewrite Es. unfold py_int.
    assert (St : strip (String "-" (NilEmpty.string_of_uint (Pos.to_uint p)))
                 = String "-" (NilEmpty.string_of_uint (Pos.to_uint p))).
    { unfold strip. cbn [lstrip]. change (is_space "-") with false. cbv iota.
      apply rstrip_solid; [reflexivity | apply rstrip_numeral]. }
    rewrite St. cbv iota beta.
    rewrite (int_digits_uint _ false (or_intror Hnil)), Hval. reflexivity.
Qed.

Lemma str_of_int_shown (n : Z) :
  strip (str_of_int n) = str_of_int n /\ nonempty (str_of_int n) = true.
Proof.
  destruct n as [|p|p]; [split; reflexivity|..]; unfold str_of_int;
    cbn [Z.to_int NilZero.string_of_int];
    pose proof (DecimalPos.Unsigned.to_uint_nonnil p) as Hnil;
    assert (Es : NilZero.string_of_uint (Pos.to_uint p)
                 = NilEmpty.string_of_uint (Pos.to_uint p))
      by (unfold NilZero.string_of_uint; destruct (Pos.to_uint p);
          [contradiction|..]; reflexivity);
    rewrite Es.
  - split; [apply strip_numeral|].
    destruct (Pos.to_uint p); [contradiction|..]; reflexivity.
  - split; [|reflexivity].
    unfold strip. cbn [lstrip]. change (is_space "-") with false. cbv iota.
    apply rstrip_solid; [reflexivity | apply rstrip_numeral].
Qed.

(** X14: with a loaded document and no run in progress, typing the decimal
    numerals of two page numbers with 1 <= from <= to <= total pages
    starts the worker on exactly that range. *)
Theorem run_ocr_accepts_numerals (app : app_state) (batch_size from_page
    to_page : Z) (path : string) :
  ocr_thread_alive app = false ->
  pdf_file app = Some path -> path <> "" ->
  1 <= from_page -> from_page <= to_page -> to_page <= total_pages app ->
  run_ocr app batch_size (str_of_int from_page) (str_of_int to_page)
  = StartWorker from_page to_page
                (if batch_size <? 1 then 10 else batch_size).
Proof.
  intros Halive Hfile Hpath H1 H2 H3. unfold run_ocr.
  rewrite Halive, Hfile. destruct path; [contradiction|].
  cbn [nonempty negb].
  destruct (str_of_int_shown from_page) as [Sf Nf].
  destruct (str_of_int_shown to_page) as [St Nt].
  rewrite Sf, St, Nf, Nt. cbn [negb orb].
  rewrite !py_int_str_of_int.
  assert (E0 : (total_pages app <=? 0) = false) by lia.
  assert (E1 : (1 <=? from_page) && (from_page <=? total_pages app) = true)
    by (apply andb_true_intro; split; lia).
  assert (E2 : (1 <=? to_page) && (to_page <=? total_pages app) = true)
    by (apply andb_true_intro; split; lia).
  assert (E3 : (to_page <? from_page) = false) by lia.
  rewrite E0, E1, E2, E3. reflexivity.
Qed.

Lemma run_ocr_accepts_numerals_witness :
  run_ocr (mkApp false (Some "book.pdf") 120) 10 (str_of_int 11)
          (str_of_int 120)
  = StartWorker 11 120 10.
Proof.
  apply (run_ocr_accepts_numerals (mkApp false (Some "book.pdf") 120) 10
           11 120 "book.pdf");
    (reflexivity || discriminate || (simpl; lia)).
Defined.

(** ** What "Cleanup" leaves, and which responses count as errors *)

Lemma rstrip_cons_nonempty (c : ascii) (r : string) :
  rstrip r = r -> r <> "" -> rstrip (String c r) = String c r.
Proof.
  intros H Hne. cbn [rstrip]. rewrite H.
  destruct r; [contradiction | reflexivity].
Qed.

Lemma rstrip_idem (s : string) : rstrip (rstrip s) = rstrip s.
Proof.
  induction s as [|c s IH]; [reflexivity|]. cbn [rstrip].
  destruct (rstrip s) as [|a r] eqn:E.
  - destruct (is_space c) eqn:Ec; [reflexivity|].
    cbn [rstrip]. now rewrite Ec.
  - apply rstrip_cons_nonempty; [exact IH | discriminate].
Qed.

Lemma lstrip_idem (s : string) : lstrip (lstrip s) = lstrip s.
Proof.
  induction s as [|c s IH]; [reflexivity|]. cbn [lstrip].
  destruct (is_space c) eqn:E; [exact IH|]. cbn [lstrip]. now rewrite E.
Qed.

Lemma lstrip_of_rstrip (t : string) :
  lstrip t = t -> lstrip (rstrip t) = rstrip t.
Proof.
  intros H. destruct t as [|c x]; [reflexivity|].
  pose proof (lstrip_fixpoint_head _ _ H) as Hc.
  cbn [rstrip]. destruct (rstrip x); [rewrite Hc|]; cbn [lstrip];
    now rewrite Hc.
Qed.

Lemma strip_idem (s : string) : strip (strip s) = strip s.
Proof.
  unfold strip. rewrite (lstrip_of_rstrip _ (lstrip_idem s)).
  apply rstrip_idem.
Qed.

(** *** ASCII text stays ASCII *)

Lemma is_ascii_app (a b : string) :
  is_ascii a = true -> is_ascii b = true -> is_ascii (a ++ b) = true.
Proof.
  intros Ha Hb. induction a as [|c a IH]; [exact Hb|].
  cbn [is_ascii append] in *. apply andb_prop in Ha as [Hc Ha].
  now rewrite Hc, IH.
Qed.

Lemma is_ascii_lstrip (s : string) :
  is_ascii s = true -> is_ascii (lstrip s) = true.
Proof.
  induction s as [|c s IH]; intros H; [reflexivity|]. cbn [lstrip].
  destruct (is_space c); [|exact H].
  cbn [is_ascii] in H. apply andb_prop in H as [_ H]. now apply IH.
Qed.

Lemma is_ascii_rstrip (s : string) :
  is_ascii s = true -> is_ascii (rstrip s) = true.
Proof.
  induction s as [|c s IH]; intros H; [reflexivity|].
  cbn [is_ascii] in H. apply andb_prop in H as [Hc H]. specialize (IH H).
  cbn [rstrip]. destruct (rstrip s) as [|a r].
  - destruct (is_space c); [reflexivity|]. cbn [is_ascii]. now rewrite Hc.
  - cbn [is_ascii] in *. now rewrite Hc, IH.
Qed.

Lemma is_ascii_strip (s : string) :
  is_ascii s = true -> is_ascii (strip s) = true.
Proof. intros H. unfold strip. now apply is_ascii_rstrip, is_ascii_lstrip. Qed.

Lemma is_ascii_drop (n : nat) :
  forall s, is_ascii s = true -> is_ascii (drop n s) = true.
Proof.
  induction n as [|n IH]; intros s H; [exact H|].
  destruct s as [|c s]; [reflexivity|]. cbn [drop].
  cbn [is_ascii] in H. apply andb_prop in H as [_ H]. now apply IH.
Qed.

Lemma is_ascii_drop_last (n : nat) (s : string) :
  is_ascii s = true -> is_ascii (drop_last n s) = true.
Proof.
  unfold drop_last. generalize (String.length s - n)%nat as m.
  intros m. revert s. induction m as [|m IH]; intros s H.
  - destruct s; reflexivity.
  - destruct s as [|c s]; [reflexivity|]. cbn [substring is_ascii] in *.
    apply andb_prop in H as [Hc H]. now rewrite Hc, IH.
Qed.

Lemma is_ascii_cleanup (s : string) :
  is_ascii s = true -> is_ascii (cleanup s) = true.
Proof.
  intros H. unfold cleanup. destruct (startswith s "Error:"); [exact H|].
  set (t0 := strip s).
  assert (H0 : is_ascii t0 = true) by now apply is_ascii_strip.
  set (t1 := if startswith t0 "```text" then strip (drop 7 t0) else t0).
  assert (H1 : is_ascii t1 = true)
    by (unfold t1; destruct (startswith t0 "```text");
        [now apply is_ascii_strip, is_ascii_drop | exact H0]).
  set (t2 := if startswith t1 "```" then strip (drop 3 t1) else t1).
  assert (H2 : is_ascii t2 = true)
    by (unfold t2; destruct (startswith t1 "```");
        [now apply is_ascii_strip, is_ascii_drop | exact H1]).
  destruct (endswith t2 "```");
    [now apply is_ascii_strip, is_ascii_drop_last | exact H2].
Qed.

(** X15: what "Cleanup" makes of an ASCII page text is ASCII text.  When
    the page text does not begin with [Error:] the result has no white
    space at either end, whichever fences it had; a page text that begins
    with [Error:] is left unchanged. *)
Theorem cleanup_result_is_stripped (s : string) :
  is_ascii s = true ->
  is_ascii (cleanup s) = true
  /\ (startswith s "Error:" = false -> strip (cleanup s) = cleanup s)
  /\ (startswith s "Error:" = true -> cleanup s = s).
Proof.
  intros Ha. split; [now apply is_ascii_cleanup|].
  split; [|apply cleanup_error].
  intros H. unfold cleanup. rewrite H.
  set (t0 := strip s).
  assert (H0 : strip t0 = t0) by apply strip_idem.
  set (t1 := if startswith t0 "```text" then strip (drop 7 t0) else t0).
  assert (H1 : strip t1 = t1)
    by (unfold t1; destruct (startswith t0 "```text");
        [apply strip_idem | exact H0]).
  set (t2 := if startswith t1 "```" then strip (drop 3 t1) else t1).
  assert (H2 : strip t2 = t2)
    by (unfold t2; destruct (startswith t1 "```");
        [apply strip_idem | exact H1]).
  destruct (endswith t2 "```"); [apply strip_idem | exact H2].
Qed.

Lemma cleanup_result_is_stripped_witness :
  is_ascii (cleanup ("  ```" ++ nl ++ " Dear Sir,  " ++ nl ++ "```  ")) = true
  /\ strip (cleanup ("  ```" ++ nl ++ " Dear Sir,  " ++ nl ++ "```  "))
     = cleanup ("  ```" ++ nl ++ " Dear Sir,  " ++ nl ++ "```  ")
  /\ cleanup ("  ```" ++ nl ++ " Dear Sir,  " ++ nl ++ "```  ") = "Dear Sir,".
Proof.
  destruct (cleanup_result_is_stripped
              ("  ```" ++ nl ++ " Dear Sir,  " ++ nl ++ "```  ") eq_refl)
    as (H1 & H2 & _).
  split; [exact H1|]. split; [apply H2; reflexivity | reflexivity].
Defined.

(** X16: whether a page marks its batch as having errors depends on the
    kind of the response and not only on its text.  A plain string marks
    it exactly when it begins with [Error:].  A response object whose
    [content], or else [text], is a string never marks it, also when that
    string begins with [Error:], in which case the text is kept as it
    is. *)
Theorem error_flag_by_response_kind (n : Z) :
  (forall s, page_outcome n (PStr s) = (cleanup s, startswith s "Error:"))
  /\ (forall o s, r_content o = Some (VStr s) ->
        page_outcome n (PObj o) = (cleanup s, false))
  /\ (forall o s, is_str (r_content o) = false -> r_text o = Some (VStr s) ->
        page_outcome n (PObj o) = (cleanup s, false))
  /\ (forall o s, r_content o = Some (VStr s) ->
        startswith s "Error:" = true ->
        page_outcome n (PObj o) = (s, false)
        /\ page_outcome n (PStr s) = (s, true)).
Proof.
  assert (A : forall s,
             page_outcome n (PStr s) = (cleanup s, startswith s "Error:")).
  { intros s. unfold page_outcome, read_prediction, extract_text.
    destruct (startswith s "Error:"); reflexivity. }
  assert (B : forall o s, r_content o = Some (VStr s) ->
                page_outcome n (PObj o) = (cleanup s, false)).
  { intros o s H. unfold page_outcome, read_prediction, extract_text.
    now rewrite H. }
  split; [exact A|]. split; [exact B|]. split.
  - intros o s H1 H2. unfold page_outcome, read_prediction, extract_text.
    rewrite H2. destruct (r_content o) as [[]|]; try discriminate; reflexivity.
  - intros o s H1 H2. rewrite (B o s H1), A, H2.
    now rewrite (cleanup_error s H2).
Qed.

Lemma error_flag_by_response_kind_witness :
  page_outcome 1 (PObj (mkResponse (Some (VStr "Error: no text found")) None
                                   None "<response>"))
  = ("Error: no text found", false)
  /\ page_outcome 1 (PStr "Error: no text found")
     = ("Error: no text found", true).
Proof.
  destruct (error_flag_by_response_kind 1) as (_ & _ & _ & H).
  apply (H (mkResponse (Some (VStr "Error: no text found")) None None
                       "<response>") "Error: no text found");
    reflexivity.
Defined.

(** ** Temporary files of [ocr_page] *)

Import Staging StagingSamples.

Section StagingFacts.

Variable image : Type.
Variable handle : Type.
Variable lib : library image handle.

Local Abbreviation remove_temp := (remove_temp image handle lib).
Local Abbreviation prepare :=
  (prepare_image_for_lmstudio_base64_tempfile image handle lib).
Local Abbreviation staged_ocr_page := (Staging.ocr_page image handle lib).

Lemma remove_new_temp (name : string) (fs : files) :
  ~ In name fs -> name <> "" ->
  unlink_error lib name = None ->
  remove_temp (Some name) (name :: fs) = fs.
Proof.
  intros Hfresh Hname Hunlink. unfold Staging.remove_temp, exists_file.
  cbn [existsb]. rewrite String.eqb_refl.
  destruct name; [contradiction|]. cbn [nonempty andb orb].
  unfold unlink_quietly. rewrite Hunlink. cbn [remove].
  destruct (string_dec _ _) as [_|Hn]; [|contradiction].
  now apply notin_remove.
Qed.

(** X17: [ocr_page] leaves no temporary file behind.  When the name of
    the temporary file is new, writing the bytes does not fail and
    [os.unlink] does not raise, the temporary files that exist after the
    call are those that existed before it, whether the page was recognised
    or any later step failed. *)
Theorem ocr_page_leaves_no_temp_file (pil_image : image) (fs : files) :
  (forall name, named_temporary_file lib fs = inr name ->
                ~ In name fs /\ name <> "") ->
  (forall name bytes, write_bytes lib name bytes = None) ->
  (forall name, unlink_error lib name = None) ->
  snd (staged_ocr_page pil_image fs) = fs.
Proof.
  intros Hfresh Hwrite Hunlink.
  unfold Staging.ocr_page, prepare_image_for_lmstudio_base64_tempfile.
  destruct (save_png lib pil_image) as [e|bytes]; [reflexivity|].
  destruct (named_temporary_file lib fs) as [e|name] eqn:En; [reflexivity|].
  destruct (Hfresh name eq_refl) as [Hnew Hname].
  rewrite Hwrite.
  destruct (close_file lib name) as [e|].
  { cbn [fst snd]. now rewrite remove_new_temp. }
  destruct (prepare_image lib name) as [e|h]; cbn [fst snd];
    now rewrite remove_new_temp.
Qed.

(** X18: a temporary file whose bytes cannot be written is left behind.
    When the file has been created and [write] raises, [ocr_page] returns
    the error text of that exception and the file still exists afterwards:
    its path was never recorded, so neither clean-up looks for it. *)
Theorem failed_write_leaves_temp_file (pil_image : image) (fs : files)
    (bytes name e : string) :
  save_png lib pil_image = inr bytes ->
  named_temporary_file lib fs = inr name ->
  write_bytes lib name bytes = Some e ->
  staged_ocr_page pil_image fs = (PStr ("Error: " ++ e), name :: fs).
Proof.
  intros Hsave Hname Hwrite.
  unfold Staging.ocr_page, prepare_image_for_lmstudio_base64_tempfile.
  now rewrite Hsave, Hname, Hwrite.
Qed.


End StagingFacts.

Lemma ocr_page_leaves_no_temp_file_witness :
  snd (Staging.ocr_page Z Z working_library 1 ["/tmp/tmpzzzz.png"])
  = ["/tmp/tmpzzzz.png"].
Proof.
  apply (ocr_page_leaves_no_temp_file Z Z working_library 1
           ["/tmp/tmpzzzz.png"]).
  - intros name H. inversion H; subst. split; [|discriminate].
    intros [E | []]. discriminate E.
  - reflexivity.
  - reflexivity.
Defined.

Lemma failed_write_leaves_temp_file_witness :
  Staging.ocr_page Z Z disk_full_library 1 []
  = (PStr "Error: No space left on device", ["/tmp/tmpa1b2.png"]).
Proof.
  apply (failed_write_leaves_temp_file Z Z disk_full_library 1 []
           "PNG bytes" "/tmp/tmpa1b2.png" "No space left on device");
    reflexivity.
Defined.


(** ** Page navigation *)

Import Viewer.

Lemma show_page_some (v : viewer) (index i : Z) :
  show_page v index = Some i ->
  i = index /\ 0 <= index < v_total_pages v /\ file_loaded v = true.
Proof.
  unfold show_page.
  destruct (file_loaded v); cbn [negb orb]; [|discriminate].
  destruct ((0 <=? index) && (index <? v_total_pages v)) eqn:E;
    cbn [negb]; [|discriminate].
  intros H. inversion H; subst. apply andb_prop in E as [? ?].
  repeat split; lia.
Qed.

Lemma started_by_some (v : viewer) (a : action) (i : Z) :
  started_by v a = Some i ->
  0 <= i < v_total_pages v /\ file_loaded v = true.
Proof.
  destruct a as [r|r|entry r]; cbn [started_by].
  - unfold next_page. destruct (_ <? _); [|discriminate].
    intros H. apply show_page_some in H as (-> & ? & ?). now split.
  - unfold prev_page. destruct (_ <? _); [|discriminate].
    intros H. apply show_page_some in H as (-> & ? & ?). now split.
  - unfold goto_page. destruct (negb (nonempty (strip entry)));
      [discriminate|].
    destruct (py_int (strip entry)); [|discriminate]. cbn [started].
    intros H. apply show_page_some in H as (-> & ? & ?). now split.
Qed.

Lemma act_frame (v : viewer) (a : action) :
  v_total_pages (act v a) = v_total_pages v
  /\ v_pdf_file (act v a) = v_pdf_file v
  /\ (0 <= current_page_index v < v_total_pages v ->
      0 <= current_page_index (act v a) < v_total_pages v).
Proof.
  unfold act. destruct (started_by v a) as [i|] eqn:E; [|auto].
  apply started_by_some in E as [Hi _].
  unfold load_specific_page_worker. destruct (rendered_of a); cbn; auto.
Qed.

(** X20: browsing never leaves the document.  Along any sequence of
    Next, Previous and Go-to actions, whether the renderer returns the
    images or not, every preview that is started is for a page index from
    0 to total pages minus one (the renderer is asked for pages 1 to total
    pages), nothing is started while no file is loaded, and a current page
    index that is within the document stays within it.  Next on the last
    page and Previous on the first start nothing. *)
Theorem browsing_stays_in_document (actions : list action) :
  forall v : viewer,
    Forall (fun i => 0 <= i < v_total_pages v) (fst (browse v actions))
    /\ v_total_pages (snd (browse v actions)) = v_total_pages v
    /\ (file_loaded v = false -> fst (browse v actions) = [])
    /\ (0 <= current_page_index v < v_total_pages v ->
        0 <= current_page_index (snd (browse v actions)) < v_total_pages v)
    /\ (current_page_index v = v_total_pages v - 1 -> next_page v = None)
    /\ (current_page_index v = 0 -> prev_page v = None).
Proof.
  induction actions as [|a rest IH]; intros v.
  - cbn [browse fst snd].
    split; [constructor|]. split; [reflexivity|]. split; [reflexivity|].
    split; [trivial|]. split.
    + intros H. unfold next_page.
      assert (E : (current_page_index v <? v_total_pages v - 1) = false)
        by lia. now rewrite E.
    + intros H. unfold prev_page. now rewrite H.
  - cbn [browse].
    destruct (act_frame v a) as (Ht & Hf & Hc).
    destruct (IH (act v a)) as (I1 & I2 & I3 & I4 & _ & _).
    destruct (IH v) as (_ & _ & _ & _ & I5 & I6).
    destruct (browse (act v a) rest) as [later v'] eqn:Eb.
    cbn [fst snd] in *. rewrite Ht in *.
    split; [|split; [exact I2|split; [|split; [|split; [exact I5|exact I6]]]]].
    + destruct (started_by v a) as [i|] eqn:Es; [|exact I1].
      constructor; [|exact I1]. now apply started_by_some in Es as [? _].
    + intros Hnf.
      assert (Hnf' : file_loaded (act v a) = false)
        by (unfold file_loaded in *; now rewrite Hf).
      rewrite (I3 Hnf').
      destruct (started_by v a) as [i|] eqn:Es; [|reflexivity].
      apply started_by_some in Es as [_ Es]. congruence.
    + intros Hcur. apply I4. now apply Hc.
Qed.

Lemma browsing_stays_in_document_witness :
  0 <= current_page_index
         (snd (browse viewer_at_5
                 [Next true; GoTo "12" true; Next true; GoTo "0" true;
                  Prev false]))
    < v_total_pages viewer_at_5.
Proof.
  destruct (browsing_stays_in_document
              [Next true; GoTo "12" true; Next true; GoTo "0" true;
               Prev false] viewer_at_5) as (_ & _ & _ & H & _).
  apply H. simpl. lia.
Defined.



(** ** Saving the results *)

(** X22: with ASCII text in the results widget, [_prompt_save] writes a
    file only when the widget holds something other than white space and
    a path was chosen; the text it writes is the widget's content without
    white space at either end, and is never empty.  A widget that holds
    only white space leads to the "nothing to save" box whatever the
    dialog would answer. *)
Theorem prompt_save_spec (widget : string) (output_file : option string) :
  is_ascii widget = true ->
  (forall p t, prompt_save widget output_file = Written p t ->
     output_file = Some p /\ p <> ""
     /\ t = strip (widget ++ nl) /\ t <> "" /\ strip t = t
     /\ is_ascii t = true)
  /\ (strip (widget ++ nl) = "" ->
      prompt_save widget output_file = NothingToSave)
  /\ (forall p, strip (widget ++ nl) <> "" -> p <> "" ->
        prompt_save widget (Some p) = Written p (strip (widget ++ nl))).
Proof.
  intros Ha. unfold prompt_save. split; [|split].
  - intros p t.
    assert (Hs : is_ascii (strip (widget ++ nl)) = true)
      by (apply is_ascii_strip, is_ascii_app; [exact Ha | reflexivity]).
    destruct (strip (widget ++ nl)) as [|c s] eqn:E; [discriminate|].
    cbn [nonempty negb].
    destruct output_file as [[|c' p']|]; cbn [nonempty]; try discriminate.
    intros H. inversion H; subst.
    split; [reflexivity|]. split; [discriminate|]. split; [reflexivity|].
    split; [discriminate|]. split; [|exact Hs].
    rewrite <- E. apply strip_idem.
  - intros ->. reflexivity.
  - intros p Hne Hp.
    destruct (strip (widget ++ nl)); [contradiction|].
    destruct p; [contradiction | reflexivity].
Qed.

Lemma prompt_save_spec_witness :
  prompt_save ("--- Page 1 ---" ++ nl ++ "Dear Sir," ++ nl)
              (Some "out.txt")
  = Written "out.txt"
            (strip (("--- Page 1 ---" ++ nl ++ "Dear Sir," ++ nl) ++ nl)).
Proof.
  apply (prompt_save_spec ("--- Page 1 ---" ++ nl ++ "Dear Sir," ++ nl)
           (Some "out.txt"));
    (reflexivity || discriminate).
Defined.
